(** * Streaming pipeline: entitlement, dispatch, detection, persistence

    A shallow embedding of the Python sources

      configs/websocket_config.py      (module [Config])
      src/data/stream_data.py          (modules [Dispatch], [Stocks])
      src/data/stream_crypto.py        (modules [Dispatch], [Crypto])
      src/data/database.py             (module [Persistence])
      src/data/backfill_historical.py  (module [Persistence])

    Conventions.  Python exceptions (instances of [Exception]) are values
    of [exn]; a call that may raise returns a [result], and a call that
    changes state returns the new state next to it.  Python numbers (int
    and float) are exact rationals [Q]; binary rounding is outside the
    model.  Strings are ASCII.  A [dict] with string keys is a
    [gmap string _] when only lookups matter and an association list
    when the order of the entries matters.  The wall clock is an
    argument [now] of the functions that read it, and the datetime
    library (formatting and parsing) is a parameter of the sections that
    use it.

    The definitions come first, module by module; [Spec] holds the
    notions the statements are phrased with and [Samples] the concrete
    inputs of the examples.  The properties follow. *)

From Stdlib Require Import Ascii String QArith.
From stdpp Require Import gmap strings list pretty.

Local Open Scope string_scope.
Local Open Scope list_scope.

(** ** Python values and exceptions *)

Module Py.

(** The exceptions this program meets, all instances of [Exception] and
    so all caught by [except Exception]. *)
Inductive exn : Type :=
| ValueError (msg : string)
| TypeError (msg : string)
| ZeroDivisionError
| AttributeError (msg : string)
| KeyError (key : string)
| IntegrityError (msg : string)
| InterfaceError (msg : string).

Inductive result (A : Type) : Type :=
| Ok (a : A)
| Raise (e : exn).
Arguments Ok {A} a.
Arguments Raise {A} e.

#[global] Instance result_ret : MRet result := fun _ a => Ok a.
#[global] Instance result_bind : MBind result :=
  fun _ _ f r => match r with Ok a => f a | Raise e => Raise e end.

(** A [datetime] object: an instant, in microseconds since the epoch. *)
Definition datetime : Type := Z.

(** The values a message or anomaly dictionary can hold.  [PyNum] covers
    int, float and bool; [PyObj] is a list or a dict, with a flag telling
    whether [json.dumps] accepts it. *)
Inductive pyval : Type :=
| PyNone
| PyNum (q : Q)
| PyStr (s : string)
| PyDatetime (t : datetime)
| PyObj (serializable : bool).

(** [if s:] on a string: the empty string is falsy. *)
Definition truthy (s : string) : bool :=
  match s with EmptyString => false | String _ _ => true end.

Definition ascii_upper (c : ascii) : ascii :=
  let n := nat_of_ascii c in
  if (97 <=? n)%nat && (n <=? 122)%nat then ascii_of_nat (n - 32) else c.

Definition ascii_lower (c : ascii) : ascii :=
  let n := nat_of_ascii c in
  if (65 <=? n)%nat && (n <=? 90)%nat then ascii_of_nat (n + 32) else c.

Fixpoint str_map (f : ascii -> ascii) (s : string) : string :=
  match s with
  | EmptyString => EmptyString
  | String c s' => String (f c) (str_map f s')
  end.

(** [s.upper()] and [s.lower()]. *)
Definition upper : string -> string := str_map ascii_upper.
Definition lower : string -> string := str_map ascii_lower.

(** [sub in s] on strings. *)
Fixpoint str_in (sub s : string) : bool :=
  String.prefix sub s ||
  match s with
  | EmptyString => false
  | String _ s' => str_in sub s'
  end.

(** [str(x)] for an optional string, as an f-string renders it. *)
Definition str_of_opt (o : option string) : string :=
  match o with Some s => s | None => "None" end.

(** [l[:-1]] and [l[-n:]] (for [n > 0]). *)
Definition but_last {A} (l : list A) : list A := take (length l - 1) l.
Definition last_n {A} (n : nat) (l : list A) : list A := drop (length l - n) l.

(** [sum(l)] over numbers. *)
Definition sum (l : list Q) : Q := foldl Qplus 0%Q l.

Definition len {A} (l : list A) : Q := inject_Z (Z.of_nat (length l)).

(** [x < y] on numbers. *)
Definition Qlt_bool (x y : Q) : bool := negb (Qle_bool y x).

(** [x / y]: true division raises on a zero divisor. *)
Definition truediv (x y : Q) : result Q :=
  if Qeq_bool y 0 then Raise ZeroDivisionError else Ok (x / y)%Q.

End Py.
Import Py.

(** ** configs/websocket_config.py *)

Module Config.

Inductive AssetType : Type :=
| STOCKS | CRYPTO | FOREX | INDICES | OPTIONS | FUTURES.

Inductive SubscriptionTier : Type :=
| BASIC | STARTER | DEVELOPER | ADVANCED.

#[global] Instance AssetType_eq_dec : EqDecision AssetType.
Proof. solve_decision. Defined.
#[global] Instance SubscriptionTier_eq_dec : EqDecision SubscriptionTier.
Proof. solve_decision. Defined.

(** The [.value] of the enum members. *)
Definition asset_value (a : AssetType) : string :=
  match a with
  | STOCKS => "stocks" | CRYPTO => "crypto" | FOREX => "forex"
  | INDICES => "indices" | OPTIONS => "options" | FUTURES => "futures"
  end.

Definition tier_value (t : SubscriptionTier) : string :=
  match t with
  | BASIC => "basic" | STARTER => "starter"
  | DEVELOPER => "developer" | ADVANCED => "advanced"
  end.

Definition all_asset_types : list AssetType :=
  [STOCKS; CRYPTO; FOREX; INDICES; OPTIONS; FUTURES].

Definition all_tiers : list SubscriptionTier :=
  [BASIC; STARTER; DEVELOPER; ADVANCED].

(** [SubscriptionTier(s)]: lookup of a member by value. *)
Definition tier_of_value (s : string) : result SubscriptionTier :=
  match find (fun t => String.eqb (tier_value t) s) all_tiers with
  | Some t => Ok t
  | None => Raise (ValueError ("'" +:+ s +:+ "' is not a valid SubscriptionTier"))
  end.

Definition WEBSOCKET_ENABLED_TIERS : list SubscriptionTier :=
  [STARTER; DEVELOPER; ADVANCED].

Definition tier_in (t : SubscriptionTier) (l : list SubscriptionTier) : bool :=
  bool_decide (t ∈ l).

(** [WEBSOCKET_BASE_URLS.get(tier)] *)
Definition WEBSOCKET_BASE_URLS (t : SubscriptionTier) : option string :=
  match t with
  | STARTER => Some "wss://delayed.polygon.io"
  | DEVELOPER => Some "wss://socket.polygon.io"
  | ADVANCED => Some "wss://socket.polygon.io"
  | BASIC => None
  end.

(** [DATA_TYPES.get(asset_type, {})]: code and description, in source order. *)
Definition DATA_TYPES (a : AssetType) : list (string * string) :=
  match a with
  | STOCKS => [("A", "aggregates"); ("AM", "aggregates_min");
               ("AS", "aggregates_sec"); ("T", "trades"); ("Q", "quotes")]
  | CRYPTO => [("XA", "aggregates"); ("XAS", "aggregates_sec");
               ("XT", "trades"); ("XQ", "quotes"); ("XL2", "level2")]
  | FOREX => [("C", "quotes"); ("CA", "aggregates")]
  | INDICES => [("I:SPX", "value"); ("V", "value"); ("A", "aggregates")]
  | OPTIONS => [("T", "trades"); ("Q", "quotes"); ("A", "aggregates")]
  | FUTURES => [("A", "aggregates"); ("T", "trades"); ("Q", "quotes")]
  end.

Definition TIER_RESTRICTED_DATA_TYPES : list (string * SubscriptionTier) :=
  [("AS", DEVELOPER); ("XAS", DEVELOPER); ("T", DEVELOPER); ("XT", DEVELOPER);
   ("Q", DEVELOPER); ("XQ", DEVELOPER); ("XL2", ADVANCED)].

(** [d.get(k)] and [k in d] on an association list with string keys. *)
Fixpoint dict_get {V} (d : list (string * V)) (k : string) : option V :=
  match d with
  | [] => None
  | (k', v) :: d' => if String.eqb k' k then Some v else dict_get d' k
  end.

Definition dict_mem {V} (d : list (string * V)) (k : string) : bool :=
  match dict_get d k with Some _ => true | None => false end.

(** The process environment, [os.getenv]. *)
Definition environ : Type := string -> option string.

Record WebSocketConfig : Type := {
  api_key : string;
  asset_subscriptions : list (AssetType * SubscriptionTier)
}.

Fixpoint subscriptions_get (d : list (AssetType * SubscriptionTier))
    (a : AssetType) : option SubscriptionTier :=
  match d with
  | [] => None
  | (a', t) :: d' => if decide (a' = a) then Some t else subscriptions_get d' a
  end.

(** The loop body of [__init__]: the tier named by [POLYGON_TIER_<ASSET>],
    [BASIC] when the variable is unset or names no tier. *)
Definition load_tier (env : environ) (a : AssetType) : SubscriptionTier :=
  let env_key := "POLYGON_TIER_" +:+ upper (asset_value a) in
  let tier_str := default "basic" (env env_key) in
  match tier_of_value (lower tier_str) with
  | Ok t => t
  | Raise _ => BASIC
  end.

Definition init (env : environ) : result WebSocketConfig :=
  match env "POLYGON_API_KEY" with
  | Some k =>
      if truthy k then
        Ok {| api_key := k;
              asset_subscriptions := map (fun a => (a, load_tier env a)) all_asset_types |}
      else Raise (ValueError "POLYGON_API_KEY not found in environment variables")
  | None => Raise (ValueError "POLYGON_API_KEY not found in environment variables")
  end.

Section Methods.
Variable env : environ.
Variable self : WebSocketConfig.

Definition get_subscription_tier (a : AssetType) : SubscriptionTier :=
  default BASIC (subscriptions_get (asset_subscriptions self) a).

Definition has_websocket_access (a : AssetType) : bool :=
  let tier := default BASIC (subscriptions_get (asset_subscriptions self) a) in
  tier_in tier WEBSOCKET_ENABLED_TIERS.

(** The override [POLYGON_WS_URL_<ASSET>], when set and not empty. *)
Definition url_override (a : AssetType) : option string :=
  let env_key := "POLYGON_WS_URL_" +:+ upper (asset_value a) in
  match env env_key with
  | Some env_url => if truthy env_url then Some env_url else None
  | None => None
  end.

Definition get_websocket_url (a : AssetType) : result string :=
  match url_override a with
  | Some env_url => Ok env_url
  | None =>
      let tier := get_subscription_tier a in
      if negb (tier_in tier WEBSOCKET_ENABLED_TIERS) then
        Raise (ValueError ("WebSocket not available for " +:+ asset_value a +:+
                           " on " +:+ tier_value tier +:+
                           " tier. Upgrade to Starter or higher."))
      else
        let base_url :=
          if bool_decide (a = CRYPTO) && bool_decide (tier = STARTER)
          then WEBSOCKET_BASE_URLS DEVELOPER
          else WEBSOCKET_BASE_URLS tier in
        Ok (str_of_opt base_url +:+ "/" +:+ asset_value a)
  end.

Definition tier_index (t : SubscriptionTier) : nat :=
  match t with BASIC => 0 | STARTER => 1 | DEVELOPER => 2 | ADVANCED => 3 end.

Definition _tier_meets_requirement (current_tier required_tier : SubscriptionTier) : bool :=
  (tier_index required_tier <=? tier_index current_tier)%nat.

Definition get_available_data_types (a : AssetType) (include_restricted : bool)
    : list (string * string) :=
  let all_types := DATA_TYPES a in
  if include_restricted then all_types
  else
    let tier := get_subscription_tier a in
    List.filter (fun cd =>
                   match dict_get TIER_RESTRICTED_DATA_TYPES cd.1 with
                   | None => true
                   | Some required_tier => _tier_meets_requirement tier required_tier
                   end) all_types.

Definition default_data_types (a : AssetType) : list string :=
  match a with
  | STOCKS => ["A"] | CRYPTO => ["XA"] | FOREX => ["C"]
  | INDICES => ["V"] | OPTIONS => ["A"] | FUTURES => ["A"]
  end.

(** The validation loop: the first requested code that is not a key of
    [available_types] raises. *)
Fixpoint validate (a : AssetType) (available_types : list (string * string))
    (data_types : list string) : result unit :=
  match data_types with
  | [] => Ok tt
  | dt :: rest =>
      if negb (dict_mem available_types dt) then
        let tier := get_subscription_tier a in
        Raise (ValueError ("Data type '" +:+ dt +:+ "' not available for " +:+
                           asset_value a +:+ " on " +:+ tier_value tier +:+ " tier"))
      else validate a available_types rest
  end.

(** The two nested loops that build the channel strings. *)
Definition build_channels (data_types symbols : list string) : list string :=
  data_type ← data_types; symbol ← symbols; [data_type +:+ "." +:+ symbol].

Definition get_subscription_channels (a : AssetType) (symbols : list string)
    (data_types : option (list string)) : result (list string) :=
  if negb (has_websocket_access a) then
    Raise (ValueError ("WebSocket not available for " +:+ asset_value a +:+
                       " with " +:+ tier_value (get_subscription_tier a) +:+ " tier"))
  else
    let data_types :=
      match data_types with
      | None => default_data_types a
      | Some dts => dts
      end in
    let available_types := get_available_data_types a false in
    match validate a available_types data_types with
    | Raise e => Raise e
    | Ok _ => Ok (build_channels data_types symbols)
    end.

Definition is_realtime_available (a : AssetType) : bool :=
  let tier := get_subscription_tier a in
  tier_in tier [DEVELOPER; ADVANCED].

(** [get_delay_minutes]: [None] stands for Python's [None] (no streaming). *)
Definition get_delay_minutes (a : AssetType) : option nat :=
  let tier := get_subscription_tier a in
  if bool_decide (tier = BASIC) then None
  else if bool_decide (tier = STARTER) then
    if bool_decide (a = CRYPTO) then Some 0%nat else Some 15%nat
  else Some 0%nat.

(** The value under ['data_delay_minutes'] of a summary entry: what
    [get_delay_minutes] returns, or the string ['N/A']. *)
Inductive delay_entry : Type :=
| DelayMinutes (d : option nat)
| DelayNA.

(** One entry of ['asset_subscriptions'] in the summary; [websocket_url]
    is [None] when the key is absent. *)
Record asset_info : Type := {
  info_tier : string;
  websocket_available : bool;
  data_delay_minutes : delay_entry;
  available_data_types : list string;
  websocket_url : option string
}.

Definition summary_entry (a : AssetType) : asset_info :=
  let tier := get_subscription_tier a in
  let has_websocket := has_websocket_access a in
  {| info_tier := tier_value tier;
     websocket_available := has_websocket;
     data_delay_minutes :=
       if has_websocket then DelayMinutes (get_delay_minutes a) else DelayNA;
     available_data_types :=
       if has_websocket then map fst (get_available_data_types a false) else [];
     websocket_url :=
       if has_websocket then
         match get_websocket_url a with
         | Ok url => Some url
         | Raise _ => Some "Not available"
         end
       else None |}.

(** [get_config_summary]: the flag and the entries, keyed by asset value,
    in the order of the enumeration. *)
Definition get_config_summary : bool * list (string * asset_info) :=
  (truthy (api_key self),
   map (fun a => (asset_value a, summary_entry a)) all_asset_types).

End Methods.

End Config.

(** ** Handler fan-out of the two WebSocket clients
    (src/data/stream_data.py, src/data/stream_crypto.py) *)

Module Dispatch.

Section Fanout.
(** [Msg] is the message object handed around; [World] is everything a
    handler can read or change, the contents of the message included. *)
Context {Msg World : Type}.

(** A registered callable: it leaves a world behind whether it returns
    or raises. *)
Definition handler : Type := Msg -> World -> World * result unit.

(** One iteration of the loop, as seen from outside. *)
Record call : Type := Call {
  callee : nat;            (** position in the handler list *)
  argument : Msg;
  outcome : result unit
}.

(** [try: handler(data)  except Exception as e: logger.error(...)] *)
Definition guarded_call (i : nat) (h : handler) (data : Msg) (w : World)
    : World * call :=
  let '(w', r) := h data w in
  match r with
  | Ok _ => (w', Call i data r)
  | Raise e => (w', Call i data (Raise e))
  end.

(** [for handler in self.data_handlers: ...] *)
Fixpoint call_all (i : nat) (handlers : list handler) (data : Msg) (w : World)
    : World * list call :=
  match handlers with
  | [] => (w, [])
  | h :: rest =>
      let '(w1, c) := guarded_call i h data w in
      let '(w2, cs) := call_all (S i) rest data w1 in
      (w2, c :: cs)
  end.

(** *** PolygonWebSocketClient *)

Record PolygonWebSocketClient : Type := {
  data_handlers : list handler;
  data_buffer : list Msg
}.

Definition add_data_handler (self : PolygonWebSocketClient) (h : handler)
    : PolygonWebSocketClient :=
  {| data_handlers := data_handlers self ++ [h];
     data_buffer := data_buffer self |}.

Definition _dispatch_data (self : PolygonWebSocketClient) (data : Msg) (w : World)
    : PolygonWebSocketClient * World * list call :=
  let self' := {| data_handlers := data_handlers self;
                  data_buffer := data_buffer self ++ [data] |} in
  let '(w', cs) := call_all 0 (data_handlers self') data w in
  (self', w', cs).

(** *** CryptoWebSocketClient *)

(** What [handle_crypto_data] does before its loop: the field
    extraction, [datetime.fromtimestamp], [store_market_data] and the
    formatted log line.  Any of them raising is caught by the outer
    [except]. *)
Variable prepare : Msg -> World -> World * result unit.

Record CryptoWebSocketClient : Type := {
  crypto_data_handlers : list handler
}.

Definition crypto_add_data_handler (self : CryptoWebSocketClient) (h : handler)
    : CryptoWebSocketClient :=
  {| crypto_data_handlers := crypto_data_handlers self ++ [h] |}.

Definition handle_crypto_data (self : CryptoWebSocketClient) (data : Msg) (w : World)
    : World * list call :=
  match prepare data w with
  | (w1, Raise _) => (w1, [])
  | (w1, Ok _) => call_all 0 (crypto_data_handlers self) data w1
  end.

End Fanout.

Arguments handler : clear implicits.
Arguments call : clear implicits.
Arguments PolygonWebSocketClient : clear implicits.
Arguments CryptoWebSocketClient : clear implicits.

End Dispatch.

(** ** src/data/database.py and the store of src/data/backfill_historical.py *)

Module Persistence.

(** What a column can hold.  [JSON d] is the text [json.dumps(d)]. *)
Inductive sqlval : Type :=
| NULL
| REAL (q : Q)
| TEXT (s : string)
| JSON (d : gmap string pyval).

Definition is_null (v : sqlval) : bool :=
  match v with NULL => true | _ => false end.

(** The columns an [INSERT] of this program writes; [id] and [created_at]
    are filled in by SQLite. *)
Record market_row : Type := {
  md_timestamp : sqlval;      (* NOT NULL *)
  md_symbol : string;         (* NOT NULL *)
  md_asset_type : string;     (* NOT NULL *)
  md_price : sqlval;          (* NOT NULL *)
  md_volume : sqlval;         (* NOT NULL *)
  md_high : sqlval;
  md_low : sqlval;
  md_open : sqlval;
  md_vwap : sqlval;
  md_raw_data : sqlval
}.

Record anomaly_row : Type := {
  start_time : sqlval;        (* NOT NULL *)
  end_time : sqlval;
  an_symbol : sqlval;         (* NOT NULL *)
  an_asset_type : string;     (* NOT NULL *)
  anomaly_type : sqlval;      (* NOT NULL *)
  an_multiplier : sqlval;
  current_value : sqlval;
  average_value : sqlval;
  status : sqlval;
  details : sqlval
}.

(** The two tables, rows in insertion order. *)
Record Database : Type := {
  market_data : list market_row;
  anomalies : list anomaly_row
}.

Definition empty_db : Database := {| market_data := []; anomalies := [] |}.

(** [d.get(k1, d.get(k2, dflt))] *)
Definition get2 (d : gmap string pyval) (k1 k2 : string) (dflt : pyval) : pyval :=
  default (default dflt (d !! k2)) (d !! k1).

Definition serializable (v : pyval) : bool :=
  match v with
  | PyDatetime _ => false
  | PyObj b => b
  | _ => true
  end.

Definition json_dumps (d : gmap string pyval) : result sqlval :=
  if bool_decide (map_Forall (fun _ v => serializable v = true) d)
  then Ok (JSON d)
  else Raise (TypeError "Object is not JSON serializable").

(** Evaluating an f-string field with a float format spec ([:.4f],
    [:,.0f], [:.2f]).  A datetime takes the spec as a strftime format. *)
Definition format_float (v : pyval) : result unit :=
  match v with
  | PyNum _ => Ok tt
  | PyDatetime _ => Ok tt
  | PyStr _ => Raise (ValueError "Unknown format code 'f' for object of type 'str'")
  | PyNone => Raise (TypeError "unsupported format string passed to NoneType.__format__")
  | PyObj _ => Raise (TypeError "unsupported format string passed to __format__")
  end.

Section Store.
(** The datetime library: [t.isoformat(sep)], [t.strftime(fmt)] and
    [datetime.fromisoformat(s)], which is [None] here where it raises. *)
Variable isoformat : string -> datetime -> string.
Variable strftime : string -> datetime -> string.
Variable fromisoformat : string -> option datetime.

(** How sqlite3 binds a parameter; datetimes go through the default
    adapter, lists and dicts are refused. *)
Definition bind_param (v : pyval) : result sqlval :=
  match v with
  | PyNone => Ok NULL
  | PyNum q => Ok (REAL q)
  | PyStr s => Ok (TEXT s)
  | PyDatetime t => Ok (TEXT (isoformat " " t))
  | PyObj _ => Raise (InterfaceError "Error binding parameter")
  end.

Definition not_null (column : string) (v : sqlval) : result unit :=
  if is_null v
  then Raise (IntegrityError ("NOT NULL constraint failed: " +:+ column))
  else Ok tt.

(** The timestamp of [store_market_data]; [now] is what [datetime.now()]
    returns when it is called. *)
Definition resolve_timestamp (data : gmap string pyval) (now : datetime)
    : result pyval :=
  match data !! "timestamp" with
  | Some (PyStr s) =>
      match fromisoformat s with
      | Some t => Ok (PyDatetime t)
      | None => Raise (ValueError ("Invalid isoformat string: " +:+ s))
      end
  | Some v => Ok v
  | None => Ok (PyDatetime now)
  end.

(** [INSERT INTO market_data (...) VALUES (?, ..., ?)] *)
Definition insert_market_data (db : Database)
    (timestamp : pyval) (symbol asset_type : string)
    (price volume high low open_price vwap : pyval) (raw_data : sqlval)
    : result Database :=
  ts ← bind_param timestamp;
  p ← bind_param price;
  v ← bind_param volume;
  h ← bind_param high;
  l ← bind_param low;
  o ← bind_param open_price;
  vw ← bind_param vwap;
  _ ← not_null "market_data.timestamp" ts;
  _ ← not_null "market_data.price" p;
  _ ← not_null "market_data.volume" v;
  Ok {| market_data := market_data db ++
          [ {| md_timestamp := ts; md_symbol := symbol; md_asset_type := asset_type;
               md_price := p; md_volume := v; md_high := h; md_low := l;
               md_open := o; md_vwap := vw; md_raw_data := raw_data |} ];
        anomalies := anomalies db |}.

(** The copy of [data] that is serialized: a datetime under
    ['timestamp'] is replaced by its ISO text. *)
Definition raw_data_copy (data : gmap string pyval) : gmap string pyval :=
  match data !! "timestamp" with
  | Some (PyDatetime t) => <["timestamp" := PyStr (isoformat "T" t)]> data
  | _ => data
  end.

(** [store_market_data].  A failure inside the [with] block rolls the
    insert back; the debug line is formatted after the commit. *)
Definition store_market_data (asset_type symbol : string)
    (data : gmap string pyval) (now : datetime) (db : Database)
    : Database * bool :=
  match resolve_timestamp data now with
  | Raise _ => (db, false)
  | Ok timestamp =>
      let price := get2 data "c" "close" (PyNum 0) in
      let volume := get2 data "v" "volume" (PyNum 0) in
      let high := get2 data "h" "high" PyNone in
      let low := get2 data "l" "low" PyNone in
      let open_price := get2 data "o" "open" PyNone in
      let vwap := get2 data "vw" "vwap" PyNone in
      match raw ← json_dumps (raw_data_copy data);
            insert_market_data db timestamp symbol asset_type
              price volume high low open_price vwap raw with
      | Raise _ => (db, false)
      | Ok db' =>
          match _ ← format_float price; format_float volume with
          | Raise _ => (db', false)
          | Ok _ => (db', true)
          end
      end
  end.

(** [INSERT INTO anomalies (start_time, symbol, asset_type, anomaly_type,
    multiplier, current_value, average_value, details)]; the columns
    left out take their defaults. *)
Definition insert_anomaly (db : Database)
    (start symbol : pyval) (asset_type : string)
    (type multiplier current average : pyval) (details_json : sqlval)
    : result Database :=
  st ← bind_param start;
  sy ← bind_param symbol;
  ty ← bind_param type;
  m ← bind_param multiplier;
  c ← bind_param current;
  a ← bind_param average;
  _ ← not_null "anomalies.start_time" st;
  _ ← not_null "anomalies.symbol" sy;
  _ ← not_null "anomalies.anomaly_type" ty;
  Ok {| market_data := market_data db;
        anomalies := anomalies db ++
          [ {| start_time := st; end_time := NULL; an_symbol := sy;
               an_asset_type := asset_type; anomaly_type := ty;
               an_multiplier := m; current_value := c; average_value := a;
               status := TEXT "detected"; details := details_json |} ] |}.

Definition store_anomaly (asset_type : string) (anomaly : gmap string pyval)
    (now : datetime) (db : Database) : Database * bool :=
  match details_json ← json_dumps anomaly;
        insert_anomaly db
          (PyDatetime now)
          (default (PyStr "") (anomaly !! "symbol"))
          asset_type
          (default (PyStr "") (anomaly !! "type"))
          (default (PyNum 0) (anomaly !! "multiplier"))
          (get2 anomaly "current_volume" "current_value" (PyNum 0))
          (get2 anomaly "average_volume" "average_value" (PyNum 0))
          details_json with
  | Raise _ => (db, false)
  | Ok db' =>
      match format_float (default (PyNum 0) (anomaly !! "multiplier")) with
      | Raise _ => (db', false)
      | Ok _ => (db', true)
      end
  end.

(** *** The backfill store *)

(** A row of the DataFrame built by [get_crypto_aggregates]: the index
    and the numeric columns; a missing [vwap] is NaN. *)
Record bar : Type := {
  bar_timestamp : datetime;
  bar_open : Q;
  bar_high : Q;
  bar_low : Q;
  bar_close : Q;
  bar_volume : Q;
  bar_vwap : option Q
}.

(** [SELECT COUNT( * ) FROM market_data WHERE timestamp = ? AND symbol = ?] *)
Definition key_matches (timestamp_str symbol : string) (r : market_row) : bool :=
  match md_timestamp r with
  | TEXT s => String.eqb s timestamp_str && String.eqb (md_symbol r) symbol
  | _ => false
  end.

Definition count_key (timestamp_str symbol : string) (db : Database) : nat :=
  length (List.filter (key_matches timestamp_str symbol) (market_data db)).

Definition bar_json (row : bar) : gmap string pyval :=
  let vwap := default (bar_close row) (bar_vwap row) in
  <["timestamp" := PyStr (isoformat "T" (bar_timestamp row))]>
  (<["open" := PyNum (bar_open row)]>
  (<["high" := PyNum (bar_high row)]>
  (<["low" := PyNum (bar_low row)]>
  (<["close" := PyNum (bar_close row)]>
  (<["volume" := PyNum (bar_volume row)]>
  (<["vwap" := PyNum vwap]> ∅)))))).

(** The body of the loop over [df.iterrows()]. *)
Definition upsert_row (symbol : string) (acc : Database * nat) (row : bar)
    : Database * nat :=
  let '(db, stored_count) := acc in
  let timestamp_str := strftime "%Y-%m-%d %H:%M:%S" (bar_timestamp row) in
  let exists_ := (0 <? count_key timestamp_str symbol db)%nat in
  if negb exists_ then
    ({| market_data := market_data db ++
          [ {| md_timestamp := TEXT timestamp_str;
               md_symbol := symbol;
               md_asset_type := "crypto";
               md_price := REAL (bar_close row);
               md_volume := REAL (bar_volume row);
               md_high := REAL (bar_high row);
               md_low := REAL (bar_low row);
               md_open := REAL (bar_open row);
               md_vwap := REAL (default (bar_close row) (bar_vwap row));
               md_raw_data := JSON (bar_json row) |} ];
        anomalies := anomalies db |},
     S stored_count)
  else (db, stored_count).

Definition store_to_database (df : list bar) (symbol : string) (db : Database)
    : Database * nat :=
  match df with
  | [] => (db, 0%nat)
  | _ => foldl (upsert_row symbol) (db, 0%nat) df
  end.

End Store.

End Persistence.

(** ** The anomaly detectors *)

(** What a detector does with an anomaly it has built: it hands the
    dictionary on (to [store_anomaly] where the source stores it, to the
    warning log, then to every registered callback, each call wrapped in
    its own [try]), or it logs an exception it caught. *)
Inductive effect : Type :=
| Emit (anomaly : gmap string pyval)
| LogError (e : exn).

Definition emitted (effs : list effect) : list (gmap string pyval) :=
  omap (fun e => match e with Emit a => Some a | LogError _ => None end) effs.

(** *** RealTimeDataProcessor (src/data/stream_data.py) *)

Module Stocks.

(** The dictionary built by [_handle_aggregate_message], with the fields
    the processor reads. *)
Record data : Type := {
  timestamp : datetime;
  symbol : string;
  close : Q;
  volume : Q;
  message_type : string
}.

Record symbol_store : Type := {
  recent_prices : list Q;
  recent_volumes : list Q;
  last_price : Q;
  last_volume : Q
}.

Record RealTimeDataProcessor : Type := {
  data_store : gmap string symbol_store
}.

Definition init : RealTimeDataProcessor := {| data_store := ∅ |}.

(** The ['data': data] entry of an anomaly: a dict holding a datetime. *)
Definition data_obj (d : data) : pyval := PyObj false.

Definition _check_for_anomalies (self : RealTimeDataProcessor) (sym : string) (d : data)
    : result (list effect) :=
  match data_store self !! sym with
  | None => Raise (KeyError sym)
  | Some store =>
      if (length (recent_volumes store) <? 5)%nat then Ok []
      else
        let current_volume := volume d in
        avg_volume ← truediv (sum (but_last (recent_volumes store)))
                             (len (but_last (recent_volumes store)));
        if Qlt_bool (avg_volume * 3) current_volume then
          multiplier ← truediv current_volume avg_volume;
          let anomaly : gmap string pyval :=
            <["type" := PyStr "volume_spike"]>
            (<["symbol" := PyStr sym]>
            (<["timestamp" := PyDatetime (timestamp d)]>
            (<["current_volume" := PyNum current_volume]>
            (<["average_volume" := PyNum avg_volume]>
            (<["multiplier" := PyNum multiplier]>
            (<["data" := data_obj d]> ∅)))))) in
          Ok [Emit anomaly]
        else Ok []
  end.

(** The store is updated in place before the check, so the update stays
    when the check raises; [last_price] and [last_volume] are then not
    written. *)
Definition _process_aggregate (self : RealTimeDataProcessor) (d : data)
    : RealTimeDataProcessor * result (list effect) :=
  let sym := symbol d in
  let store0 :=
    default {| recent_prices := []; recent_volumes := [];
               last_price := 0; last_volume := 0 |} (data_store self !! sym) in
  let current_price := close d in
  let current_volume := volume d in
  let store1 :=
    {| recent_prices := last_n 20 (recent_prices store0 ++ [current_price]);
       recent_volumes := last_n 20 (recent_volumes store0 ++ [current_volume]);
       last_price := last_price store0;
       last_volume := last_volume store0 |} in
  let self1 := {| data_store := <[sym := store1]> (data_store self) |} in
  match _check_for_anomalies self1 sym d with
  | Raise e => (self1, Raise e)
  | Ok effs =>
      let store2 :=
        {| recent_prices := recent_prices store1;
           recent_volumes := recent_volumes store1;
           last_price := current_price;
           last_volume := current_volume |} in
      ({| data_store := <[sym := store2]> (data_store self) |}, Ok effs)
  end.

(** [process_data]; the class has no [_process_trade]. *)
Definition process_data (self : RealTimeDataProcessor) (d : data)
    : RealTimeDataProcessor * result (list effect) :=
  if String.eqb (message_type d) "aggregate" then _process_aggregate self d
  else if String.eqb (message_type d) "trade" then
    (self, Raise (AttributeError
       "'RealTimeDataProcessor' object has no attribute '_process_trade'"))
  else (self, Ok []).

(** The processor registered as a handler and fed the messages in arrival
    order; an exception of one call is caught by the dispatcher. *)
Fixpoint run (self : RealTimeDataProcessor) (ticks : list data)
    : RealTimeDataProcessor * list (result (list effect)) :=
  match ticks with
  | [] => (self, [])
  | d :: rest =>
      let '(self1, r) := process_data self d in
      let '(self2, rs) := run self1 rest in
      (self2, r :: rs)
  end.

(** The volumes retained for a symbol. *)
Definition window (self : RealTimeDataProcessor) (sym : string) : list Q :=
  match data_store self !! sym with
  | Some store => recent_volumes store
  | None => []
  end.

Definition aggregate (sym : string) (vol : Q) : data :=
  {| timestamp := 0%Z; symbol := sym; close := 1; volume := vol;
     message_type := "aggregate" |}.

End Stocks.

(** *** CryptoDataProcessor (src/data/stream_crypto.py) *)

Module Crypto.

(** A crypto aggregate message, with the keys the processor reads; [None]
    is an absent key. *)
Record message : Type := {
  pair : option string;
  v : option Q;
  c : option Q;
  s : option Q
}.

Record observation : Type := {
  ob_volume : Q;
  ob_price : Q;
  ob_timestamp : Q
}.

(** [recent_data] is a [defaultdict] of [deque(maxlen=10)]: an absent key
    reads as the empty deque. *)
Record CryptoDataProcessor : Type := {
  recent_data : gmap string (list observation);
  volume_threshold : Q
}.

Definition init : CryptoDataProcessor :=
  {| recent_data := ∅; volume_threshold := 2 |}.

(** [d.append(x)] on a [deque(maxlen=maxlen)]: a full deque drops its
    oldest element. *)
Definition deque_append {A} (maxlen : nat) (d : list A) (x : A) : list A :=
  if (maxlen <=? length d)%nat then drop 1 d ++ [x] else d ++ [x].

Section Processor.
Variable isoformat : string -> datetime -> string.

Definition check_volume_anomaly (self : CryptoDataProcessor) (sym : string)
    (current_volume : Q) (now : datetime) : list effect :=
  let recent_volumes := map ob_volume (default [] (recent_data self !! sym)) in
  if (length recent_volumes <? 5)%nat then []
  else
    match truediv (sum (but_last recent_volumes)) (len (but_last recent_volumes)) with
    | Raise e => [LogError e]
    | Ok avg_volume =>
        if Qlt_bool 0 avg_volume then
          match truediv current_volume avg_volume with
          | Raise e => [LogError e]
          | Ok multiplier =>
              if Qle_bool (volume_threshold self) multiplier then
                let anomaly : gmap string pyval :=
                  <["type" := PyStr "volume_spike"]>
                  (<["symbol" := PyStr sym]>
                  (<["current_volume" := PyNum current_volume]>
                  (<["average_volume" := PyNum avg_volume]>
                  (<["multiplier" := PyNum multiplier]>
                  (<["timestamp" := PyStr (isoformat "T" now)]>
                  (<["market" := PyStr "crypto"]> ∅)))))) in
                [Emit anomaly]
              else []
          end
        else []
    end.

Definition process_data (self : CryptoDataProcessor) (data : message) (now : datetime)
    : CryptoDataProcessor * list effect :=
  let sym := default "UNKNOWN" (pair data) in
  let volume := default 0%Q (v data) in
  let close_price := default 0%Q (c data) in
  match truediv (default 0%Q (s data)) 1000 with
  | Raise e => (self, [LogError e])
  | Ok timestamp =>
      if Qle_bool volume 0 || Qle_bool close_price 0 then (self, [])
      else
        let self1 :=
          {| recent_data :=
               <[sym := deque_append 10 (default [] (recent_data self !! sym))
                          {| ob_volume := volume; ob_price := close_price;
                             ob_timestamp := timestamp |}]> (recent_data self);
             volume_threshold := volume_threshold self |} in
        (self1, check_volume_anomaly self1 sym volume now)
  end.

(** The processor fed the messages in arrival order; [now] is the clock
    reading during each call. *)
Fixpoint run (self : CryptoDataProcessor) (ticks : list (message * datetime))
    : CryptoDataProcessor * list (list effect) :=
  match ticks with
  | [] => (self, [])
  | (d, now) :: rest =>
      let '(self1, r) := process_data self d now in
      let '(self2, rs) := run self1 rest in
      (self2, r :: rs)
  end.

End Processor.

Definition window (self : CryptoDataProcessor) (sym : string) : list Q :=
  map ob_volume (default [] (recent_data self !! sym)).

(** A message is taken into the window when volume and price are positive. *)
Definition accepted (data : message) : bool :=
  negb (Qle_bool (default 0%Q (v data)) 0 || Qle_bool (default 0%Q (c data)) 0).

Definition tick (sym : string) (vol : Q) : message :=
  {| pair := Some sym; v := Some vol; c := Some 1%Q; s := Some 0%Q |}.

(** The message as the dictionary the client passes to [store_market_data]. *)
Definition to_dict (data : message) : gmap string pyval :=
  let put (k : string) (o : option pyval) (d : gmap string pyval) :=
    match o with Some x => <[k := x]> d | None => d end in
  put "pair" (PyStr <$> pair data)
    (put "v" (PyNum <$> v data)
      (put "c" (PyNum <$> c data)
        (put "s" (PyNum <$> s data) (<["ev" := PyStr "XA"]> ∅)))).

End Crypto.

(** ** src/data/stream_manager.py: which streams the manager sets up *)

Module Manager.
Import Config.

(** An [AssetStream] before it is started: the asset class and the
    symbols it will stream. *)
Record AssetStream : Type := {
  stream_asset : AssetType;
  stream_symbols : list string
}.

(** [StockStream(symbols)] and [CryptoStream(symbols)]: [if not symbols]
    replaces both [None] and the empty list by the default symbols. *)
Definition StockStream (symbols : option (list string)) : AssetStream :=
  {| stream_asset := STOCKS;
     stream_symbols :=
       match symbols with
       | Some (x :: l) => x :: l
       | _ => ["AAPL"; "GOOGL"; "MSFT"; "TSLA"; "VOO"]
       end |}.

Definition CryptoStream (symbols : option (list string)) : AssetStream :=
  {| stream_asset := CRYPTO;
     stream_symbols :=
       match symbols with
       | Some (x :: l) => x :: l
       | _ => ["X:BTCUSD"; "X:ETHUSD"; "X:ADAUSD"; "X:SOLUSD"; "X:DOTUSD"]
       end |}.

Record StreamManager : Type := {
  available_assets : gset string;
  streams : gmap string AssetStream
}.

(** The loop of [_check_available_assets]: an asset is kept when
    [get_websocket_url] returns. *)
Definition _check_available_assets (env : environ) (config : WebSocketConfig)
    : gset string :=
  foldl (fun (available : gset string) a =>
           match get_websocket_url env config a with
           | Ok _ => {[asset_value a]} ∪ available
           | Raise _ => available
           end) ∅ all_asset_types.

Definition init (env : environ) (config : WebSocketConfig) : StreamManager :=
  {| available_assets := _check_available_assets env config; streams := ∅ |}.

Definition add_stream (self : StreamManager) (asset_type : string)
    (symbols : option (list string)) : StreamManager :=
  if negb (bool_decide (asset_type ∈ available_assets self)) then self
  else if String.eqb asset_type "stocks" then
    {| available_assets := available_assets self;
       streams := <["stocks" := StockStream symbols]> (streams self) |}
  else if String.eqb asset_type "crypto" then
    {| available_assets := available_assets self;
       streams := <["crypto" := CryptoStream symbols]> (streams self) |}
  else self.

(** The first loop of [start_all]; [order] is the order in which the set
    of available assets is iterated. *)
Definition start_all_streams (self : StreamManager) (order : list string) : StreamManager :=
  foldl (fun m asset =>
           if bool_decide (asset ∈ ["stocks"; "crypto"]) then add_stream m asset None
           else m) self order.

(** The loop of [start_selected]. *)
Definition start_selected_streams (self : StreamManager) (asset_types : list string)
    (stock_symbols crypto_symbols : option (list string)) : StreamManager :=
  foldl (fun m asset_type =>
           if String.eqb asset_type "stocks" then add_stream m "stocks" stock_symbols
           else if String.eqb asset_type "crypto" then add_stream m "crypto" crypto_symbols
           else m) self asset_types.

End Manager.

(** ** src/data/stream_orchestrator.py: one process per asset *)

Module Orchestrator.

Record stream_config : Type := {
  script : string;
  market_hours : bool;
  schedule : option (string * string)     (** ['start'] and ['end'] *)
}.

Definition STREAM_CONFIGS : list (string * stream_config) :=
  [("stocks", {| script := "src/data/stream_stocks.py"; market_hours := true;
                 schedule := Some ("09:30", "16:00") |});
   ("crypto", {| script := "src/data/stream_crypto.py"; market_hours := false;
                 schedule := None |})].

(** The local time of day read from the wall clock. *)
Record time_of_day : Type := { hour : nat; minute : nat }.

Definition digit (n : nat) : ascii := ascii_of_nat (48 + n).

(** A field of [strftime] padded with a zero to two digits. *)
Definition two_digits (n : nat) : string :=
  String (digit (n / 10)) (String (digit (n mod 10)) EmptyString).

(** [now.strftime('%H:%M')] *)
Definition strftime_HM (now : time_of_day) : string :=
  two_digits (hour now) +:+ ":" +:+ two_digits (minute now).

Definition is_market_open (sched : option (string * string)) (now : time_of_day) : bool :=
  match sched with
  | None => true
  | Some (start, end_) =>
      let current_time := strftime_HM now in
      String.leb start current_time && String.leb current_time end_
  end.

(** [__init__]: the assets to run. *)
Definition init_assets (assets : option (list string)) : list string :=
  match assets with
  | Some (x :: l) => List.filter (fun a => Config.dict_mem STREAM_CONFIGS a) (x :: l)
  | _ => map fst STREAM_CONFIGS
  end.

Section Processes.
(** A started process, what [Popen] gives for a script ([None] when it
    raises) and what [poll] answers for a process ([None] while it runs,
    the exit code afterwards).  The wall clock is a sequence of readings;
    the state carries how many have been taken. *)
Variable Proc : Type.
Variable popen : string -> option Proc.
Variable poll : Proc -> option Z.
Variable clock : nat -> time_of_day.

(** [config.get('market_hours') and not self.is_market_open(config.get('schedule'))];
    the clock is read only when a schedule is consulted. *)
Definition market_closed (config : stream_config) (reads : nat) : bool * nat :=
  if market_hours config then
    match schedule config with
    | None => (false, reads)
    | Some _ => (negb (is_market_open (schedule config) (clock reads)), S reads)
    end
  else (false, reads).

Definition start_stream (processes : gmap string Proc) (reads : nat) (asset : string)
    : result (gmap string Proc * nat) :=
  match Config.dict_get STREAM_CONFIGS asset with
  | None => Raise (KeyError asset)
  | Some config =>
      let '(closed, reads1) := market_closed config reads in
      if closed then Ok (processes, reads1)
      else
        match popen (script config) with
        | Some proc => Ok (<[asset := proc]> processes, reads1)
        | None => Ok (processes, reads1)
        end
  end.

(** One pass of the [for] loop in [monitor_streams]. *)
Fixpoint monitor_pass (processes : gmap string Proc) (reads : nat) (assets : list string)
    : result (gmap string Proc * nat) :=
  match assets with
  | [] => Ok (processes, reads)
  | asset :: rest =>
      match Config.dict_get STREAM_CONFIGS asset with
      | None => Raise (KeyError asset)
      | Some config =>
          let proc := processes !! asset in
          let dead :=
            match proc with
            | None => true
            | Some p => match poll p with Some _ => true | None => false end
            end in
          if dead then
            let '(closed, reads1) := market_closed config reads in
            if closed then monitor_pass processes reads1 rest
            else
              match start_stream processes reads1 asset with
              | Ok (processes', reads2) => monitor_pass processes' reads2 rest
              | Raise e => Raise e
              end
          else monitor_pass processes reads rest
      end
  end.

End Processes.

End Orchestrator.

(** ** The WebSocket clients: inbound frames, status handling, requests *)

(** What a client writes to its socket: the three JSON requests, by
    their ['params'], and the closing of the socket. *)
Inductive outbound : Type :=
| Auth (params : string)
| Subscribe (params : string)
| Unsubscribe (params : string)
| Close.

(** Operators on values of unknown type: [v > q] and [v / q] raise
    [TypeError] unless [v] is a number. *)
Definition py_gt (x : pyval) (q : Q) : result bool :=
  match x with
  | PyNum n => Ok (Qlt_bool q n)
  | _ => Raise (TypeError "'>' not supported between these instances")
  end.

Definition py_truediv (x : pyval) (q : Q) : result Q :=
  match x with
  | PyNum n => truediv n q
  | _ => Raise (TypeError "unsupported operand type(s) for /")
  end.

(** [v == s] for a string literal [s]. *)
Definition py_eq_str (x : pyval) (s : string) : bool :=
  match x with PyStr s' => String.eqb s' s | _ => false end.

(** *** PolygonWebSocketClient (src/data/stream_data.py) *)

Module StockClient.
Import Config Dispatch.

(** An element of a decoded frame: a JSON object, or any other value
    (on which [.get] is an [AttributeError]). *)
Inductive element : Type :=
| JObject (d : gmap string pyval)
| JOther.

(** What [json.loads] makes of a frame. *)
Inductive payload : Type :=
| Undecodable
| JArray (items : list element)
| JValue (x : element).

Section Client.
Context {World : Type}.
(** [datetime.fromtimestamp], which raises for a value out of range, and
    the wall clock as a sequence of readings. *)
Variable fromtimestamp : Q -> result datetime.
Variable clock : nat -> datetime.

Record client : Type := {
  config : WebSocketConfig;
  asset_type : AssetType;
  api_key : string;
  ws : bool;                       (** [self.ws] is a socket, not [None] *)
  core : PolygonWebSocketClient (gmap string pyval) World;
  subscribed_symbols : gset string;
  is_connected : bool;
  is_authenticated : bool;
  sent : list outbound;            (** written to the socket so far *)
  reads : nat                      (** clock readings taken so far *)
}.

Definition set_core (self : client) (c : PolygonWebSocketClient (gmap string pyval) World)
    : client :=
  {| config := config self; asset_type := asset_type self; api_key := api_key self;
     ws := ws self; core := c; subscribed_symbols := subscribed_symbols self;
     is_connected := is_connected self; is_authenticated := is_authenticated self;
     sent := sent self; reads := reads self |}.

Definition set_flags (self : client) (connected authenticated : bool) : client :=
  {| config := config self; asset_type := asset_type self; api_key := api_key self;
     ws := ws self; core := core self; subscribed_symbols := subscribed_symbols self;
     is_connected := connected; is_authenticated := authenticated;
     sent := sent self; reads := reads self |}.

Definition set_subscribed (self : client) (symbols : gset string) : client :=
  {| config := config self; asset_type := asset_type self; api_key := api_key self;
     ws := ws self; core := core self; subscribed_symbols := symbols;
     is_connected := is_connected self; is_authenticated := is_authenticated self;
     sent := sent self; reads := reads self |}.

Definition tick_clock (self : client) : client :=
  {| config := config self; asset_type := asset_type self; api_key := api_key self;
     ws := ws self; core := core self; subscribed_symbols := subscribed_symbols self;
     is_connected := is_connected self; is_authenticated := is_authenticated self;
     sent := sent self; reads := S (reads self) |}.

(** [self.ws.send(...)] and [self.ws.close()]; on [None] the attribute
    lookup raises. *)
Definition ws_send (self : client) (msg : outbound) : client * result unit :=
  if ws self then
    ({| config := config self; asset_type := asset_type self; api_key := api_key self;
        ws := ws self; core := core self; subscribed_symbols := subscribed_symbols self;
        is_connected := is_connected self; is_authenticated := is_authenticated self;
        sent := sent self ++ [msg]; reads := reads self |}, Ok tt)
  else (self, Raise (AttributeError "'NoneType' object has no attribute 'send'")).

Definition disconnect (self : client) : client :=
  let self1 := if ws self then (ws_send self Close).1 else self in
  set_flags self1 false false.

Definition on_close (self : client) : client := set_flags self false false.

Definition get (d : gmap string pyval) (k : string) (dflt : pyval) : pyval :=
  default dflt (d !! k).

(** The outcome of handling one element: the client, the world, the
    handler calls made and whether an exception escaped. *)
Definition step_result : Type :=
  client * World * list (call (gmap string pyval)) * result unit.

Definition dispatch (self : client) (processed_data : gmap string pyval) (w : World)
    : step_result :=
  let '(core', w', calls) := _dispatch_data (core self) processed_data w in
  (set_core self core', w', calls, Ok tt).

Definition _handle_status_message (self : client) (message : gmap string pyval) (w : World)
    : step_result :=
  let status := get message "status" (PyStr "") in
  if py_eq_str status "connected" then
    let '(self1, r) := ws_send (set_flags self true (is_authenticated self))
                               (Auth (api_key self)) in
    (self1, w, [], r)
  else if py_eq_str status "auth_success" then
    (set_flags self (is_connected self) true, w, [], Ok tt)
  else if py_eq_str status "auth_failed" then
    (disconnect self, w, [], Ok tt)
  else (self, w, [], Ok tt).

Definition _handle_aggregate_message (self : client) (message : gmap string pyval)
    (w : World) : step_result :=
  let t := get message "t" (PyNum 0) in
  match py_gt t 0 with
  | Raise e => (self, w, [], Raise e)
  | Ok positive =>
      let stamped :=
        if positive then
          (self, q ← py_truediv t 1000; fromtimestamp q)
        else (tick_clock self, Ok (clock (reads self))) in
      match stamped with
      | (self1, Raise e) => (self1, w, [], Raise e)
      | (self1, Ok timestamp) =>
          let processed_data : gmap string pyval :=
            <["timestamp" := PyDatetime timestamp]>
            (<["symbol" := get message "sym" (PyStr "")]>
            (<["open" := get message "o" (PyNum 0)]>
            (<["high" := get message "h" (PyNum 0)]>
            (<["low" := get message "l" (PyNum 0)]>
            (<["close" := get message "c" (PyNum 0)]>
            (<["volume" := get message "v" (PyNum 0)]>
            (<["vwap" := get message "vw" (PyNum 0)]>
            (<["transactions" := get message "n" (PyNum 0)]>
            (<["message_type" := PyStr "aggregate"]> ∅))))))))) in
          dispatch self1 processed_data w
      end
  end.

Definition _handle_trade_message (self : client) (message : gmap string pyval)
    (w : World) : step_result :=
  match q ← py_truediv (get message "t" (PyNum 0)) 1000000; fromtimestamp q with
  | Raise e => (self, w, [], Raise e)
  | Ok timestamp =>
      let processed_data : gmap string pyval :=
        <["timestamp" := PyDatetime timestamp]>
        (<["symbol" := get message "sym" (PyStr "")]>
        (<["price" := get message "p" (PyNum 0)]>
        (<["size" := get message "s" (PyNum 0)]>
        (<["exchange" := get message "x" (PyStr "")]>
        (<["conditions" := get message "c" (PyObj true)]>
        (<["message_type" := PyStr "trade"]> ∅)))))) in
      dispatch self processed_data w
  end.

Definition _handle_quote_message (self : client) (message : gmap string pyval)
    (w : World) : step_result :=
  match q ← py_truediv (get message "t" (PyNum 0)) 1000000; fromtimestamp q with
  | Raise e => (self, w, [], Raise e)
  | Ok timestamp =>
      let processed_data : gmap string pyval :=
        <["timestamp" := PyDatetime timestamp]>
        (<["symbol" := get message "sym" (PyStr "")]>
        (<["bid_price" := get message "bp" (PyNum 0)]>
        (<["bid_size" := get message "bs" (PyNum 0)]>
        (<["ask_price" := get message "ap" (PyNum 0)]>
        (<["ask_size" := get message "as" (PyNum 0)]>
        (<["message_type" := PyStr "quote"]> ∅)))))) in
      dispatch self processed_data w
  end.

Definition _process_message (self : client) (x : element) (w : World) : step_result :=
  match x with
  | JOther => (self, w, [], Raise (AttributeError "object has no attribute 'get'"))
  | JObject message =>
      let msg_type := get message "ev" (PyStr "unknown") in
      if py_eq_str msg_type "status" then _handle_status_message self message w
      else if py_eq_str msg_type "A" then _handle_aggregate_message self message w
      else if py_eq_str msg_type "T" then _handle_trade_message self message w
      else if py_eq_str msg_type "Q" then _handle_quote_message self message w
      else (self, w, [], Ok tt)
  end.

(** The [for] loop of [on_message]: an exception leaves the loop. *)
Fixpoint process_items (self : client) (items : list element) (w : World) : step_result :=
  match items with
  | [] => (self, w, [], Ok tt)
  | x :: rest =>
      match _process_message self x w with
      | (self1, w1, calls1, Raise e) => (self1, w1, calls1, Raise e)
      | (self1, w1, calls1, Ok _) =>
          let '(self2, w2, calls2, r) := process_items self1 rest w1 in
          (self2, w2, calls1 ++ calls2, r)
      end
  end.

(** [on_message]: the client, the world, the handler calls made, and the
    exceptions logged by its two [except] clauses. *)
Definition on_message (self : client) (frame : payload) (w : World)
    : client * World * list (call (gmap string pyval)) * list exn :=
  match frame with
  | Undecodable => (self, w, [], [ValueError "JSONDecodeError"])
  | JArray items =>
      match process_items self items w with
      | (self1, w1, calls, Ok _) => (self1, w1, calls, [])
      | (self1, w1, calls, Raise e) => (self1, w1, calls, [e])
      end
  | JValue x =>
      match _process_message self x w with
      | (self1, w1, calls, Ok _) => (self1, w1, calls, [])
      | (self1, w1, calls, Raise e) => (self1, w1, calls, [e])
      end
  end.

Definition subscribe (self : client) (symbols : list string)
    (data_types : option (list string)) : client * result unit :=
  match get_subscription_channels (config self) (asset_type self) symbols data_types with
  | Raise e => (self, Raise e)
  | Ok subscriptions =>
      match ws_send self (Subscribe (String.concat "," subscriptions)) with
      | (self1, Raise e) => (self1, Raise e)
      | (self1, Ok _) =>
          (set_subscribed self1 (subscribed_symbols self1 ∪ list_to_set symbols), Ok tt)
      end
  end.

Definition unsubscribe (self : client) (symbols : list string)
    (data_types : option (list string)) : client * result unit :=
  let data_types := match data_types with None => ["A"] | Some dts => dts end in
  let subscriptions := build_channels data_types symbols in
  match ws_send self (Unsubscribe (String.concat "," subscriptions)) with
  | (self1, Raise e) => (self1, Raise e)
  | (self1, Ok _) =>
      (set_subscribed self1 (subscribed_symbols self1 ∖ list_to_set symbols), Ok tt)
  end.

Definition get_buffered_data (self : client) (clear_buffer : bool)
    : list (gmap string pyval) * client :=
  let data := data_buffer (core self) in
  if clear_buffer then
    (data, set_core self {| data_handlers := data_handlers (core self); data_buffer := [] |})
  else (data, self).

(** [__init__]: the configuration singleton, the key, the URL, and then
    the log line, whose calls to [is_realtime_available] and
    [get_delay_minutes] pass no asset type. *)
Definition init (env : environ) (a : AssetType) (key : option string) : result client :=
  config ← Config.init env;
  let api_key :=
    match key with
    | Some k => if truthy k then k else Config.api_key config
    | None => Config.api_key config
    end in
  if negb (truthy api_key) then
    Raise (ValueError "POLYGON_API_KEY not found in environment variables")
  else
    _ ← get_websocket_url env config a;
    Raise (TypeError
      "is_realtime_available() missing 1 required positional argument: 'asset_type'").

End Client.

Arguments client : clear implicits.
Arguments step_result : clear implicits.

End StockClient.

(** *** CryptoWebSocketClient (src/data/stream_crypto.py) *)

Module CryptoClient.
Import Config Dispatch Persistence.

(** [x.startswith(prefix)] and ['subscribed' in x] on a decoded JSON
    value; only whether the latter raises matters to the client. *)
Definition py_startswith (x : pyval) (prefix : string) : result bool :=
  match x with
  | PyStr s => Ok (String.prefix prefix s)
  | _ => Raise (AttributeError "object has no attribute 'startswith'")
  end.

Definition py_contains (x : pyval) : result unit :=
  match x with
  | PyStr _ | PyObj _ => Ok tt
  | _ => Raise (TypeError "argument is not iterable")
  end.

(** What the loop of [on_message] meets: an object whose ['ev'] is
    ['status'] (with its ['status'], default ['unknown'], and ['message'],
    default the empty string), one whose ['ev'] is ['XA'], any other
    object, and a value that is no object. *)
Inductive element : Type :=
| Status (status message : pyval)
| Aggregate (m : Crypto.message)
| Unhandled
| NotAnObject.

(** What [json.loads] makes of a frame.  A JSON object or string is
    iterated as its keys or characters, that is as an array of elements
    of the last kind; a number, a boolean or [null] cannot be iterated. *)
Inductive payload : Type :=
| Undecodable
| JArray (items : list element)
| NotIterable.

Section Client.
(** [U] is what the registered handlers own. *)
Context {U : Type}.
Variable isoformat : string -> datetime -> string.
Variable fromisoformat : string -> option datetime.
Variable fromtimestamp : Q -> result datetime.
Variable clock : nat -> datetime.

Record world : Type := {
  db : Database;
  reads : nat;         (** clock readings taken so far *)
  user : U
}.

Record client : Type := {
  config : WebSocketConfig;
  symbols : list string;
  ws_url : string;
  api_key : string;
  ws : bool;                       (** [self.ws] is a socket, not [None] *)
  handlers : CryptoWebSocketClient Crypto.message world;
  is_connected : bool;
  is_authenticated : bool;
  sent : list outbound
}.

Definition set_flags (self : client) (connected authenticated : bool) : client :=
  {| config := config self; symbols := symbols self; ws_url := ws_url self;
     api_key := api_key self; ws := ws self; handlers := handlers self;
     is_connected := connected; is_authenticated := authenticated;
     sent := sent self |}.

Definition send (self : client) (msg : outbound) : client :=
  {| config := config self; symbols := symbols self; ws_url := ws_url self;
     api_key := api_key self; ws := ws self; handlers := handlers self;
     is_connected := is_connected self; is_authenticated := is_authenticated self;
     sent := sent self ++ [msg] |}.

(** [__init__]; [init_database] creates the tables when they are absent. *)
Definition init (env : environ) (symbols : option (list string)) : result client :=
  config ← Config.init env;
  let symbols :=
    match symbols with
    | None => ["BTC-USD"; "ETH-USD"; "ADA-USD"; "SOL-USD"; "DOT-USD"; "DOGE-USD"]
    | Some l => l
    end in
  ws_url ← get_websocket_url env config CRYPTO;
  Ok {| config := config; symbols := symbols; ws_url := ws_url;
        api_key := Config.api_key config; ws := false;
        handlers := {| crypto_data_handlers := [] |};
        is_connected := false; is_authenticated := false; sent := [] |}.

Definition add_data_handler (self : client) (h : handler Crypto.message world) : client :=
  {| config := config self; symbols := symbols self; ws_url := ws_url self;
     api_key := api_key self; ws := ws self;
     handlers := crypto_add_data_handler (handlers self) h;
     is_connected := is_connected self; is_authenticated := is_authenticated self;
     sent := sent self |}.

(** [on_open] writes to the socket it is given. *)
Definition on_open (self : client) : client :=
  send (set_flags self true (is_authenticated self)) (Auth (api_key self)).

Definition on_close (self : client) : client := set_flags self false false.

(** [subscribe_to_data]: the client and the exception its [except]
    clause logged, if any. *)
Definition subscribe_to_data (self : client) : client * list exn :=
  if negb (is_authenticated self) then (self, [])
  else
    match get_subscription_channels (config self) CRYPTO (symbols self) None with
    | Raise e => (self, [e])
    | Ok channels =>
        if ws self then (send self (Subscribe (String.concat "," channels)), [])
        else (self, [AttributeError "'NoneType' object has no attribute 'send'"])
    end.

Definition handle_status_message (self : client) (status message : pyval)
    : client * list exn * result unit :=
  if py_eq_str status "auth_success" then
    let '(self1, logged) := subscribe_to_data (set_flags self (is_connected self) true) in
    (self1, logged, Ok tt)
  else if py_eq_str status "connected" then (self, [], Ok tt)
  else
    match py_startswith status "success" with
    | Raise e => (self, [], Raise e)
    | Ok true => (self, [], py_contains message)
    | Ok false => (self, [], Ok tt)
    end.

(** What [handle_crypto_data] does before its loop.  The message holds
    no ['timestamp'], so [store_market_data] reads the clock; numbers
    always fit the format specs of the log line. *)
Definition prepare (m : Crypto.message) (w : world) : world * result unit :=
  match timestamp ← truediv (default 0%Q (Crypto.s m)) 1000; fromtimestamp timestamp with
  | Raise e => (w, Raise e)
  | Ok dt =>
      let '(db', _) :=
        store_market_data isoformat fromisoformat "crypto"
          (default "UNKNOWN" (Crypto.pair m)) (Crypto.to_dict m)
          (clock (reads w)) (db w) in
      ({| db := db'; reads := S (reads w); user := user w |}, Ok tt)
  end.

(** The loop of [on_message]: the client, the world, the handler calls
    made, the exceptions logged inside [subscribe_to_data], and the
    exception that left the loop, if any. *)
Fixpoint process_items (self : client) (items : list element) (w : world)
    : client * world * list (call Crypto.message) * list exn * result unit :=
  match items with
  | [] => (self, w, [], [], Ok tt)
  | NotAnObject :: _ =>
      (self, w, [], [], Raise (AttributeError "object has no attribute 'get'"))
  | Status status message :: rest =>
      match handle_status_message self status message with
      | (self1, logged, Raise e) => (self1, w, [], logged, Raise e)
      | (self1, logged, Ok _) =>
          let '(self2, w2, calls, logged2, r) := process_items self1 rest w in
          (self2, w2, calls, logged ++ logged2, r)
      end
  | Aggregate m :: rest =>
      let '(w1, calls1) := handle_crypto_data prepare (handlers self) m w in
      let '(self2, w2, calls2, logged2, r) := process_items self rest w1 in
      (self2, w2, calls1 ++ calls2, logged2, r)
  | Unhandled :: rest => process_items self rest w
  end.

Definition on_message (self : client) (frame : payload) (w : world)
    : client * world * list (call Crypto.message) * list exn :=
  match frame with
  | Undecodable => (self, w, [], [ValueError "JSONDecodeError"])
  | NotIterable => (self, w, [], [TypeError "object is not iterable"])
  | JArray items =>
      match process_items self items w with
      | (self1, w1, calls, logged, Ok _) => (self1, w1, calls, logged)
      | (self1, w1, calls, logged, Raise e) => (self1, w1, calls, logged ++ [e])
      end
  end.

End Client.

Arguments world : clear implicits.
Arguments client : clear implicits.

End CryptoClient.

(** ** src/data/backfill_historical.py: tiers and date chunks *)

Module Backfill.
Import Config Persistence.

Record rate_limits : Type := {
  rate_limit_calls : option nat;    (** [None]: unlimited *)
  rate_limit_delay : Q;
  historical_years : nat;
  has_realtime : bool
}.

(** [configure_rate_limits], from [self.tier_crypto]. *)
Definition configure_rate_limits (tier_crypto : string) : rate_limits :=
  if bool_decide (tier_crypto ∈ ["starter"; "developer"; "advanced"]) then
    {| rate_limit_calls := None; rate_limit_delay := 1 # 10;
       historical_years := if String.eqb tier_crypto "starter" then 10 else 15;
       has_realtime := true |}
  else
    {| rate_limit_calls := Some 5%nat; rate_limit_delay := 12;
       historical_years := 2; has_realtime := false |}.

(** [__init__]: the key is required, the crypto tier is the lower-cased
    [POLYGON_TIER_CRYPTO], ['basic'] when unset. *)
Definition init (env : environ) : result rate_limits :=
  match env "POLYGON_API_KEY" with
  | Some k =>
      if truthy k then
        Ok (configure_rate_limits (lower (default "basic" (env "POLYGON_TIER_CRYPTO"))))
      else Raise (ValueError "POLYGON_API_KEY not found in environment variables")
  | None => Raise (ValueError "POLYGON_API_KEY not found in environment variables")
  end.

(** The ticker requested from the API: [f"X:{symbol.replace('-', '')}"]. *)
Fixpoint remove_dashes (s : string) : string :=
  match s with
  | EmptyString => EmptyString
  | String ch rest =>
      if Ascii.eqb ch "-" then remove_dashes rest else String ch (remove_dashes rest)
  end.

Definition ticker (symbol : string) : string := "X:" +:+ remove_dashes symbol.

Definition chunk_days (timespan : string) : Z :=
  if String.eqb timespan "minute" then 30
  else if String.eqb timespan "hour" then 365
  else 3650.

(** Dates are day numbers.  The [while] loop of [backfill_symbol], as the
    list of the date ranges it requests; [fuel] bounds the iterations. *)
Fixpoint chunks (fuel : nat) (chunk current_start end_date : Z) : list (Z * Z) :=
  match fuel with
  | O => []
  | S fuel' =>
      if (current_start <? end_date)%Z then
        let current_end := Z.min (current_start + chunk) end_date in
        (current_start, current_end) :: chunks fuel' chunk (current_end + 1) end_date
      else []
  end.

Section Fetch.
Variable isoformat : string -> datetime -> string.
Variable strftime : string -> datetime -> string.
(** The DataFrame that [get_crypto_aggregates] builds from the answer of
    the API for a ticker, a timespan and a date range: its rows in index
    order, none when the request failed or returned nothing. *)
Variable get_aggs : string -> string -> Z -> Z -> list bar.

Definition get_crypto_aggregates (symbol timespan : string) (from_date to_date : Z)
    : list bar :=
  get_aggs (ticker symbol) timespan from_date to_date.

Record totals : Type := {
  total_records : nat;
  new_records : nat
}.

Definition backfill_chunk (symbol timespan : string) (acc : Database * totals)
    (range : Z * Z) : Database * totals :=
  let '(db, t) := acc in
  let df := get_crypto_aggregates symbol timespan range.1 range.2 in
  match df with
  | [] => (db, t)
  | _ =>
      let '(db', stored) := store_to_database isoformat strftime df symbol db in
      (db', {| total_records := (total_records t + length df)%nat;
               new_records := (new_records t + stored)%nat |})
  end.

(** [backfill_symbol]; [today] is [datetime.now().date()].  The loop
    advances by at least one day, so [days] iterations suffice. *)
Definition backfill_symbol (symbol : string) (days : Z) (timespan : string)
    (today : Z) (db : Database) : Database * totals :=
  let end_date := today in
  let start_date := (end_date - days)%Z in
  foldl (backfill_chunk symbol timespan)
        (db, {| total_records := 0; new_records := 0 |})
        (chunks (Z.to_nat days) (chunk_days timespan) start_date end_date).

(** [backfill_all]: one result per symbol, in order. *)
Definition backfill_all (symbols : list string) (days : Z) (timespan : string)
    (today : Z) (db : Database) : Database * list (string * totals) :=
  foldl (fun (acc : Database * list (string * totals)) symbol =>
           let '(db1, t) := backfill_symbol symbol days timespan today acc.1 in
           (db1, acc.2 ++ [(symbol, t)]))
        (db, []) symbols.

End Fetch.

End Backfill.

(** ** Notions of the specification, and sample inputs *)

Module Spec.
Import Config.

(** The tier whose endpoint serves an asset class: the tier itself, but
    the realtime tier for crypto on the delayed (starter) tier. *)
Definition serving_tier (a : AssetType) (t : SubscriptionTier) : SubscriptionTier :=
  if bool_decide (a = CRYPTO ∧ t = STARTER) then DEVELOPER else t.

(** A channel code is available to an asset class when the class knows
    the code and the tier it requires, if any, is at most the resolved
    tier. *)
Definition available (self : WebSocketConfig) (a : AssetType) (code : string) : Prop :=
  (∃ description, dict_get (DATA_TYPES a) code = Some description) ∧
  (∀ required, dict_get TIER_RESTRICTED_DATA_TYPES code = Some required →
     (tier_index required ≤ tier_index (get_subscription_tier self a))%nat).

(** The error raised for a requested code that is not available. *)
Definition unavailable_error (self : WebSocketConfig) (a : AssetType) (code : string) : exn :=
  ValueError ("Data type '" +:+ code +:+ "' not available for " +:+ asset_value a +:+
              " on " +:+ tier_value (get_subscription_tier self a) +:+ " tier").

(** The world in which the handler at position [j] starts: the one left
    by the handlers before it, whether they returned or raised. *)
Definition world_before {Msg World : Type} (hs : list (Dispatch.handler Msg World))
    (data : Msg) (w : World) (j : nat) : World :=
  foldl (λ w' h, (h data w').1) w (take j hs).



(** How many observations of a symbol a stream has delivered to the
    detector: aggregate messages for the stock processor, messages with
    positive volume and price for the crypto processor. *)
Definition stocks_observations (sym : string) (ticks : list Stocks.data) : nat :=
  length (List.filter
            (λ d, String.eqb (Stocks.message_type d) "aggregate"
                  && String.eqb (Stocks.symbol d) sym) ticks).

Definition crypto_observations (sym : string) (ticks : list (Crypto.message * datetime))
    : nat :=
  length (List.filter
            (λ md, Crypto.accepted md.1
                   && String.eqb (default "UNKNOWN" (Crypto.pair md.1)) sym) ticks).


(** A stored anomaly row with its [details] column blanked. *)
Definition without_details (r : Persistence.anomaly_row) : Persistence.anomaly_row :=
  {| Persistence.start_time := Persistence.start_time r;
     Persistence.end_time := Persistence.end_time r;
     Persistence.an_symbol := Persistence.an_symbol r;
     Persistence.an_asset_type := Persistence.an_asset_type r;
     Persistence.anomaly_type := Persistence.anomaly_type r;
     Persistence.an_multiplier := Persistence.an_multiplier r;
     Persistence.current_value := Persistence.current_value r;
     Persistence.average_value := Persistence.average_value r;
     Persistence.status := Persistence.status r;
     Persistence.details := Persistence.NULL |}.

End Spec.

Module Samples.
Import Config.

Definition env_empty : environ := fun _ => None.

Definition env_stocks_url : environ :=
  fun k => if String.eqb k "POLYGON_WS_URL_STOCKS" then Some "wss://proxy.example/stocks" else None.

(** Every asset class on the same tier. *)
Definition config_all (t : SubscriptionTier) : WebSocketConfig :=
  {| api_key := "key"; asset_subscriptions := map (fun a => (a, t)) all_asset_types |}.

(** A handler that raises on every call, registered before one that
    counts its calls in the world. *)
Definition always_raises : Dispatch.handler string nat :=
  λ _ w, (w, Raise (ValueError "boom")).
Definition counts_calls : Dispatch.handler string nat :=
  λ _ w, (S w, Ok tt).
Definition two_handlers : Dispatch.PolygonWebSocketClient string nat :=
  Dispatch.add_data_handler
    (Dispatch.add_data_handler
       {| Dispatch.data_handlers := []; Dispatch.data_buffer := [] |} always_raises)
    counts_calls.
Definition two_crypto_handlers : Dispatch.CryptoWebSocketClient string nat :=
  Dispatch.crypto_add_data_handler
    (Dispatch.crypto_add_data_handler {| Dispatch.crypto_data_handlers := [] |} always_raises)
    counts_calls.
Definition prepare_ok : string → nat → nat * result unit := λ _ w, (w, Ok tt).

(** A stand-in datetime library for closed examples: an instant is
    rendered by its number, and only one ISO string parses. *)
Definition sample_isoformat (sep : string) (t : datetime) : string :=
  "1970-01-01" +:+ sep +:+ "00:00:00." +:+ pretty t.
Definition sample_fromisoformat (s : string) : option datetime :=
  if String.eqb s "1970-01-01T00:00:00" then Some 0%Z else None.

(** An anomaly as [CryptoDataProcessor.check_volume_anomaly] builds it. *)
Definition sample_anomaly : gmap string pyval :=
  <["type" := PyStr "volume_spike"]>
  (<["symbol" := PyStr "BTC-USD"]>
  (<["current_volume" := PyNum 400]>
  (<["average_volume" := PyNum 100]>
  (<["multiplier" := PyNum 4]>
  (<["timestamp" := PyStr (sample_isoformat "T" 7%Z)]>
  (<["market" := PyStr "crypto"]> ∅)))))).



Definition sample_bar : Persistence.bar :=
  {| Persistence.bar_timestamp := 60000000%Z;
     Persistence.bar_open := 1; Persistence.bar_high := 3; Persistence.bar_low := 1;
     Persistence.bar_close := 2; Persistence.bar_volume := 10;
     Persistence.bar_vwap := None |}.

(** Streams of one symbol with the given volumes. *)
Definition stock_ticks (volumes : list Q) : list Stocks.data :=
  map (Stocks.aggregate "AAPL") volumes.
Definition crypto_ticks (volumes : list Q) : list (Crypto.message * datetime) :=
  map (λ x, (Crypto.tick "BTC-USD" x, 0%Z)) volumes.

End Samples.

(** Further sample inputs. *)
Module Examples.
Import Config.

(** A key, a crypto tier in mixed case, a stocks tier that names no tier,
    and a URL override for forex. *)
Definition env_mixed : environ :=
  fun k =>
    if String.eqb k "POLYGON_API_KEY" then Some "key"
    else if String.eqb k "POLYGON_TIER_CRYPTO" then Some "StArTeR"
    else if String.eqb k "POLYGON_TIER_STOCKS" then Some "premium"
    else if String.eqb k "POLYGON_WS_URL_FOREX" then Some "wss://proxy.example/forex"
    else None.

Definition config_mixed : WebSocketConfig :=
  {| api_key := "key";
     asset_subscriptions :=
       [(STOCKS, BASIC); (CRYPTO, STARTER); (FOREX, BASIC);
        (INDICES, BASIC); (OPTIONS, BASIC); (FUTURES, BASIC)] |}.

(** Processes as numbers: every script starts, process 0 is running and
    every other process has exited; a clock that always reads 20:00. *)
Definition sample_popen (script : string) : option nat := Some (String.length script).
Definition sample_poll (proc : nat) : option Z :=
  if (proc =? 0)%nat then None else Some 1%Z.
Definition clock_evening (n : nat) : Orchestrator.time_of_day :=
  {| Orchestrator.hour := 20; Orchestrator.minute := 0 |}.

(** A stand-in for [datetime.fromtimestamp], which refuses negative
    values, and a clock that reads the number of its reading. *)
Definition sample_fromtimestamp (q : Q) : result datetime :=
  if Qle_bool 0 q then Ok (Qnum q) else Raise (ValueError "year is out of range").
Definition sample_clock (n : nat) : datetime := Z.of_nat n.

(** A connected stock client with two handlers, the first of which
    raises; the world counts the calls of the second. *)
Definition stock_client (a : AssetType) : StockClient.client nat :=
  {| StockClient.config := Samples.config_all ADVANCED;
     StockClient.asset_type := a;
     StockClient.api_key := "key";
     StockClient.ws := true;
     StockClient.core :=
       {| Dispatch.data_handlers :=
            [ (λ _ w, (w, Raise (ValueError "boom"))); (λ _ w, (S w, Ok tt)) ];
          Dispatch.data_buffer := [] |};
     StockClient.subscribed_symbols := ∅;
     StockClient.is_connected := true;
     StockClient.is_authenticated := true;
     StockClient.sent := [];
     StockClient.reads := 0 |}.

(** An aggregate element with the given ['t'], and a status element. *)
Definition aggregate_element (t : pyval) : StockClient.element :=
  StockClient.JObject
    (<["ev" := PyStr "A"]> (<["sym" := PyStr "AAPL"]> (<["v" := PyNum 100]>
      (<["t" := t]> ∅)))).

(** A crypto client on the starter tier, with a socket and one handler
    that counts its calls. *)
Definition crypto_client : CryptoClient.client nat :=
  {| CryptoClient.config := config_mixed;
     CryptoClient.symbols := ["BTC-USD"; "ETH-USD"];
     CryptoClient.ws_url := "wss://socket.polygon.io/crypto";
     CryptoClient.api_key := "key";
     CryptoClient.ws := true;
     CryptoClient.handlers :=
       {| Dispatch.crypto_data_handlers :=
            [ λ _ w, ({| CryptoClient.db := CryptoClient.db w;
                         CryptoClient.reads := CryptoClient.reads w;
                         CryptoClient.user := S (CryptoClient.user w) |}, Ok tt) ] |};
     CryptoClient.is_connected := true;
     CryptoClient.is_authenticated := false;
     CryptoClient.sent := [Auth "key"] |}.

Definition crypto_world : CryptoClient.world nat :=
  {| CryptoClient.db := Persistence.empty_db; CryptoClient.reads := 0;
     CryptoClient.user := 0 |}.


(** An API that answers every request with the same single bar. *)
Definition sample_get_aggs (ticker timespan : string) (from_date to_date : Z)
    : list Persistence.bar := [Samples.sample_bar].

End Examples.

(** Notions used to state further properties of the clients. *)
Module Notions.

(** The elements that the stock client hands to its handlers, and the
    status elements. *)
Definition is_data (x : StockClient.element) : bool :=
  match x with
  | StockClient.JObject d =>
      let ev := StockClient.get d "ev" (PyStr "unknown") in
      py_eq_str ev "A" || py_eq_str ev "T" || py_eq_str ev "Q"
  | StockClient.JOther => false
  end.

Definition is_status (x : StockClient.element) : bool :=
  match x with
  | StockClient.JObject d => py_eq_str (StockClient.get d "ev" (PyStr "unknown")) "status"
  | StockClient.JOther => false
  end.

(** What a stock client holds about its connection. *)
Definition connection {World : Type} (c : StockClient.client World)
    : list outbound * bool * bool * gset string :=
  (StockClient.sent c, StockClient.is_connected c, StockClient.is_authenticated c,
   StockClient.subscribed_symbols c).

(** The elements that [on_message] goes through. *)
Definition elements (frame : StockClient.payload) : list StockClient.element :=
  match frame with
  | StockClient.Undecodable => []
  | StockClient.JArray items => items
  | StockClient.JValue x => [x]
  end.


(** The volumes a detector takes into the window of a symbol, in
    arrival order: those of the symbol's aggregates for stocks, those of
    the symbol's accepted messages for crypto. *)
Definition stocks_volumes (sym : string) (ticks : list Stocks.data) : list Q :=
  map Stocks.volume
      (List.filter (λ d, String.eqb (Stocks.message_type d) "aggregate"
                         && String.eqb (Stocks.symbol d) sym) ticks).


End Notions.

(** * Properties *)

(** ** Entitlement resolution and channel building *)

Section ConfigFacts.
Import Config Spec Samples.

Lemma has_websocket_access_tier (self : WebSocketConfig) (a : AssetType) :
  has_websocket_access self a = tier_in (get_subscription_tier self a) WEBSOCKET_ENABLED_TIERS.
Proof. reflexivity. Qed.

Lemma no_access_is_basic (self : WebSocketConfig) (a : AssetType) :
  has_websocket_access self a = false ↔ get_subscription_tier self a = BASIC.
Proof.
  rewrite has_websocket_access_tier.
  destruct (get_subscription_tier self a); vm_compute; split; congruence.
Qed.

Lemma dict_get_filter_key {V} (p : string → bool) (d : list (string * V)) (k : string) :
  dict_get (List.filter (λ kv, p kv.1) d) k = if p k then dict_get d k else None.
Proof.
  induction d as [|[k' x] d IH]; simpl.
  - by destruct (p k).
  - destruct (p k') eqn:Hp; simpl.
    + destruct (String.eqb_spec k' k) as [->|_]; [by rewrite Hp | exact IH].
    + destruct (String.eqb_spec k' k) as [->|_]; [by rewrite IH, Hp | exact IH].
Qed.

Lemma available_types_mem (self : WebSocketConfig) (a : AssetType) (code : string) :
  dict_mem (get_available_data_types self a false) code = true ↔ available self a code.
Proof.
  unfold dict_mem, get_available_data_types, available.
  rewrite (dict_get_filter_key
             (λ k, match dict_get TIER_RESTRICTED_DATA_TYPES k with
                   | Some required_tier =>
                       _tier_meets_requirement (get_subscription_tier self a) required_tier
                   | None => true
                   end)).
  unfold _tier_meets_requirement.
  destruct (dict_get TIER_RESTRICTED_DATA_TYPES code) as [r|] eqn:Hr.
  - destruct (Nat.leb_spec (tier_index r) (tier_index (get_subscription_tier self a)))
      as [Hle|Hlt].
    + destruct (dict_get (DATA_TYPES a) code) eqn:Hd; split; try done.
      * intros _. split; [eauto|]. intros ? [= <-]. exact Hle.
      * intros [[? [=]] _].
    + split; [done|]. intros [_ H]. specialize (H r eq_refl). lia.
  - destruct (dict_get (DATA_TYPES a) code) eqn:Hd; split; try done.
    + intros _. split; [eauto|]. intros ? [=].
    + intros [[? [=]] _].
Qed.

Lemma validate_spec (self : WebSocketConfig) (a : AssetType) (dts : list string) :
  (Forall (available self a) dts ∧
   validate self a (get_available_data_types self a false) dts = Ok tt)
  ∨ (∃ ok code rest,
       dts = ok ++ code :: rest ∧ Forall (available self a) ok ∧
       ¬ available self a code ∧
       validate self a (get_available_data_types self a false) dts
         = Raise (unavailable_error self a code)).
Proof.
  pose proof (available_types_mem self a) as Hmem.
  generalize dependent (get_available_data_types self a false). intros av Hmem.
  induction dts as [|dt dts IH]; simpl.
  - left. by split.
  - destruct (dict_mem av dt) eqn:Hm; simpl.
    + apply Hmem in Hm.
      destruct IH as [[Hall Hok]|(ok & code & rest & -> & Hall & Hbad & Herr)].
      * left. split; [by constructor | done].
      * right. exists (dt :: ok), code, rest.
        split; [done|]. split; [by constructor|]. by split.
    + right. exists [], dt, dts.
      split; [done|]. split; [constructor|]. split; [|done].
      intros Hav. apply Hmem in Hav. congruence.
Qed.

(** C3, as stated, fails: two asset classes on the same tier, neither of
    them the crypto/starter case, resolve to different URLs. *)
Lemma get_websocket_url_depends_on_asset :
  get_subscription_tier (config_all DEVELOPER) STOCKS
    = get_subscription_tier (config_all DEVELOPER) FOREX
  ∧ has_websocket_access (config_all DEVELOPER) STOCKS = true
  ∧ has_websocket_access (config_all DEVELOPER) FOREX = true
  ∧ get_websocket_url env_empty (config_all DEVELOPER) STOCKS
      = Ok "wss://socket.polygon.io/stocks"
  ∧ get_websocket_url env_empty (config_all DEVELOPER) FOREX
      = Ok "wss://socket.polygon.io/forex"
  ∧ get_websocket_url env_empty (config_all DEVELOPER) STOCKS
      ≠ get_websocket_url env_empty (config_all DEVELOPER) FOREX.
Proof. repeat split; try (vm_compute; congruence). Qed.

(** C3 (amended): with WebSocket access and no URL override in the
    environment, the returned URL is a base chosen by the tier alone
    (from [WEBSOCKET_BASE_URLS]) followed by ["/"] and the asset class's
    name; the one exception is crypto on the starter tier, which gets the
    base of the developer (realtime) tier, different from the starter
    base. *)
Theorem get_websocket_url_by_tier (env : environ) (self : WebSocketConfig) (a : AssetType) :
  url_override env a = None →
  has_websocket_access self a = true →
  ∃ base,
    WEBSOCKET_BASE_URLS (serving_tier a (get_subscription_tier self a)) = Some base
    ∧ get_websocket_url env self a = Ok (base +:+ "/" +:+ asset_value a)
    ∧ (¬ (a = CRYPTO ∧ get_subscription_tier self a = STARTER) →
         WEBSOCKET_BASE_URLS (get_subscription_tier self a) = Some base)
    ∧ (a = CRYPTO ∧ get_subscription_tier self a = STARTER →
         base = "wss://socket.polygon.io"
         ∧ WEBSOCKET_BASE_URLS STARTER ≠ Some base).
Proof.
  intros Hov Hacc. rewrite has_websocket_access_tier in Hacc.
  unfold get_websocket_url. rewrite Hov, Hacc. simpl.
  unfold serving_tier.
  destruct (get_subscription_tier self a) eqn:Ht; try discriminate Hacc;
    destruct a;
    (eexists; split; [reflexivity|]; split; [reflexivity|]; split;
     [ intros H; first [reflexivity | exfalso; apply H; by split]
     | intros [H1 H2]; first [discriminate | split; [reflexivity | discriminate]] ]).
Qed.

Lemma get_websocket_url_by_tier_witness :
  url_override env_empty CRYPTO = None
  ∧ has_websocket_access (config_all STARTER) CRYPTO = true
  ∧ ∃ base,
      WEBSOCKET_BASE_URLS
        (serving_tier CRYPTO (get_subscription_tier (config_all STARTER) CRYPTO)) = Some base
      ∧ get_websocket_url env_empty (config_all STARTER) CRYPTO
          = Ok (base +:+ "/" +:+ asset_value CRYPTO)
      ∧ (¬ (CRYPTO = CRYPTO ∧ get_subscription_tier (config_all STARTER) CRYPTO = STARTER) →
           WEBSOCKET_BASE_URLS (get_subscription_tier (config_all STARTER) CRYPTO) = Some base)
      ∧ (CRYPTO = CRYPTO ∧ get_subscription_tier (config_all STARTER) CRYPTO = STARTER →
           base = "wss://socket.polygon.io"
           ∧ WEBSOCKET_BASE_URLS STARTER ≠ Some base).
Proof.
  split; [reflexivity|]. split; [reflexivity|].
  apply (get_websocket_url_by_tier env_empty (config_all STARTER) CRYPTO); reflexivity.
Defined.

(** C4, as stated, fails: on the bottom tier a URL override in the
    environment is returned and nothing is raised. *)
Lemma get_websocket_url_override_on_basic :
  get_subscription_tier (config_all BASIC) STOCKS = BASIC
  ∧ has_websocket_access (config_all BASIC) STOCKS = false
  ∧ get_websocket_url env_stocks_url (config_all BASIC) STOCKS
      = Ok "wss://proxy.example/stocks".
Proof. repeat split; vm_compute; reflexivity. Qed.

(** C4 (amended): when the environment holds no (non-empty) URL override
    for the asset class and its tier gives no WebSocket access, that is,
    the tier is BASIC, resolving the endpoint raises [ValueError] and
    returns no URL. *)
Theorem get_websocket_url_blocked (env : environ) (self : WebSocketConfig) (a : AssetType) :
  url_override env a = None →
  has_websocket_access self a = false →
  get_subscription_tier self a = BASIC
  ∧ get_websocket_url env self a =
      Raise (ValueError ("WebSocket not available for " +:+ asset_value a +:+
                         " on basic tier. Upgrade to Starter or higher.")).
Proof.
  intros Hov Hacc. pose proof (proj1 (no_access_is_basic self a) Hacc) as Ht.
  split; [exact Ht|].
  unfold get_websocket_url. rewrite Hov, Ht. reflexivity.
Qed.

Lemma get_websocket_url_blocked_witness :
  url_override env_empty CRYPTO = None
  ∧ has_websocket_access (config_all BASIC) CRYPTO = false
  ∧ get_subscription_tier (config_all BASIC) CRYPTO = BASIC
  ∧ get_websocket_url env_empty (config_all BASIC) CRYPTO =
      Raise (ValueError ("WebSocket not available for " +:+ asset_value CRYPTO +:+
                         " on basic tier. Upgrade to Starter or higher.")).
Proof.
  split; [reflexivity|]. split; [reflexivity|].
  apply (get_websocket_url_blocked env_empty (config_all BASIC) CRYPTO); reflexivity.
Defined.

(** C8, as stated, fails: the error names the offending code and the
    tier the asset class is on, not the tier the code requires. *)
Lemma subscription_error_names_current_tier :
  get_subscription_channels (config_all STARTER) STOCKS ["AAPL"] (Some ["A"; "T"])
    = Raise (ValueError "Data type 'T' not available for stocks on starter tier")
  ∧ dict_get TIER_RESTRICTED_DATA_TYPES "T" = Some DEVELOPER
  ∧ str_in (tier_value DEVELOPER)
      "Data type 'T' not available for stocks on starter tier" = false
  ∧ str_in (tier_value (get_subscription_tier (config_all STARTER) STOCKS))
      "Data type 'T' not available for stocks on starter tier" = true.
Proof. repeat split; vm_compute; reflexivity. Qed.

(** C8 (amended): for an asset class with WebSocket access, the requested
    codes (the class default when none are given) are checked in order
    against the availability filter before any token is built.  If all
    are available the full list of tokens is returned; otherwise the call
    raises at the first unavailable code, with a message that names that
    code, the asset class and the tier the asset class is on, and returns
    no token.  A code is available iff the asset class knows it and the
    tier it requires, if any, is at most the resolved tier. *)
Theorem get_subscription_channels_validates_first
    (self : WebSocketConfig) (a : AssetType) (symbols : list string)
    (data_types : option (list string)) :
  has_websocket_access self a = true →
  let requested := default (default_data_types a) data_types in
  (Forall (available self a) requested
   ∧ get_subscription_channels self a symbols data_types
       = Ok (build_channels requested symbols))
  ∨ (∃ ok code rest,
       requested = ok ++ code :: rest
       ∧ Forall (available self a) ok
       ∧ ¬ available self a code
       ∧ get_subscription_channels self a symbols data_types
           = Raise (ValueError
               ("Data type '" +:+ code +:+ "' not available for " +:+ asset_value a +:+
                " on " +:+ tier_value (get_subscription_tier self a) +:+ " tier"))).
Proof.
  intros Hacc requested. unfold get_subscription_channels. rewrite Hacc.
  cbn [negb]. cbv zeta.
  assert (Hreq : match data_types with
                 | Some dts => dts
                 | None => default_data_types a
                 end = requested) by (by destruct data_types).
  rewrite Hreq.
  destruct (validate_spec self a requested)
    as [[Hall Hok]|(ok & code & rest & Heq & Hall & Hbad & Herr)].
  - left. by rewrite Hok.
  - right. exists ok, code, rest. by rewrite Herr.
Qed.

Lemma get_subscription_channels_validates_first_witness :
  has_websocket_access (config_all STARTER) CRYPTO = true
  ∧ ((Forall (available (config_all STARTER) CRYPTO) (default (default_data_types CRYPTO) None)
      ∧ get_subscription_channels (config_all STARTER) CRYPTO ["BTC-USD"; "ETH-USD"] None
          = Ok (build_channels (default (default_data_types CRYPTO) None)
                  ["BTC-USD"; "ETH-USD"]))
     ∨ (∃ ok code rest,
          default (default_data_types CRYPTO) None = ok ++ code :: rest
          ∧ Forall (available (config_all STARTER) CRYPTO) ok
          ∧ ¬ available (config_all STARTER) CRYPTO code
          ∧ get_subscription_channels (config_all STARTER) CRYPTO ["BTC-USD"; "ETH-USD"] None
              = Raise (ValueError
                  ("Data type '" +:+ code +:+ "' not available for " +:+ asset_value CRYPTO +:+
                   " on " +:+ tier_value (get_subscription_tier (config_all STARTER) CRYPTO) +:+
                   " tier")))).
Proof.
  split; [reflexivity|].
  apply (get_subscription_channels_validates_first (config_all STARTER) CRYPTO
           ["BTC-USD"; "ETH-USD"] None); reflexivity.
Defined.

End ConfigFacts.

(** ** Handler fan-out *)

Section DispatchFacts.
Import Dispatch Spec.
Context {Msg World : Type}.
Implicit Types (h : handler Msg World) (hs : list (handler Msg World)).
Implicit Types (data : Msg) (w : World).

Lemma guarded_call_eq (i : nat) h data w :
  guarded_call i h data w = ((h data w).1, Call i data (h data w).2).
Proof. unfold guarded_call. destruct (h data w) as [w' [[]|e]]; reflexivity. Qed.

Lemma call_all_cons (i : nat) h hs data w :
  call_all i (h :: hs) data w =
    ((call_all (S i) hs data (h data w).1).1,
     Call i data (h data w).2 :: (call_all (S i) hs data (h data w).1).2).
Proof.
  simpl. rewrite guarded_call_eq.
  destruct (call_all (S i) hs data (h data w).1); reflexivity.
Qed.

Lemma call_all_length (i : nat) hs data w :
  length (call_all i hs data w).2 = length hs.
Proof.
  revert i w. induction hs as [|h hs IH]; intros i w; [reflexivity|].
  rewrite call_all_cons. simpl. by rewrite IH.
Qed.

Lemma call_all_world (i : nat) hs data w :
  (call_all i hs data w).1 = foldl (λ w' h, (h data w').1) w hs.
Proof.
  revert i w. induction hs as [|h hs IH]; intros i w; [reflexivity|].
  rewrite call_all_cons. simpl. apply IH.
Qed.

Lemma call_all_lookup (i j : nat) hs h data w :
  hs !! j = Some h →
  (call_all i hs data w).2 !! j
    = Some (Call (i + j) data (h data (world_before hs data w j)).2).
Proof.
  revert i j w. induction hs as [|h0 hs IH]; intros i j w Hj; [done|].
  rewrite call_all_cons. destruct j as [|j]; simpl in *.
  - inversion Hj; subst. by rewrite Nat.add_0_r.
  - rewrite (IH (S i) j _ Hj). unfold world_before. simpl.
    by rewrite Nat.add_succ_r.
Qed.

Lemma add_data_handler_order (self : PolygonWebSocketClient Msg World) h1 h2 :
  data_handlers (add_data_handler (add_data_handler self h1) h2)
    = data_handlers self ++ [h1; h2].
Proof. simpl. by rewrite <- app_assoc. Qed.

(** C7: both clients call every registered handler once, in the order of
    the handler list (to which registration appends), each with the
    message being dispatched; the handler at position [j] runs in the
    world left by the ones before it and its outcome, return or
    exception, is recorded without stopping the loop.  So a handler
    registered after one that raises is still called.  For the crypto
    client this holds for a message whose preparation (field extraction,
    storage, log line) did not raise. *)
Theorem dispatch_reaches_every_handler
    (prepare : Msg → World → World * result unit)
    (stocks_client : PolygonWebSocketClient Msg World)
    (crypto_client : CryptoWebSocketClient Msg World) data w :
  (∀ h, data_handlers (add_data_handler stocks_client h)
          = data_handlers stocks_client ++ [h])
  ∧ (∀ h, crypto_data_handlers (crypto_add_data_handler crypto_client h)
          = crypto_data_handlers crypto_client ++ [h])
  ∧ (length (_dispatch_data stocks_client data w).2
       = length (data_handlers stocks_client)
     ∧ ∀ j h, data_handlers stocks_client !! j = Some h →
         (_dispatch_data stocks_client data w).2 !! j
           = Some (Call j data
                     (h data (world_before (data_handlers stocks_client) data w j)).2))
  ∧ ((prepare data w).2 = Ok tt →
     length (handle_crypto_data prepare crypto_client data w).2
       = length (crypto_data_handlers crypto_client)
     ∧ ∀ j h, crypto_data_handlers crypto_client !! j = Some h →
         (handle_crypto_data prepare crypto_client data w).2 !! j
           = Some (Call j data
                     (h data (world_before (crypto_data_handlers crypto_client) data
                                (prepare data w).1 j)).2)).
Proof.
  split; [done|]. split; [done|]. split.
  - unfold _dispatch_data. simpl.
    destruct (call_all 0 (data_handlers stocks_client) data w) as [w' cs] eqn:Hc.
    simpl. replace cs with (call_all 0 (data_handlers stocks_client) data w).2
      by (by rewrite Hc).
    split; [apply call_all_length|].
    intros j h Hj. by rewrite (call_all_lookup 0 j _ h).
  - intros Hp. unfold handle_crypto_data.
    destruct (prepare data w) as [w1 [[]|e]]; [|discriminate Hp]. simpl.
    split; [apply call_all_length|].
    intros j h Hj. by rewrite (call_all_lookup 0 j _ h).
Qed.

End DispatchFacts.

Section DispatchSamples.
Import Spec Samples.

Lemma dispatch_after_raising_handler :
  Dispatch._dispatch_data two_handlers "tick" 0%nat
    = ({| Dispatch.data_handlers := [always_raises; counts_calls];
          Dispatch.data_buffer := ["tick"] |},
       1%nat,
       [Dispatch.Call 0 "tick" (Raise (ValueError "boom")); Dispatch.Call 1 "tick" (Ok tt)])
  ∧ Dispatch.handle_crypto_data prepare_ok two_crypto_handlers "tick" 0%nat
    = (1%nat,
       [Dispatch.Call 0 "tick" (Raise (ValueError "boom")); Dispatch.Call 1 "tick" (Ok tt)]).
Proof. split; reflexivity. Qed.

Lemma dispatch_reaches_every_handler_witness :
  (prepare_ok "tick" 0%nat).2 = Ok tt
  ∧ length (Dispatch.handle_crypto_data prepare_ok two_crypto_handlers "tick" 0%nat).2
      = length (Dispatch.crypto_data_handlers two_crypto_handlers)
  ∧ (Dispatch._dispatch_data two_handlers "tick" 0%nat).2 !! 1%nat
      = Some (Dispatch.Call 1 "tick"
                (counts_calls "tick"
                   (world_before (Dispatch.data_handlers two_handlers) "tick" 0%nat 1)).2).
Proof.
  pose proof (dispatch_reaches_every_handler prepare_ok two_handlers two_crypto_handlers
                "tick" 0%nat) as (_ & _ & [_ Hstocks] & Hcrypto).
  split; [reflexivity|]. split.
  - exact (proj1 (Hcrypto eq_refl)).
  - exact (Hstocks 1%nat counts_calls eq_refl).
Defined.

End DispatchSamples.

(** ** Anomaly detection *)

Section DetectorFacts.
Import Spec Samples.

Lemma Qlt_bool_true (x y : Q) : Qlt_bool x y = true ↔ (x < y)%Q.
Proof.
  unfold Qlt_bool. rewrite negb_true_iff. split.
  - intros H. apply Qnot_le_lt. intros Hle. apply Qle_bool_iff in Hle. congruence.
  - intros H. destruct (Qle_bool y x) eqn:Hb; [|done].
    apply Qle_bool_iff in Hb. by apply Qlt_not_le in H.
Qed.

Lemma Qlt_bool_false (x y : Q) : Qlt_bool x y = false ↔ (y <= x)%Q.
Proof.
  unfold Qlt_bool. rewrite negb_false_iff. apply Qle_bool_iff.
Qed.

Lemma len_nonzero {A} (l : list A) : l ≠ [] → Qeq_bool (len l) 0 = false.
Proof. by destruct l. Qed.

Lemma truediv_nonzero (x y : Q) : ¬ (y == 0)%Q → truediv x y = Ok (x / y)%Q.
Proof.
  intros Hy. unfold truediv. destruct (Qeq_bool y 0) eqn:Hb; [|done].
  by apply Qeq_bool_iff in Hb.
Qed.

Lemma truediv_zero (x y : Q) : (y == 0)%Q → truediv x y = Raise ZeroDivisionError.
Proof. intros Hy. unfold truediv. by rewrite (Qeq_eq_bool _ _ Hy). Qed.

Lemma but_last_length {A} (l : list A) : length (but_last l) = (length l - 1)%nat.
Proof. unfold but_last. rewrite length_take. lia. Qed.

Lemma last_n_length {A} (n : nat) (l : list A) :
  length (last_n n l) = Nat.min n (length l).
Proof. unfold last_n. rewrite length_drop. lia. Qed.

Lemma mean_defined (l : list Q) :
  (2 ≤ length l)%nat →
  truediv (sum (but_last l)) (len (but_last l))
    = Ok (sum (but_last l) / len (but_last l))%Q.
Proof.
  intros Hl. unfold truediv. rewrite len_nonzero; [done|].
  intros Hnil. apply (f_equal length) in Hnil. rewrite but_last_length in Hnil.
  simpl in Hnil. lia.
Qed.

(** *** The stock processor *)

Lemma stocks_window_default (self : Stocks.RealTimeDataProcessor) (sym : string) :
  Stocks.window self sym
    = Stocks.recent_volumes
        (default {| Stocks.recent_prices := []; Stocks.recent_volumes := [];
                    Stocks.last_price := 0; Stocks.last_volume := 0 |}
                 (Stocks.data_store self !! sym)).
Proof. unfold Stocks.window. by destruct (Stocks.data_store self !! sym). Qed.

(** An aggregate message appends to the symbol's window, keeps the last
    20 volumes, and is checked against the window so updated. *)
Lemma stocks_aggregate_step (self : Stocks.RealTimeDataProcessor) (d : Stocks.data) :
  Stocks.message_type d = "aggregate" →
  ∃ self1 store1,
    Stocks.data_store self1 !! Stocks.symbol d = Some store1
    ∧ Stocks.recent_volumes store1
        = last_n 20 (Stocks.window self (Stocks.symbol d) ++ [Stocks.volume d])
    ∧ (Stocks.process_data self d).2
        = Stocks._check_for_anomalies self1 (Stocks.symbol d) d
    ∧ Stocks.window (Stocks.process_data self d).1 (Stocks.symbol d)
        = Stocks.recent_volumes store1
    ∧ ∀ sym, sym ≠ Stocks.symbol d →
        Stocks.window (Stocks.process_data self d).1 sym = Stocks.window self sym.
Proof.
  intros Hmt. unfold Stocks.process_data. rewrite Hmt. simpl.
  unfold Stocks._process_aggregate. rewrite stocks_window_default.
  set (store0 := default {| Stocks.recent_prices := []; Stocks.recent_volumes := [];
                            Stocks.last_price := 0; Stocks.last_volume := 0 |}
                         (Stocks.data_store self !! Stocks.symbol d)).
  set (store1 := {| Stocks.recent_prices :=
                      last_n 20 (Stocks.recent_prices store0 ++ [Stocks.close d]);
                    Stocks.recent_volumes :=
                      last_n 20 (Stocks.recent_volumes store0 ++ [Stocks.volume d]);
                    Stocks.last_price := Stocks.last_price store0;
                    Stocks.last_volume := Stocks.last_volume store0 |}).
  exists {| Stocks.data_store := <[Stocks.symbol d := store1]> (Stocks.data_store self) |},
    store1.
  split; [apply lookup_insert_eq|]. split; [done|].
  destruct (Stocks._check_for_anomalies _ _ _) as [effs|e]; simpl.
  - split; [done|]. split.
    + unfold Stocks.window. simpl. by rewrite lookup_insert_eq.
    + intros sym Hne. unfold Stocks.window. simpl. by rewrite lookup_insert_ne.
  - split; [done|]. split.
    + unfold Stocks.window. simpl. by rewrite lookup_insert_eq.
    + intros sym Hne. unfold Stocks.window. simpl. by rewrite lookup_insert_ne.
Qed.

Lemma stocks_other_step (self : Stocks.RealTimeDataProcessor) (d : Stocks.data) :
  Stocks.message_type d ≠ "aggregate" →
  (Stocks.process_data self d).1 = self
  ∧ ∀ effs, (Stocks.process_data self d).2 = Ok effs → effs = [].
Proof.
  intros Hmt. unfold Stocks.process_data.
  destruct (String.eqb_spec (Stocks.message_type d) "aggregate"); [done|].
  destruct (String.eqb (Stocks.message_type d) "trade"); simpl; split; try done.
  by intros effs [= <-].
Qed.

(** The verdict of a check on a window of at least five volumes whose
    earlier part has mean [avg]. *)
Lemma stocks_check_verdict (self : Stocks.RealTimeDataProcessor) (d : Stocks.data)
    (store : Stocks.symbol_store) :
  Stocks.data_store self !! Stocks.symbol d = Some store →
  let prior := but_last (Stocks.recent_volumes store) in
  let avg := (sum prior / len prior)%Q in
  ((length (Stocks.recent_volumes store) < 5)%nat →
     Stocks._check_for_anomalies self (Stocks.symbol d) d = Ok [])
  ∧ ((5 ≤ length (Stocks.recent_volumes store))%nat →
     ((Stocks.volume d <= avg * 3)%Q →
        Stocks._check_for_anomalies self (Stocks.symbol d) d = Ok [])
     ∧ ((avg * 3 < Stocks.volume d)%Q → ¬ (avg == 0)%Q →
        ∃ a, Stocks._check_for_anomalies self (Stocks.symbol d) d = Ok [Emit a]
             ∧ a !! "type" = Some (PyStr "volume_spike")
             ∧ a !! "symbol" = Some (PyStr (Stocks.symbol d))
             ∧ a !! "multiplier" = Some (PyNum (Stocks.volume d / avg)))
     ∧ ((avg * 3 < Stocks.volume d)%Q → (avg == 0)%Q →
        Stocks._check_for_anomalies self (Stocks.symbol d) d = Raise ZeroDivisionError)).
Proof.
  intros Hstore prior avg. unfold Stocks._check_for_anomalies. rewrite Hstore.
  split.
  - intros Hlt. by rewrite (proj2 (Nat.ltb_lt _ _) Hlt).
  - intros Hge. rewrite (proj2 (Nat.ltb_ge _ _) Hge).
    rewrite mean_defined by lia. simpl. fold prior. fold avg.
    split; [|split].
    + intros Hle. by rewrite (proj2 (Qlt_bool_false _ _) Hle).
    + intros Hlt Hnz. rewrite (proj2 (Qlt_bool_true _ _) Hlt).
      rewrite truediv_nonzero by done. simpl.
      eexists. split; [reflexivity|]. by repeat split.
    + intros Hlt Hz. rewrite (proj2 (Qlt_bool_true _ _) Hlt).
      by rewrite truediv_zero.
Qed.

Lemma stocks_run_cons (self : Stocks.RealTimeDataProcessor) (d : Stocks.data)
    (rest : list Stocks.data) :
  (Stocks.run self (d :: rest)).1 = (Stocks.run (Stocks.process_data self d).1 rest).1.
Proof.
  cbn [Stocks.run]. destruct (Stocks.process_data self d) as [self1 r]. cbn [fst].
  by destruct (Stocks.run self1 rest).
Qed.

Lemma stocks_step_window_bound (self : Stocks.RealTimeDataProcessor) (d : Stocks.data)
    (sym : string) :
  (length (Stocks.window (Stocks.process_data self d).1 sym)
   ≤ length (Stocks.window self sym)
     + (if String.eqb (Stocks.message_type d) "aggregate"
           && String.eqb (Stocks.symbol d) sym then 1 else 0))%nat.
Proof.
  destruct (String.eqb_spec (Stocks.message_type d) "aggregate") as [Hmt|Hmt]; simpl.
  - destruct (stocks_aggregate_step self d Hmt)
      as (self1 & store1 & _ & Hvols & _ & Hwin & Hother).
    destruct (String.eqb_spec (Stocks.symbol d) sym) as [<-|Hne].
    + rewrite Hwin, Hvols, last_n_length, length_app. cbn [length]. lia.
    + rewrite Hother by done. lia.
  - rewrite (proj1 (stocks_other_step self d Hmt)). lia.
Qed.

Lemma stocks_run_window_bound (ticks : list Stocks.data)
    (self : Stocks.RealTimeDataProcessor) (sym : string) :
  (length (Stocks.window (Stocks.run self ticks).1 sym)
   ≤ length (Stocks.window self sym) + stocks_observations sym ticks)%nat.
Proof.
  revert self. induction ticks as [|d rest IH]; intros self.
  - simpl. lia.
  - rewrite stocks_run_cons. etrans; [apply IH|].
    pose proof (stocks_step_window_bound self d sym) as Hstep.
    unfold stocks_observations in *. simpl.
    destruct (String.eqb (Stocks.message_type d) "aggregate"
              && String.eqb (Stocks.symbol d) sym); simpl; lia.
Qed.

Lemma stocks_emit_needs_window (self : Stocks.RealTimeDataProcessor) (d : Stocks.data)
    (effs : list effect) (a : gmap string pyval) :
  (Stocks.process_data self d).2 = Ok effs → Emit a ∈ effs →
  (4 ≤ length (Stocks.window self (Stocks.symbol d)))%nat.
Proof.
  intros Hres Hin.
  destruct (decide (Stocks.message_type d = "aggregate")) as [Hmt|Hmt].
  - destruct (stocks_aggregate_step self d Hmt)
      as (self1 & store1 & Hstore & Hvols & Hcheck & _).
    rewrite Hcheck in Hres.
    destruct (Nat.lt_ge_cases (length (Stocks.recent_volumes store1)) 5) as [Hlt|Hge].
    + rewrite (proj1 (stocks_check_verdict self1 d store1 Hstore) Hlt) in Hres.
      inversion Hres; subst effs. by apply elem_of_nil in Hin.
    + rewrite Hvols, last_n_length, length_app in Hge. cbn [length] in Hge. lia.
  - rewrite (proj2 (stocks_other_step self d Hmt) effs Hres) in Hin.
    by apply elem_of_nil in Hin.
Qed.

(** *** The crypto processor *)

Lemma deque_append_map {A B} (f : A → B) (n : nat) (l : list A) (x : A) :
  map f (Crypto.deque_append n l x) = Crypto.deque_append n (map f l) (f x).
Proof.
  unfold Crypto.deque_append. rewrite length_map.
  destruct (n <=? length l)%nat; by rewrite map_app, ?skipn_map.
Qed.

Lemma deque_append_length {A} (n : nat) (l : list A) (x : A) :
  (length (Crypto.deque_append n l x) ≤ length l + 1)%nat.
Proof.
  unfold Crypto.deque_append.
  destruct (n <=? length l)%nat; rewrite length_app, ?length_drop; simpl; lia.
Qed.

Section CryptoFacts.
Variable isoformat : string → datetime → string.

Lemma crypto_ignored_step (self : Crypto.CryptoDataProcessor) (m : Crypto.message)
    (now : datetime) :
  Crypto.accepted m = false → Crypto.process_data isoformat self m now = (self, []).
Proof.
  unfold Crypto.accepted, Crypto.process_data. intros H%negb_false_iff.
  by rewrite H.
Qed.

Lemma crypto_accepted_step (self : Crypto.CryptoDataProcessor) (m : Crypto.message)
    (now : datetime) :
  Crypto.accepted m = true →
  ∃ self1,
    Crypto.process_data isoformat self m now
      = (self1, Crypto.check_volume_anomaly isoformat self1
                  (default "UNKNOWN" (Crypto.pair m)) (default 0%Q (Crypto.v m)) now)
    ∧ Crypto.window self1 (default "UNKNOWN" (Crypto.pair m))
        = Crypto.deque_append 10 (Crypto.window self (default "UNKNOWN" (Crypto.pair m)))
            (default 0%Q (Crypto.v m))
    ∧ Crypto.volume_threshold self1 = Crypto.volume_threshold self
    ∧ ∀ sym, sym ≠ default "UNKNOWN" (Crypto.pair m) →
        Crypto.window self1 sym = Crypto.window self sym.
Proof.
  unfold Crypto.accepted, Crypto.process_data. intros H%negb_true_iff.
  rewrite H. simpl. eexists. split; [reflexivity|].
  unfold Crypto.window. simpl. rewrite lookup_insert_eq. simpl.
  split; [by rewrite deque_append_map|]. split; [done|].
  intros sym Hne. by rewrite lookup_insert_ne.
Qed.

Lemma crypto_check_verdict (self : Crypto.CryptoDataProcessor) (sym : string)
    (vol : Q) (now : datetime) :
  let prior := but_last (Crypto.window self sym) in
  let avg := (sum prior / len prior)%Q in
  ((length (Crypto.window self sym) < 5)%nat →
     Crypto.check_volume_anomaly isoformat self sym vol now = [])
  ∧ ((5 ≤ length (Crypto.window self sym))%nat →
     ((avg <= 0)%Q → Crypto.check_volume_anomaly isoformat self sym vol now = [])
     ∧ ((0 < avg)%Q → (vol / avg < Crypto.volume_threshold self)%Q →
        Crypto.check_volume_anomaly isoformat self sym vol now = [])
     ∧ ((0 < avg)%Q → (Crypto.volume_threshold self <= vol / avg)%Q →
        ∃ a, Crypto.check_volume_anomaly isoformat self sym vol now = [Emit a]
             ∧ a !! "type" = Some (PyStr "volume_spike")
             ∧ a !! "symbol" = Some (PyStr sym)
             ∧ a !! "multiplier" = Some (PyNum (vol / avg)))).
Proof.
  intros prior avg. unfold Crypto.check_volume_anomaly.
  fold (Crypto.window self sym). split.
  - intros Hlt. by rewrite (proj2 (Nat.ltb_lt _ _) Hlt).
  - intros Hge. rewrite (proj2 (Nat.ltb_ge _ _) Hge).
    rewrite mean_defined by lia. fold prior. fold avg.
    split; [|split].
    + intros Hle. by rewrite (proj2 (Qlt_bool_false _ _) Hle).
    + intros Hpos Hlt. rewrite (proj2 (Qlt_bool_true _ _) Hpos).
      rewrite truediv_nonzero by (intros Hz; rewrite Hz in Hpos; by apply Qlt_irrefl in Hpos).
      destruct (Qle_bool (Crypto.volume_threshold self) (vol / avg)) eqn:Hb; [|done].
      apply Qle_bool_iff in Hb. by apply Qlt_not_le in Hlt.
    + intros Hpos Hle. rewrite (proj2 (Qlt_bool_true _ _) Hpos).
      rewrite truediv_nonzero by (intros Hz; rewrite Hz in Hpos; by apply Qlt_irrefl in Hpos).
      rewrite (proj2 (Qle_bool_iff _ _) Hle).
      eexists. split; [reflexivity|]. by repeat split.
Qed.

Lemma crypto_run_cons (self : Crypto.CryptoDataProcessor) (m : Crypto.message)
    (now : datetime) (rest : list (Crypto.message * datetime)) :
  (Crypto.run isoformat self ((m, now) :: rest)).1
    = (Crypto.run isoformat (Crypto.process_data isoformat self m now).1 rest).1.
Proof.
  cbn [Crypto.run]. destruct (Crypto.process_data isoformat self m now) as [self1 r].
  cbn [fst]. by destruct (Crypto.run isoformat self1 rest).
Qed.

Lemma crypto_step_window_bound (self : Crypto.CryptoDataProcessor) (m : Crypto.message)
    (now : datetime) (sym : string) :
  (length (Crypto.window (Crypto.process_data isoformat self m now).1 sym)
   ≤ length (Crypto.window self sym)
     + (if Crypto.accepted m && String.eqb (default "UNKNOWN" (Crypto.pair m)) sym
        then 1 else 0))%nat.
Proof.
  destruct (Crypto.accepted m) eqn:Hacc; simpl.
  - destruct (crypto_accepted_step self m now Hacc) as (self1 & Hstep & Hwin & _ & Hother).
    rewrite Hstep. simpl.
    destruct (String.eqb_spec (default "UNKNOWN" (Crypto.pair m)) sym) as [<-|Hne].
    + rewrite Hwin. apply deque_append_length.
    + rewrite Hother by done. lia.
  - rewrite crypto_ignored_step by done. simpl. lia.
Qed.

Lemma crypto_run_window_bound (ticks : list (Crypto.message * datetime))
    (self : Crypto.CryptoDataProcessor) (sym : string) :
  (length (Crypto.window (Crypto.run isoformat self ticks).1 sym)
   ≤ length (Crypto.window self sym) + crypto_observations sym ticks)%nat.
Proof.
  revert self. induction ticks as [|[m now] rest IH]; intros self.
  - simpl. lia.
  - rewrite crypto_run_cons. etrans; [apply IH|].
    pose proof (crypto_step_window_bound self m now sym) as Hstep.
    unfold crypto_observations in *. simpl.
    destruct (Crypto.accepted m && String.eqb (default "UNKNOWN" (Crypto.pair m)) sym);
      simpl; lia.
Qed.

Lemma crypto_emit_needs_window (self : Crypto.CryptoDataProcessor) (m : Crypto.message)
    (now : datetime) (a : gmap string pyval) :
  Emit a ∈ (Crypto.process_data isoformat self m now).2 →
  Crypto.accepted m = true
  ∧ (4 ≤ length (Crypto.window self (default "UNKNOWN" (Crypto.pair m))))%nat.
Proof.
  intros Hin. destruct (Crypto.accepted m) eqn:Hacc.
  - split; [done|].
    destruct (crypto_accepted_step self m now Hacc) as (self1 & Hstep & Hwin & _).
    rewrite Hstep in Hin. simpl in Hin.
    destruct (Nat.lt_ge_cases
                (length (Crypto.window self1 (default "UNKNOWN" (Crypto.pair m)))) 5)
      as [Hlt|Hge].
    + rewrite (proj1 (crypto_check_verdict self1 _ _ now) Hlt) in Hin.
      by apply elem_of_nil in Hin.
    + rewrite Hwin in Hge.
      pose proof (deque_append_length 10
                    (Crypto.window self (default "UNKNOWN" (Crypto.pair m)))
                    (default 0%Q (Crypto.v m))). lia.
  - rewrite crypto_ignored_step in Hin by done. by apply elem_of_nil in Hin.
Qed.

End CryptoFacts.

End DetectorFacts.

(** ** Persistence *)

Section PersistenceFacts.
Import Persistence Spec Samples.
Variable isoformat : string → datetime → string.
Variable strftime : string → datetime → string.
Variable fromisoformat : string → option datetime.

Lemma insert_anomaly_inv (db db' : Database) (start symbol : pyval) (asset_type : string)
    (type multiplier current average : pyval) (details_json : sqlval) :
  insert_anomaly isoformat db start symbol asset_type type multiplier current average
    details_json = Ok db' →
  ∃ st sy ty m c a,
    bind_param isoformat start = Ok st ∧ bind_param isoformat symbol = Ok sy
    ∧ bind_param isoformat type = Ok ty ∧ bind_param isoformat multiplier = Ok m
    ∧ bind_param isoformat current = Ok c ∧ bind_param isoformat average = Ok a
    ∧ db' = {| market_data := market_data db;
               anomalies := anomalies db ++
                 [ {| start_time := st; end_time := NULL; an_symbol := sy;
                      an_asset_type := asset_type; anomaly_type := ty;
                      an_multiplier := m; current_value := c; average_value := a;
                      status := TEXT "detected"; details := details_json |} ] |}.
Proof.
  unfold insert_anomaly. intros H.
  destruct (bind_param isoformat start) as [st|]; [|done].
  destruct (bind_param isoformat symbol) as [sy|]; [|done].
  destruct (bind_param isoformat type) as [ty|]; [|done].
  destruct (bind_param isoformat multiplier) as [m|]; [|done].
  destruct (bind_param isoformat current) as [c|]; [|done].
  destruct (bind_param isoformat average) as [a|]; [|done].
  simpl in H.
  destruct (not_null "anomalies.start_time" st); [|done].
  destruct (not_null "anomalies.symbol" sy); [|done].
  destruct (not_null "anomalies.anomaly_type" ty); [|done].
  simpl in H. inversion H. by exists st, sy, ty, m, c, a.
Qed.

Lemma json_dumps_ok (d : gmap string pyval) (j : sqlval) :
  json_dumps d = Ok j → j = JSON d.
Proof. unfold json_dumps. case_bool_decide; congruence. Qed.

Lemma store_anomaly_db (asset_type : string) (anomaly : gmap string pyval)
    (now : datetime) (db : Database) :
  (store_anomaly isoformat asset_type anomaly now db).1 =
    match details_json ← json_dumps anomaly;
          insert_anomaly isoformat db (PyDatetime now)
            (default (PyStr "") (anomaly !! "symbol")) asset_type
            (default (PyStr "") (anomaly !! "type"))
            (default (PyNum 0) (anomaly !! "multiplier"))
            (get2 anomaly "current_volume" "current_value" (PyNum 0))
            (get2 anomaly "average_volume" "average_value" (PyNum 0))
            details_json with
    | Ok db' => db'
    | Raise _ => db
    end.
Proof.
  unfold store_anomaly.
  destruct (_ ← json_dumps anomaly; _) as [db'|e]; [|done].
  by destruct (format_float _).
Qed.

(** C9: a row that [store_anomaly] adds has the clock reading taken at
    the insertion as its [start_time] and the serialized event as its
    [details]; whatever the event carries under ['timestamp'], every
    other column of the row is the same, so that entry reaches the table
    through [details] only.  The market data is not touched. *)
Theorem store_anomaly_start_time (asset_type : string) (anomaly : gmap string pyval)
    (now : datetime) (db : Database) :
  market_data (store_anomaly isoformat asset_type anomaly now db).1 = market_data db
  ∧ (anomalies (store_anomaly isoformat asset_type anomaly now db).1 = anomalies db
     ∨ ∃ row,
         anomalies (store_anomaly isoformat asset_type anomaly now db).1
           = anomalies db ++ [row]
         ∧ start_time row = TEXT (isoformat " " now)
         ∧ details row = JSON anomaly
         ∧ ∀ ts row',
             anomalies (store_anomaly isoformat asset_type
                          (<["timestamp" := ts]> anomaly) now db).1
               = anomalies db ++ [row'] →
             without_details row' = without_details row
             ∧ details row' = JSON (<["timestamp" := ts]> anomaly)).
Proof.
  rewrite store_anomaly_db.
  destruct (json_dumps anomaly) as [dj|e] eqn:Hj; simpl; [|by split; [|left]].
  apply json_dumps_ok in Hj as ->.
  destruct (insert_anomaly _ _ _ _ _ _ _ _ _ _) as [db'|e] eqn:Hins; [|by split; [|left]].
  apply insert_anomaly_inv in Hins
    as (st & sy & ty & m & c & a & Hst & Hsy & Hty & Hm & Hc & Ha & ->).
  simpl. split; [done|]. right. eexists. split; [done|]. simpl.
  split; [by inversion Hst|]. split; [done|].
  intros ts row'. rewrite store_anomaly_db. unfold get2.
  rewrite !lookup_insert_ne by done.
  destruct (json_dumps (<["timestamp":=ts]> anomaly)) as [dj|e] eqn:Hj; simpl.
  - apply json_dumps_ok in Hj as ->.
    destruct (insert_anomaly _ _ _ _ _ _ _ _ _ _) as [db'|e] eqn:Hins.
    + apply insert_anomaly_inv in Hins
        as (st' & sy' & ty' & m' & c' & a' & Hst' & Hsy' & Hty' & Hm' & Hc' & Ha' & ->).
      unfold get2 in *. simpl. intros Heq. apply app_inv_head in Heq.
      inversion Heq; subst row'. simpl. split; [|done].
      unfold without_details. simpl. congruence.
    + intros Heq. apply (f_equal length) in Heq. rewrite length_app in Heq. simpl in Heq. lia.
  - intros Heq. apply (f_equal length) in Heq. rewrite length_app in Heq. simpl in Heq. lia.
Qed.

(** *** Live-stream writes *)











(** *** Backfill upsert *)









End PersistenceFacts.

Section PersistenceSamples.
Import Persistence Spec Samples.

(** A crypto anomaly detected at instant 7 and stored at instant 9 gets
    the later instant as [start_time]. *)
Lemma store_anomaly_start_time_witness :
  ∃ row,
    anomalies (store_anomaly sample_isoformat "crypto" sample_anomaly 9%Z empty_db).1 = [row]
    ∧ start_time row = TEXT (sample_isoformat " " 9%Z)
    ∧ sample_anomaly !! "timestamp" = Some (PyStr (sample_isoformat "T" 7%Z))
    ∧ details row = JSON sample_anomaly.
Proof.
  destruct (store_anomaly_start_time sample_isoformat "crypto" sample_anomaly 9%Z empty_db)
    as [_ [H|(row & H1 & H2 & H3 & _)]].
  - vm_compute in H. discriminate H.
  - exists row. split; [exact H1|]. split; [exact H2|]. split; [reflexivity|exact H3].
Defined.




End PersistenceSamples.

(** ** Anomaly detection: the claims *)

Section DetectorClaims.
Import Spec Samples.

(** C1, as stated, fails: both processors raise an anomaly on the fifth
    observation of a symbol, after four prior ones. *)
Lemma anomaly_after_four_observations :
  ∃ a1 a2,
    (Crypto.run sample_isoformat Crypto.init
       (crypto_ticks [100; 100; 100; 100; 400]%Q)).2 = [[]; []; []; []; [Emit a1]]
    ∧ (Stocks.run Stocks.init (stock_ticks [100; 100; 100; 100; 400]%Q)).2
        = [Ok []; Ok []; Ok []; Ok []; Ok [Emit a2]].
Proof. eexists _, _. split; vm_compute; reflexivity. Qed.

(** C1 (amended): neither processor checks for a spike until the symbol's
    window, the just-appended observation included, holds at least 5
    entries, that is, until at least 4 earlier observations are retained;
    below that a tick yields no effect at all.  Consequently an emitted
    anomaly belongs to a stream that delivered at least 4 observations of
    the symbol before the triggering tick. *)
Theorem anomaly_needs_four_prior_observations :
  (∀ (self : Stocks.RealTimeDataProcessor) (d : Stocks.data),
     Stocks.message_type d = "aggregate" →
     (length (Stocks.window self (Stocks.symbol d)) < 4)%nat →
     (Stocks.process_data self d).2 = Ok [])
  ∧ (∀ (self : Stocks.RealTimeDataProcessor) (d : Stocks.data) effs a,
       (Stocks.process_data self d).2 = Ok effs → Emit a ∈ effs →
       (4 ≤ length (Stocks.window self (Stocks.symbol d)))%nat)
  ∧ (∀ (before : list Stocks.data) (d : Stocks.data) effs a,
       (Stocks.process_data (Stocks.run Stocks.init before).1 d).2 = Ok effs →
       Emit a ∈ effs →
       (4 ≤ stocks_observations (Stocks.symbol d) before)%nat)
  ∧ (∀ isoformat (self : Crypto.CryptoDataProcessor) (m : Crypto.message) now,
       (length (Crypto.window self (default "UNKNOWN" (Crypto.pair m))) < 4)%nat →
       (Crypto.process_data isoformat self m now).2 = [])
  ∧ (∀ isoformat (self : Crypto.CryptoDataProcessor) (m : Crypto.message) now a,
       Emit a ∈ (Crypto.process_data isoformat self m now).2 →
       (4 ≤ length (Crypto.window self (default "UNKNOWN" (Crypto.pair m))))%nat)
  ∧ (∀ isoformat (before : list (Crypto.message * datetime)) (m : Crypto.message) now a,
       Emit a ∈ (Crypto.process_data isoformat
                   (Crypto.run isoformat Crypto.init before).1 m now).2 →
       (4 ≤ crypto_observations (default "UNKNOWN" (Crypto.pair m)) before)%nat).
Proof.
  repeat split.
  - intros self d Hmt Hlen.
    destruct (stocks_aggregate_step self d Hmt)
      as (self1 & store1 & Hstore & Hvols & Hcheck & _).
    rewrite Hcheck. apply (proj1 (stocks_check_verdict self1 d store1 Hstore)).
    rewrite Hvols, last_n_length, length_app. cbn [length]. lia.
  - apply stocks_emit_needs_window.
  - intros before d effs a Hres Hin.
    pose proof (stocks_emit_needs_window _ _ _ _ Hres Hin) as Hwin.
    pose proof (stocks_run_window_bound before Stocks.init (Stocks.symbol d)) as Hb.
    change (length (Stocks.window Stocks.init (Stocks.symbol d))) with 0%nat in Hb. lia.
  - intros isoformat self m now Hlen.
    destruct (Crypto.accepted m) eqn:Hacc; [|by rewrite crypto_ignored_step].
    destruct (crypto_accepted_step isoformat self m now Hacc)
      as (self1 & Hstep & Hwin & _).
    rewrite Hstep. simpl. apply (proj1 (crypto_check_verdict isoformat self1 _ _ now)).
    rewrite Hwin.
    pose proof (deque_append_length 10
                  (Crypto.window self (default "UNKNOWN" (Crypto.pair m)))
                  (default 0%Q (Crypto.v m))). lia.
  - intros isoformat self m now a Hin.
    apply (crypto_emit_needs_window isoformat self m now a Hin).
  - intros isoformat before m now a Hin.
    pose proof (proj2 (crypto_emit_needs_window isoformat _ m now a Hin)) as Hwin.
    pose proof (crypto_run_window_bound isoformat before Crypto.init
                  (default "UNKNOWN" (Crypto.pair m))) as Hb.
    change (length (Crypto.window Crypto.init (default "UNKNOWN" (Crypto.pair m))))
      with 0%nat in Hb. lia.
Qed.

Lemma anomaly_needs_four_prior_observations_witness :
  (∃ a, (Stocks.process_data (Stocks.run Stocks.init (stock_ticks [100; 100; 100; 100]%Q)).1
           (Stocks.aggregate "AAPL" 400)).2 = Ok [Emit a])
  ∧ (4 ≤ stocks_observations "AAPL" (stock_ticks [100; 100; 100; 100]%Q))%nat.
Proof.
  assert (Hrun : ∃ a,
            (Stocks.process_data
               (Stocks.run Stocks.init (stock_ticks [100; 100; 100; 100]%Q)).1
               (Stocks.aggregate "AAPL" 400)).2 = Ok [Emit a])
    by (eexists; vm_compute; reflexivity).
  split; [exact Hrun|]. destruct Hrun as [a Ha].
  destruct anomaly_needs_four_prior_observations as (_ & _ & Hstream & _).
  apply (Hstream (stock_ticks [100; 100; 100; 100]%Q) (Stocks.aggregate "AAPL" 400)
           [Emit a] a Ha).
  apply list_elem_of_singleton. reflexivity.
Defined.






(** The stock check divides by a zero mean: with a positive newest
    volume the comparison against three times the mean succeeds and the
    multiplier is computed. *)
Lemma stocks_zero_average_raises (self : Stocks.RealTimeDataProcessor) (d : Stocks.data) :
  Stocks.message_type d = "aggregate" →
  let prior := but_last (Stocks.window (Stocks.process_data self d).1 (Stocks.symbol d)) in
  (4 ≤ length prior)%nat → (sum prior / len prior == 0)%Q → (0 < Stocks.volume d)%Q →
  (Stocks.process_data self d).2 = Raise ZeroDivisionError.
Proof.
  intros Hmt prior Hlen Hzero Hpos.
  destruct (stocks_aggregate_step self d Hmt)
    as (self1 & store1 & Hstore & Hvols & Hcheck & Hwin & _).
  subst prior. rewrite Hcheck, Hwin in *. rewrite but_last_length in Hlen.
  destruct (proj2 (stocks_check_verdict self1 d store1 Hstore) ltac:(lia))
    as (_ & _ & Hraise).
  apply Hraise; [|done]. rewrite Hzero. by rewrite Qmult_0_l.
Qed.

(** The crypto check skips a mean that is not positive, before dividing. *)
Lemma crypto_zero_average_skipped isoformat (self : Crypto.CryptoDataProcessor)
    (sym : string) (vol : Q) (now : datetime) :
  let prior := but_last (Crypto.window self sym) in
  (sum prior / len prior <= 0)%Q →
  Crypto.check_volume_anomaly isoformat self sym vol now = [].
Proof.
  intros prior Hle.
  destruct (Nat.lt_ge_cases (length (Crypto.window self sym)) 5) as [Hlt|Hge].
  - by apply (proj1 (crypto_check_verdict isoformat self sym vol now)).
  - by apply (proj1 (proj2 (crypto_check_verdict isoformat self sym vol now) Hge)).
Qed.

(** C5 (the code at the failing input): four stock volumes of 0 followed
    by a volume of 5 make the fifth call divide 5 by the zero mean; the
    call ends in [ZeroDivisionError] and emits nothing. *)
Theorem stocks_zero_average_divides :
  (Stocks.run Stocks.init (stock_ticks [0; 0; 0; 0; 5]%Q)).2
    = [Ok []; Ok []; Ok []; Ok []; Raise ZeroDivisionError].
Proof. vm_compute. reflexivity. Qed.

End DetectorClaims.

(** * Further properties of the code *)

(** ** Configuration: loading, delays, availability, summary *)

Section ConfigExtras.
Import Config Spec Examples.

Lemma tier_of_value_tier_value (t : SubscriptionTier) :
  tier_of_value (tier_value t) = Ok t.
Proof. by destruct t. Qed.

Lemma tier_of_value_unknown (s : string) :
  (∀ t, s ≠ tier_value t) → ∃ e, tier_of_value s = Raise e.
Proof.
  intros Hno. unfold tier_of_value, all_tiers. cbn [find].
  destruct (String.eqb_spec (tier_value BASIC) s) as [E|_]; [by destruct (Hno BASIC)|].
  destruct (String.eqb_spec (tier_value STARTER) s) as [E|_]; [by destruct (Hno STARTER)|].
  destruct (String.eqb_spec (tier_value DEVELOPER) s) as [E|_]; [by destruct (Hno DEVELOPER)|].
  destruct (String.eqb_spec (tier_value ADVANCED) s) as [E|_]; [by destruct (Hno ADVANCED)|].
  eauto.
Qed.

Lemma init_get_subscription_tier (env : environ) (cfg : WebSocketConfig) (a : AssetType) :
  Config.init env = Ok cfg → get_subscription_tier cfg a = load_tier env a.
Proof.
  unfold Config.init. destruct (env "POLYGON_API_KEY") as [k|]; [|done].
  destruct (truthy k); [|done]. intros [= <-].
  unfold get_subscription_tier. by destruct a.
Qed.

Lemma access_of_tier (self : WebSocketConfig) (a : AssetType) :
  has_websocket_access self a = negb (bool_decide (get_subscription_tier self a = BASIC)).
Proof.
  rewrite has_websocket_access_tier. by destruct (get_subscription_tier self a).
Qed.

(** X1.  A configuration that loads gives each asset class the tier that
    its [POLYGON_TIER_<ASSET>] variable names, whatever the case of the
    letters, and streaming access exactly when that tier is not basic. *)
Theorem init_reads_tier_case_insensitively (env : environ) (cfg : WebSocketConfig)
    (a : AssetType) (v : string) (t : SubscriptionTier) :
  Config.init env = Ok cfg →
  env ("POLYGON_TIER_" +:+ upper (asset_value a)) = Some v →
  lower v = tier_value t →
  get_subscription_tier cfg a = t
  ∧ has_websocket_access cfg a = negb (bool_decide (t = BASIC)).
Proof.
  intros Hinit Henv Hlow.
  assert (get_subscription_tier cfg a = t) as Ht.
  { rewrite (init_get_subscription_tier env cfg a Hinit).
    unfold load_tier. rewrite Henv.
    change (default "basic" (Some v)) with v.
    by rewrite Hlow, tier_of_value_tier_value. }
  split; [done|]. by rewrite access_of_tier, Ht.
Qed.

Lemma init_reads_tier_case_insensitively_witness :
  Config.init env_mixed = Ok config_mixed
  ∧ get_subscription_tier config_mixed CRYPTO = STARTER
  ∧ has_websocket_access config_mixed CRYPTO = true.
Proof.
  split; [reflexivity|].
  apply (init_reads_tier_case_insensitively env_mixed config_mixed CRYPTO "StArTeR" STARTER);
    reflexivity.
Defined.

(** X2.  An asset class whose tier variable is unset, or set to a word
    that names no tier, is loaded as basic, and every subscription
    request for it is refused. *)
Theorem init_falls_back_to_basic (env : environ) (cfg : WebSocketConfig) (a : AssetType) :
  Config.init env = Ok cfg →
  (∀ v t, env ("POLYGON_TIER_" +:+ upper (asset_value a)) = Some v → lower v ≠ tier_value t) →
  get_subscription_tier cfg a = BASIC
  ∧ ∀ symbols data_types,
      ∃ msg, get_subscription_channels cfg a symbols data_types = Raise (ValueError msg).
Proof.
  intros Hinit Hno.
  assert (get_subscription_tier cfg a = BASIC) as Ht.
  { rewrite (init_get_subscription_tier env cfg a Hinit).
    unfold load_tier.
    destruct (env ("POLYGON_TIER_" +:+ upper (asset_value a))) as [v|] eqn:Henv;
      [|reflexivity].
    change (default "basic" (Some v)) with v.
    destruct (tier_of_value_unknown (lower v)) as [e ->]; [|done].
    intros t. by apply Hno. }
  split; [done|]. intros symbols data_types.
  unfold get_subscription_channels.
  rewrite (proj2 (no_access_is_basic cfg a) Ht). cbn [negb]. eauto.
Qed.

Lemma init_falls_back_to_basic_witness :
  Config.init env_mixed = Ok config_mixed
  ∧ get_subscription_tier config_mixed STOCKS = BASIC
  ∧ ∀ symbols data_types,
      ∃ msg, get_subscription_channels config_mixed STOCKS symbols data_types
             = Raise (ValueError msg).
Proof.
  split; [reflexivity|].
  apply (init_falls_back_to_basic env_mixed config_mixed STOCKS); [reflexivity|].
  intros v t [= <-]. by destruct t.
Defined.

(** X3.  Without a URL override, the delay reported for an asset class
    and the endpoint chosen for it agree: no delay figure goes with a
    refused URL, 15 minutes with the delayed host, 0 minutes with the
    real-time host. *)
Theorem delay_matches_endpoint (env : environ) (self : WebSocketConfig) (a : AssetType) :
  url_override env a = None →
  match get_delay_minutes self a with
  | None => ∃ msg, get_websocket_url env self a = Raise (ValueError msg)
  | Some d =>
      get_websocket_url env self a
        = Ok ((if (d =? 0)%nat then "wss://socket.polygon.io"
               else "wss://delayed.polygon.io") +:+ "/" +:+ asset_value a)
  end.
Proof.
  intros Hov. unfold get_delay_minutes, get_websocket_url. rewrite Hov.
  destruct (get_subscription_tier self a); destruct a; vm_compute; eauto.
Qed.

Lemma delay_matches_endpoint_witness :
  url_override env_mixed STOCKS = None
  ∧ get_websocket_url env_mixed (Samples.config_all STARTER) STOCKS
    = Ok "wss://delayed.polygon.io/stocks".
Proof.
  split; [reflexivity|].
  exact (delay_matches_endpoint env_mixed (Samples.config_all STARTER) STOCKS eq_refl).
Defined.

(** X4.  Where real-time data is reported available the delay is 0
    minutes; a delay of 0 minutes without real-time availability is
    reported for crypto on the starter tier and nowhere else. *)
Theorem realtime_and_delay (self : WebSocketConfig) (a : AssetType) :
  (is_realtime_available self a = true → get_delay_minutes self a = Some 0%nat)
  ∧ (get_delay_minutes self a = Some 0%nat ∧ is_realtime_available self a = false
     ↔ a = CRYPTO ∧ get_subscription_tier self a = STARTER).
Proof.
  unfold is_realtime_available, get_delay_minutes.
  destruct (get_subscription_tier self a); destruct a; vm_compute;
    (split; [try done | split; intros [? ?]; try done]).
Qed.

Lemma realtime_and_delay_witness :
  get_delay_minutes (Samples.config_all ADVANCED) FOREX = Some 0%nat.
Proof.
  apply (proj1 (realtime_and_delay (Samples.config_all ADVANCED) FOREX)). reflexivity.
Defined.

(** X5.  What a tier may subscribe to only grows with the tier: a data
    type listed for an asset class under one configuration is listed
    under every configuration whose tier for that class is at least as
    high. *)
Theorem available_types_grow_with_tier (c1 c2 : WebSocketConfig) (a : AssetType)
    (code : string) :
  (tier_index (get_subscription_tier c1 a) ≤ tier_index (get_subscription_tier c2 a))%nat →
  dict_mem (get_available_data_types c1 a false) code = true →
  dict_mem (get_available_data_types c2 a false) code = true.
Proof.
  intros Hle. rewrite !available_types_mem. unfold available.
  intros [Hin Hreq]. split; [done|].
  intros r Hr. specialize (Hreq r Hr). lia.
Qed.

Lemma available_types_grow_with_tier_witness :
  dict_mem (get_available_data_types (Samples.config_all STARTER) STOCKS false) "AM" = true
  ∧ dict_mem (get_available_data_types (Samples.config_all ADVANCED) STOCKS false) "AM" = true.
Proof.
  split; [reflexivity|].
  apply (available_types_grow_with_tier (Samples.config_all STARTER)
           (Samples.config_all ADVANCED) STOCKS "AM"); [vm_compute; lia | reflexivity].
Defined.

Lemma bind_singleton {A B} (f : A → B) (l : list A) :
  (x ← l; [f x]) = map f l.
Proof. induction l as [|x l IH]; [done|]. cbn. by rewrite <- IH. Qed.

Lemma build_channels_cons (dt : string) (dts symbols : list string) :
  build_channels (dt :: dts) symbols
    = map (λ sym, dt +:+ "." +:+ sym) symbols ++ build_channels dts symbols.
Proof.
  unfold build_channels. cbn [mbind list_bind]. fold (@mbind list _ string string).
  by rewrite <- (bind_singleton (λ sym, dt +:+ "." +:+ sym)).
Qed.

Lemma build_channels_length (dts symbols : list string) :
  length (build_channels dts symbols) = (length dts * length symbols)%nat.
Proof.
  induction dts as [|dt dts IH]; [done|].
  rewrite build_channels_cons, length_app, length_map, IH. cbn [length]. lia.
Qed.

Lemma build_channels_lookup (dts symbols : list string) (i j : nat) (dt sym : string) :
  dts !! i = Some dt → symbols !! j = Some sym →
  build_channels dts symbols !! (i * length symbols + j)%nat = Some (dt +:+ "." +:+ sym).
Proof.
  revert i. induction dts as [|d dts IH]; intros i Hi Hj; [done|].
  rewrite build_channels_cons.
  destruct i as [|i]; cbn in Hi.
  - injection Hi as ->. cbn [Nat.mul Nat.add].
    rewrite lookup_app_l by (rewrite length_map; by eapply lookup_lt_Some).
    by rewrite list_lookup_fmap, Hj.
  - rewrite lookup_app_r by (rewrite length_map; cbn [Nat.mul]; lia).
    rewrite length_map.
    replace (S i * length symbols + j - length symbols)%nat
      with (i * length symbols + j)%nat by (cbn [Nat.mul]; lia).
    by apply IH.
Qed.

Lemma default_channels (self : WebSocketConfig) (a : AssetType)
    (symbols : list string) :
  has_websocket_access self a = true →
  ∃ code,
    default_data_types a = [code]
    ∧ get_subscription_channels self a symbols None
      = Ok (map (λ sym, code +:+ "." +:+ sym) symbols).
Proof.
  intros Hacc.
  assert (∃ code, default_data_types a = [code]
                  ∧ dict_mem (get_available_data_types self a false) code = true)
    as (code & Hdef & Hmem).
  { unfold get_available_data_types.
    destruct (get_subscription_tier self a); destruct a;
      eexists; (split; [reflexivity|]); reflexivity. }
  exists code. split; [done|].
  unfold get_subscription_channels. rewrite Hacc. cbn [negb]. rewrite Hdef.
  cbn [validate]. rewrite Hmem. cbn [negb].
  rewrite build_channels_cons. unfold build_channels. cbn [mbind list_bind].
  by rewrite app_nil_r.
Qed.

(** X6.  With streaming access, a subscription that names no data types
    is accepted on every tier and for every asset class: the class's
    default code is never among the restricted ones above the tier.  The
    channels are that code joined to each symbol, in order. *)
Theorem default_subscription_accepted (self : WebSocketConfig) (a : AssetType)
    (symbols : list string) :
  has_websocket_access self a = true →
  ∃ code,
    default_data_types a = [code]
    ∧ get_subscription_channels self a symbols None
      = Ok (map (λ sym, code +:+ "." +:+ sym) symbols).
Proof. apply default_channels. Qed.

Lemma default_subscription_accepted_witness :
  has_websocket_access (Samples.config_all STARTER) CRYPTO = true
  ∧ ∃ code,
      default_data_types CRYPTO = [code]
      ∧ get_subscription_channels (Samples.config_all STARTER) CRYPTO
          ["BTC-USD"; "ETH-USD"] None
        = Ok (map (λ sym, code +:+ "." +:+ sym) ["BTC-USD"; "ETH-USD"]).
Proof.
  split; [reflexivity|].
  apply (default_subscription_accepted (Samples.config_all STARTER) CRYPTO); reflexivity.
Defined.

(** X7.  The channels of an accepted subscription are grouped by data
    type, in the order the data types were given, and by symbol within a
    group: there are [len(data_types) * len(symbols)] of them, and the
    one at position [i * len(symbols) + j] joins the i-th data type to
    the j-th symbol. *)
Theorem subscription_channels_layout (self : WebSocketConfig) (a : AssetType)
    (symbols data_types channels : list string) :
  get_subscription_channels self a symbols (Some data_types) = Ok channels →
  length channels = (length data_types * length symbols)%nat
  ∧ ∀ i j dt sym,
      data_types !! i = Some dt → symbols !! j = Some sym →
      channels !! (i * length symbols + j)%nat = Some (dt +:+ "." +:+ sym).
Proof.
  unfold get_subscription_channels.
  destruct (negb (has_websocket_access self a)); [done|].
  destruct (validate self a (get_available_data_types self a false) data_types); [|done].
  intros [= <-]. split; [apply build_channels_length|].
  intros i j dt sym. apply build_channels_lookup.
Qed.

Lemma subscription_channels_layout_witness :
  get_subscription_channels (Samples.config_all ADVANCED) STOCKS
      ["AAPL"; "MSFT"] (Some ["T"; "Q"])
    = Ok ["T.AAPL"; "T.MSFT"; "Q.AAPL"; "Q.MSFT"]
  ∧ ["T.AAPL"; "T.MSFT"; "Q.AAPL"; "Q.MSFT"] !! 3%nat = Some "Q.MSFT".
Proof.
  split; [reflexivity|].
  exact (proj2 (subscription_channels_layout (Samples.config_all ADVANCED) STOCKS
                  ["AAPL"; "MSFT"] ["T"; "Q"] ["T.AAPL"; "T.MSFT"; "Q.AAPL"; "Q.MSFT"]
                  eq_refl) 1%nat 1%nat "Q" "MSFT" eq_refl eq_refl).
Defined.

(** X8.  In the configuration summary the fallback text for a failed URL
    lookup is never used: an entry with streaming access carries the URL
    that [get_websocket_url] returns and a delay in minutes, an entry
    without access carries no URL, no data types and the delay ['N/A']. *)
Theorem summary_entry_fields (env : environ) (self : WebSocketConfig) (a : AssetType) :
  let entry := summary_entry env self a in
  if websocket_available entry then
    (∃ url, get_websocket_url env self a = Ok url ∧ websocket_url entry = Some url)
    ∧ (∃ d, data_delay_minutes entry = DelayMinutes (Some d))
  else
    websocket_url entry = None
    ∧ available_data_types entry = []
    ∧ data_delay_minutes entry = DelayNA.
Proof.
  unfold summary_entry. cbn [websocket_available websocket_url data_delay_minutes
                             available_data_types].
  destruct (has_websocket_access self a) eqn:Hacc; [|done].
  split.
  - unfold get_websocket_url. destruct (url_override env a) as [u|]; [eauto|].
    rewrite has_websocket_access_tier in Hacc. rewrite Hacc. cbn [negb]. eauto.
  - rewrite access_of_tier in Hacc. unfold get_delay_minutes.
    destruct (get_subscription_tier self a); destruct a; try done; vm_compute; eauto.
Qed.

End ConfigExtras.

(** ** The stream manager *)

Section ManagerExtras.
Import Config Manager Examples.

Lemma asset_value_inj (a b : AssetType) : asset_value a = asset_value b → a = b.
Proof. by destruct a, b. Qed.

Lemma get_websocket_url_returns (env : environ) (self : WebSocketConfig) (a : AssetType) :
  (∃ url, get_websocket_url env self a = Ok url)
  ↔ has_websocket_access self a = true ∨ ∃ u, url_override env a = Some u.
Proof.
  unfold get_websocket_url. rewrite has_websocket_access_tier.
  destruct (url_override env a) as [u|].
  - split; eauto.
  - destruct (tier_in (get_subscription_tier self a) WEBSOCKET_ENABLED_TIERS); cbn [negb].
    + split; eauto.
    + split; [by intros [? ?] | by intros [?|[? ?]]].
Qed.

Lemma check_available_fold (env : environ) (config : WebSocketConfig)
    (l : list AssetType) (acc : gset string) (x : string) :
  x ∈ foldl (λ (available : gset string) a,
               match get_websocket_url env config a with
               | Ok _ => {[asset_value a]} ∪ available
               | Raise _ => available
               end) acc l
  ↔ x ∈ acc ∨ ∃ a, a ∈ l ∧ x = asset_value a ∧ ∃ url, get_websocket_url env config a = Ok url.
Proof.
  revert acc. induction l as [|b l IH]; intros acc; cbn [foldl].
  - split; [by left|]. intros [?|(a & Ha & _)]; [done|]. by apply elem_of_nil in Ha.
  - rewrite IH. split.
    + intros [Hacc|(a & Ha & Hx & Hurl)].
      * destruct (get_websocket_url env config b) as [url|e] eqn:Hb; [|by left].
        apply elem_of_union in Hacc as [Hx%elem_of_singleton|Hacc]; [|by left].
        right. exists b. split; [apply list_elem_of_here|]. eauto.
      * right. exists a. split; [by apply list_elem_of_further|]. eauto.
    + intros [Hacc|(a & Ha & Hx & url & Hurl)].
      * left. destruct (get_websocket_url env config b); [|done].
        apply elem_of_union. by right.
      * apply elem_of_cons in Ha as [->|Ha].
        -- left. rewrite Hurl. apply elem_of_union. left. by apply elem_of_singleton.
        -- right. exists a. eauto.
Qed.

Lemma elem_of_all_asset_types (a : AssetType) : a ∈ all_asset_types.
Proof. unfold all_asset_types. destruct a; repeat constructor. Qed.

Lemma check_available_assets_spec (env : environ) (config : WebSocketConfig) (x : string) :
  x ∈ _check_available_assets env config
  ↔ ∃ a, x = asset_value a
         ∧ (has_websocket_access config a = true ∨ ∃ u, url_override env a = Some u).
Proof.
  unfold _check_available_assets. rewrite check_available_fold. split.
  - intros [H|(a & _ & Hx & Hurl)]; [by apply elem_of_empty in H|].
    exists a. split; [done|]. by apply get_websocket_url_returns.
  - intros (a & Hx & Hacc). right. exists a.
    split; [apply elem_of_all_asset_types|]. split; [done|].
    by apply get_websocket_url_returns.
Qed.

(** X9.  The manager lists an asset class as available exactly when the
    configuration grants it streaming access or the environment
    overrides its URL; nothing but asset class names is listed. *)
Theorem available_assets_characterised (env : environ) (config : WebSocketConfig) :
  (∀ a, asset_value a ∈ available_assets (Manager.init env config)
        ↔ has_websocket_access config a = true ∨ ∃ u, url_override env a = Some u)
  ∧ (∀ x, x ∈ available_assets (Manager.init env config) → ∃ a, x = asset_value a).
Proof.
  cbn [Manager.init available_assets]. split.
  - intros a. rewrite check_available_assets_spec. split.
    + intros (b & Hb & Hacc). by apply asset_value_inj in Hb as <-.
    + intros Hacc. by exists a.
  - intros x (a & Hx & _)%check_available_assets_spec. by exists a.
Qed.

Lemma available_assets_characterised_witness :
  "crypto" ∈ available_assets (Manager.init env_mixed config_mixed)
  ∧ "stocks" ∉ available_assets (Manager.init env_mixed config_mixed).
Proof.
  split.
  - apply (proj1 (available_assets_characterised env_mixed config_mixed) CRYPTO).
    left. reflexivity.
  - intros H.
    apply (proj1 (available_assets_characterised env_mixed config_mixed) STOCKS)
      in H as [H|[u H]]; discriminate H.
Defined.

(** X10.  A URL override makes the manager list an asset class even when
    its tier has no streaming access; for such a class every
    subscription request is still refused. *)
Theorem override_lists_asset_without_access (env : environ) (config : WebSocketConfig)
    (a : AssetType) (u : string) :
  url_override env a = Some u →
  has_websocket_access config a = false →
  asset_value a ∈ available_assets (Manager.init env config)
  ∧ ∀ symbols data_types,
      ∃ msg, get_subscription_channels config a symbols data_types = Raise (ValueError msg).
Proof.
  intros Hov Hacc. split.
  - cbn [Manager.init available_assets]. apply check_available_assets_spec.
    exists a. split; [done|]. right. by exists u.
  - intros symbols data_types. unfold get_subscription_channels.
    rewrite Hacc. cbn [negb]. eauto.
Qed.

Lemma override_lists_asset_without_access_witness :
  url_override env_mixed FOREX = Some "wss://proxy.example/forex"
  ∧ has_websocket_access config_mixed FOREX = false
  ∧ "forex" ∈ available_assets (Manager.init env_mixed config_mixed).
Proof.
  split; [reflexivity|]. split; [reflexivity|].
  apply (override_lists_asset_without_access env_mixed config_mixed FOREX
           "wss://proxy.example/forex"); reflexivity.
Defined.

Lemma add_stream_available (self : StreamManager) (x : string) (sy : option (list string)) :
  available_assets (add_stream self x sy) = available_assets self.
Proof.
  unfold add_stream.
  destruct (negb (bool_decide (x ∈ available_assets self))); [done|].
  destruct (String.eqb x "stocks"); [done|]. by destruct (String.eqb x "crypto").
Qed.

Lemma add_stream_lookup (self : StreamManager) (x k : string) :
  x ∈ ["stocks"; "crypto"] →
  streams (add_stream self x None) !! k
    = if bool_decide (x = k ∧ x ∈ available_assets self)
      then Some (if String.eqb k "stocks" then StockStream None else CryptoStream None)
      else streams self !! k.
Proof.
  intros Hx. unfold add_stream.
  destruct (decide (x ∈ available_assets self)) as [Hin|Hout].
  - rewrite (bool_decide_eq_true_2 _ Hin). cbn [negb].
    apply elem_of_cons in Hx as [->|Hx].
    + cbn [String.eqb Ascii.eqb Bool.eqb streams].
      destruct (decide ("stocks" = k)) as [<-|Hk].
      * rewrite bool_decide_eq_true_2 by done. by rewrite lookup_insert_eq.
      * rewrite bool_decide_eq_false_2 by (by intros [? _]).
        by rewrite lookup_insert_ne.
    + apply list_elem_of_singleton in Hx as ->.
      cbn [String.eqb Ascii.eqb Bool.eqb streams].
      destruct (decide ("crypto" = k)) as [<-|Hk].
      * rewrite bool_decide_eq_true_2 by done. by rewrite lookup_insert_eq.
      * rewrite bool_decide_eq_false_2 by (by intros [? _]).
        by rewrite lookup_insert_ne.
  - rewrite (bool_decide_eq_false_2 _ Hout). cbn [negb].
    by rewrite bool_decide_eq_false_2 by (by intros [_ ?]).
Qed.

Lemma start_all_streams_lookup (self : StreamManager) (order : list string) (k : string) :
  streams (start_all_streams self order) !! k
    = if bool_decide (k ∈ order ∧ k ∈ ["stocks"; "crypto"] ∧ k ∈ available_assets self)
      then Some (if String.eqb k "stocks" then StockStream None else CryptoStream None)
      else streams self !! k.
Proof.
  unfold start_all_streams. revert self.
  induction order as [|x order IH]; intros self; cbn [foldl].
  - rewrite bool_decide_eq_false_2; [done|]. intros [H _]. by apply elem_of_nil in H.
  - rewrite IH.
    destruct (decide (x ∈ ["stocks"; "crypto"])) as [Hx|Hx].
    + rewrite (bool_decide_eq_true_2 _ Hx), add_stream_available.
      rewrite (add_stream_lookup self x k Hx).
      destruct (decide (k ∈ order ∧ k ∈ ["stocks"; "crypto"] ∧ k ∈ available_assets self))
        as [(Ho & Hk & Ha)|Hno].
      * rewrite !bool_decide_eq_true_2; [done| |done].
        split; [by apply list_elem_of_further|done].
      * rewrite (bool_decide_eq_false_2 _ Hno).
        destruct (decide (x = k ∧ x ∈ available_assets self)) as [[-> Ha]|Hxk].
        -- rewrite !bool_decide_eq_true_2; [done| |done].
           split; [apply list_elem_of_here|done].
        -- rewrite (bool_decide_eq_false_2 _ Hxk).
           rewrite bool_decide_eq_false_2; [done|].
           intros (Ho & Hk & Ha). apply elem_of_cons in Ho as [->|Ho]; [by apply Hxk|].
           by apply Hno.
    + rewrite (bool_decide_eq_false_2 _ Hx).
      destruct (decide (k ∈ order ∧ k ∈ ["stocks"; "crypto"] ∧ k ∈ available_assets self))
        as [(Ho & Hk & Ha)|Hno].
      * rewrite !bool_decide_eq_true_2; [done| |done].
        split; [by apply list_elem_of_further|done].
      * rewrite (bool_decide_eq_false_2 _ Hno).
        rewrite bool_decide_eq_false_2; [done|].
        intros (Ho & Hk & Ha). apply elem_of_cons in Ho as [->|Ho]; [done|].
        by apply Hno.
Qed.

(** X11.  [start_all] sets up a stock stream and a crypto stream, each
    with its default symbols, for exactly those of the two that are
    listed available, and no other stream; the outcome does not depend
    on the order in which the set of available assets is iterated. *)
Theorem start_all_streams_by_availability (env : environ) (config : WebSocketConfig)
    (order : list string) :
  (∀ x, x ∈ order ↔ x ∈ available_assets (Manager.init env config)) →
  ∀ k,
    streams (start_all_streams (Manager.init env config) order) !! k
      = if bool_decide (k ∈ ["stocks"; "crypto"]
                        ∧ k ∈ available_assets (Manager.init env config))
        then Some (if String.eqb k "stocks" then StockStream None else CryptoStream None)
        else None.
Proof.
  intros Horder k. rewrite start_all_streams_lookup.
  cbn [Manager.init streams]. rewrite lookup_empty.
  destruct (decide (k ∈ ["stocks"; "crypto"]
                    ∧ k ∈ available_assets (Manager.init env config))) as [[Hk Ha]|Hno].
  - rewrite !bool_decide_eq_true_2; [done|done|].
    split; [by apply Horder|done].
  - rewrite (bool_decide_eq_false_2 _ Hno).
    rewrite bool_decide_eq_false_2; [done|]. intros (_ & Hk & Ha). by apply Hno.
Qed.

Lemma start_all_streams_by_availability_witness :
  streams (start_all_streams (Manager.init env_mixed config_mixed) ["forex"; "crypto"])
    !! "crypto" = Some (CryptoStream None).
Proof.
  rewrite (start_all_streams_by_availability env_mixed config_mixed ["forex"; "crypto"]).
  - reflexivity.
  - intros x. cbn [Manager.init available_assets].
    rewrite check_available_assets_spec. split.
    + intros [->|[->|H]%elem_of_cons]%elem_of_cons.
      * exists FOREX. split; [done|]. right. by eexists.
      * exists CRYPTO. split; [done|]. by left.
      * by apply elem_of_nil in H.
    + intros (a & -> & Hacc). destruct a;
        try (destruct Hacc as [H|[u H]]; discriminate H);
        [apply list_elem_of_further, list_elem_of_here | apply list_elem_of_here].
Defined.

End ManagerExtras.

(** ** The orchestrator *)

Section OrchestratorExtras.
Import Orchestrator Examples.

(** X12.  With the schedule of the stock stream, the comparison of
    ['%H:%M'] strings opens the market from 09:30 to 16:00, both minutes
    included, on every day of the week. *)
Theorem stocks_market_window (config : stream_config) (h m : nat) :
  Config.dict_get STREAM_CONFIGS "stocks" = Some config →
  (h < 24)%nat → (m < 60)%nat →
  is_market_open (schedule config) {| hour := h; minute := m |}
    = (570 <=? 60 * h + m)%nat && (60 * h + m <=? 960)%nat.
Proof.
  intros [= <-] Hh Hm. cbn [schedule].
  assert (forallb (λ h, forallb (λ m,
            Bool.eqb (is_market_open (Some ("09:30", "16:00")) {| hour := h; minute := m |})
                     ((570 <=? 60 * h + m)%nat && (60 * h + m <=? 960)%nat))
            (seq 0 60)) (seq 0 24) = true) as Hall by (vm_compute; reflexivity).
  assert (In h (seq 0 24)) as Hin_h by (apply in_seq; lia).
  assert (In m (seq 0 60)) as Hin_m by (apply in_seq; lia).
  rewrite forallb_forall in Hall. specialize (Hall h Hin_h).
  rewrite forallb_forall in Hall. specialize (Hall m Hin_m).
  by apply Bool.eqb_prop in Hall.
Qed.

Lemma stocks_market_window_witness :
  is_market_open (Some ("09:30", "16:00")) {| hour := 16; minute := 0 |} = true
  ∧ is_market_open (Some ("09:30", "16:00")) {| hour := 16; minute := 1 |} = false.
Proof.
  split.
  - exact (stocks_market_window _ 16 0 eq_refl ltac:(lia) ltac:(lia)).
  - exact (stocks_market_window _ 16 1 eq_refl ltac:(lia) ltac:(lia)).
Defined.

Lemma init_assets_known (assets : option (list string)) :
  Forall (λ a, Config.dict_mem STREAM_CONFIGS a = true) (init_assets assets).
Proof.
  unfold init_assets. destruct assets as [[|x l]|].
  - by repeat constructor.
  - apply Forall_forall. intros a Ha. apply list_elem_of_In in Ha.
    by apply filter_In in Ha as [_ Ha].
  - by repeat constructor.
Qed.

Context {Proc : Type}.
Variable popen : string → option Proc.
Variable poll : Proc → option Z.
Variable clock : nat → time_of_day.

(** One iteration of the monitoring loop either leaves the table of
    processes alone or, for an asset whose process is absent or has
    exited, puts a new process under that asset. *)
Lemma monitor_pass_step (processes : gmap string Proc) (reads : nat)
    (asset : string) (rest : list string) :
  Config.dict_mem STREAM_CONFIGS asset = true →
  ∃ processes1 reads1,
    monitor_pass Proc popen poll clock processes reads (asset :: rest)
      = monitor_pass Proc popen poll clock processes1 reads1 rest
    ∧ (processes1 = processes
       ∨ ∃ config q n,
           Config.dict_get STREAM_CONFIGS asset = Some config
           ∧ (∀ p, processes !! asset = Some p → ∃ code, poll p = Some code)
           ∧ popen (script config) = Some q
           ∧ processes1 = <[asset := q]> processes
           ∧ (market_hours config = true → schedule config ≠ None →
              is_market_open (schedule config) (clock n) = true)).
Proof.
  unfold Config.dict_mem. intros Hknown.
  destruct (Config.dict_get STREAM_CONFIGS asset) as [config|] eqn:Hcfg; [|done].
  cbn [monitor_pass]. rewrite Hcfg.
  assert ((∀ p, processes !! asset = Some p → ∃ code, poll p = Some code)
          ∨ ∃ p, processes !! asset = Some p ∧ poll p = None) as [Hdead|(p & Hp & Hrun)].
  { destruct (processes !! asset) as [p|]; [|by left].
    destruct (poll p) as [code|] eqn:Hpoll.
    - left. intros ? [= <-]. eauto.
    - right. eauto. }
  2: { rewrite Hp, Hrun. eauto. }
  assert (match processes !! asset with
          | Some p => match poll p with Some _ => true | None => false end
          | None => true
          end = true) as ->.
  { destruct (processes !! asset) as [p|]; [|done].
    by destruct (Hdead p eq_refl) as [code ->]. }
  unfold start_stream. rewrite Hcfg. unfold market_closed.
  destruct (market_hours config) eqn:Hmh.
  - destruct (schedule config) as [sched|] eqn:Hsched.
    + destruct (is_market_open (Some sched) (clock reads)) eqn:Hopen1; cbn [negb];
        [|by eauto].
      destruct (is_market_open (Some sched) (clock (S reads))) eqn:Hopen2; cbn [negb];
        [|by eauto].
      destruct (popen (script config)) as [q|] eqn:Hq; [|by eauto].
      do 2 eexists. split; [reflexivity|]. right. exists config, q, reads.
      by rewrite Hsched.
    + destruct (popen (script config)) as [q|] eqn:Hq; [|by eauto].
      do 2 eexists. split; [reflexivity|]. right. exists config, q, reads.
      by rewrite Hsched.
  - destruct (popen (script config)) as [q|] eqn:Hq; [|by eauto].
    do 2 eexists. split; [reflexivity|]. right. exists config, q, reads.
    repeat split; try done. intros Hmh'. congruence.
Qed.

Lemma monitor_pass_invariant (I : gmap string Proc → Prop) (assets : list string) :
  Forall (λ a, Config.dict_mem STREAM_CONFIGS a = true) assets →
  (∀ processes asset config q n,
     I processes →
     Config.dict_get STREAM_CONFIGS asset = Some config →
     (∀ p, processes !! asset = Some p → ∃ code, poll p = Some code) →
     popen (script config) = Some q →
     (market_hours config = true → schedule config ≠ None →
      is_market_open (schedule config) (clock n) = true) →
     I (<[asset := q]> processes)) →
  ∀ processes reads,
    I processes →
    ∃ processes' reads',
      monitor_pass Proc popen poll clock processes reads assets = Ok (processes', reads')
      ∧ I processes'.
Proof.
  intros Hknown Hstep. induction Hknown as [|asset rest Ha _ IH]; intros processes reads HI.
  - cbn [monitor_pass]. eauto.
  - destruct (monitor_pass_step processes reads asset rest Ha)
      as (processes1 & reads1 & -> & [->|(config & q & n & Hcfg & Hdead & Hq & -> & Hopen)]).
    + by apply IH.
    + apply IH. by eapply Hstep.
Qed.

(** X13.  A monitoring pass of the orchestrator never fails on the assets
    it was set up with, whatever was asked for, and it leaves every
    process that is still running in place. *)
Theorem monitor_pass_keeps_running (assets : option (list string))
    (processes : gmap string Proc) (reads : nat) :
  ∃ processes' reads',
    monitor_pass Proc popen poll clock processes reads (init_assets assets)
      = Ok (processes', reads')
    ∧ ∀ asset p, processes !! asset = Some p → poll p = None →
                 processes' !! asset = Some p.
Proof.
  apply (monitor_pass_invariant
           (λ procs, ∀ asset p, processes !! asset = Some p → poll p = None →
                                procs !! asset = Some p)).
  - apply init_assets_known.
  - intros procs asset config q n HI _ Hdead _ _ asset' p Hp Hrun.
    destruct (decide (asset = asset')) as [<-|Hne].
    + destruct (Hdead p (HI _ _ Hp Hrun)) as [code Hcode]. congruence.
    + rewrite lookup_insert_ne by done. by apply HI.
  - done.
Qed.

(** X14.  While the clock reads a time outside the stock schedule, a
    monitoring pass starts no stock process: the entry for stocks is
    what it was. *)
Theorem stocks_not_started_while_closed (assets : option (list string))
    (processes : gmap string Proc) (reads : nat) :
  (∀ n, is_market_open (Some ("09:30", "16:00")) (clock n) = false) →
  ∃ processes' reads',
    monitor_pass Proc popen poll clock processes reads (init_assets assets)
      = Ok (processes', reads')
    ∧ processes' !! "stocks" = processes !! "stocks".
Proof.
  intros Hclosed.
  apply (monitor_pass_invariant (λ procs, procs !! "stocks" = processes !! "stocks")).
  - apply init_assets_known.
  - intros procs asset config q n HI Hcfg _ _ Hopen.
    destruct (decide (asset = "stocks")) as [->|Hne].
    + injection Hcfg as <-. cbn [market_hours schedule] in Hopen.
      rewrite Hclosed in Hopen. by specialize (Hopen eq_refl ltac:(done)).
    + by rewrite lookup_insert_ne.
  - done.
Qed.



End OrchestratorExtras.

Section OrchestratorSamples.
Import Orchestrator Examples.

Lemma monitor_pass_keeps_running_witness :
  ∃ processes' reads',
    monitor_pass nat sample_popen sample_poll clock_evening
        {[ "crypto" := 0%nat ]} 0 (init_assets (Some ["crypto"; "bonds"]))
      = Ok (processes', reads')
    ∧ processes' !! "crypto" = Some 0%nat.
Proof.
  destruct (monitor_pass_keeps_running sample_popen sample_poll clock_evening
              (Some ["crypto"; "bonds"]) {[ "crypto" := 0%nat ]} 0)
    as (processes' & reads' & Hpass & Hkeep).
  exists processes', reads'. split; [exact Hpass|].
  apply Hkeep; reflexivity.
Defined.

Lemma stocks_not_started_while_closed_witness :
  (∀ n, is_market_open (Some ("09:30", "16:00")) (clock_evening n) = false)
  ∧ ∃ processes' reads',
      monitor_pass nat sample_popen sample_poll clock_evening ∅ 0 (init_assets None)
        = Ok (processes', reads')
      ∧ processes' !! "stocks" = (∅ : gmap string nat) !! "stocks".
Proof.
  split; [reflexivity|].
  apply (stocks_not_started_while_closed sample_popen sample_poll clock_evening None ∅ 0).
  reflexivity.
Defined.


End OrchestratorSamples.

(** ** The stock client *)

Section StockClientExtras.
Import Config Dispatch StockClient Notions Examples.
Context {World : Type}.
Variable fromtimestamp : Q → result datetime.
Variable clock : nat → datetime.



Lemma py_eq_str_true (x : pyval) (s : string) : py_eq_str x s = true → x = PyStr s.
Proof. destruct x; try done. cbn. by intros ->%String.eqb_eq. Qed.

Lemma dispatch_effect (self : client World) (pd : gmap string pyval) (w : World) :
  ∃ self1 w1 calls,
    dispatch self pd w = (self1, w1, calls, Ok tt)
    ∧ data_buffer (core self1) = data_buffer (core self) ++ [pd]
    ∧ data_handlers (core self1) = data_handlers (core self)
    ∧ length calls = length (data_handlers (core self))
    ∧ connection self1 = connection self.
Proof.
  unfold dispatch, _dispatch_data. cbn [data_handlers data_buffer].
  pose proof (call_all_length 0 (data_handlers (core self)) pd w) as Hlen.
  destruct (call_all 0 (data_handlers (core self)) pd w) as [w1 calls].
  do 3 eexists. split; [reflexivity|]. by repeat split.
Qed.

Ltac quiet_step :=
  lazy beta iota zeta; intros [= <- <- <- <-]; left; repeat split;
  first [ by eauto
        | let H := fresh in intros H; vm_compute in H; discriminate H ].

Ltac dispatch_step :=
  match goal with
  | |- context [dispatch ?s ?pd ?w] =>
      let Hb := fresh "Hb" in
      destruct (dispatch_effect s pd w) as (? & ? & ? & -> & Hb & ? & ? & ?);
      intros [= <- <- <- <-]; right; repeat split; eauto
  end.

(** What handling one element can do: nothing to the buffer, the
    handlers or the world; or one record appended and offered to every
    handler. *)
Lemma process_message_effect (self self1 : client World) (x : element) (w w1 : World)
    (calls : list (call (gmap string pyval))) (r : result unit) :
  _process_message fromtimestamp clock self x w = (self1, w1, calls, r) →
  (w1 = w ∧ calls = [] ∧ core self1 = core self
   ∧ (is_data x = true → ∃ e, r = Raise e)
   ∧ (is_status x = false → connection self1 = connection self))
  ∨ (is_data x = true ∧ r = Ok tt
     ∧ (∃ pd, data_buffer (core self1) = data_buffer (core self) ++ [pd])
     ∧ data_handlers (core self1) = data_handlers (core self)
     ∧ length calls = length (data_handlers (core self))
     ∧ connection self1 = connection self).
Proof.
  destruct x as [d|]; [|cbn; quiet_step].
  unfold _process_message, is_data, is_status.
  set (ev := get d "ev" (PyStr "unknown")). clearbody ev. lazy zeta.
  destruct (py_eq_str ev "status") eqn:Hstatus.
  { apply py_eq_str_true in Hstatus as ->.
    unfold _handle_status_message, disconnect, ws_send, set_flags. lazy zeta.
    cbn [ws core sent is_connected is_authenticated].
    destruct (py_eq_str (get d "status" (PyStr "")) "connected").
    - destruct (ws self); quiet_step.
    - destruct (py_eq_str (get d "status" (PyStr "")) "auth_success"); [quiet_step|].
      destruct (py_eq_str (get d "status" (PyStr "")) "auth_failed"); [|quiet_step].
      destruct (ws self); quiet_step. }
  destruct (py_eq_str ev "A") eqn:HA.
  { cbn [orb]. unfold _handle_aggregate_message. lazy zeta.
    destruct (py_gt (get d "t" (PyNum 0)) 0) as [positive|e]; [|quiet_step].
    destruct positive.
    - destruct (q ← py_truediv (get d "t" (PyNum 0)) 1000; fromtimestamp q) as [ts|e];
        [dispatch_step|quiet_step].
    - dispatch_step. }
  destruct (py_eq_str ev "T") eqn:HT.
  { cbn [orb]. unfold _handle_trade_message.
    destruct (q ← py_truediv (get d "t" (PyNum 0)) 1000000; fromtimestamp q) as [ts|e];
      [dispatch_step|quiet_step]. }
  destruct (py_eq_str ev "Q") eqn:HQ.
  { cbn [orb]. unfold _handle_quote_message.
    destruct (q ← py_truediv (get d "t" (PyNum 0)) 1000000; fromtimestamp q) as [ts|e];
      [dispatch_step|quiet_step]. }
  quiet_step.
Qed.

Lemma process_items_effect (items : list element) :
  ∀ (self self' : client World) (w w' : World) calls r,
    process_items fromtimestamp clock self items w = (self', w', calls, r) →
    ∃ processed,
      data_buffer (core self') = data_buffer (core self) ++ processed
      ∧ data_handlers (core self') = data_handlers (core self)
      ∧ length calls = (length processed * length (data_handlers (core self)))%nat
      ∧ (length processed ≤ length (List.filter is_data items))%nat
      ∧ (r = Ok tt → length processed = length (List.filter is_data items))
      ∧ (Forall (λ x, is_status x = false) items → connection self' = connection self).
Proof.
  induction items as [|x rest IH]; intros self self' w w' calls r.
  - cbn [process_items]. intros [= <- <- <- <-]. exists [].
    rewrite app_nil_r. by repeat split.
  - cbn [process_items].
    destruct (_process_message fromtimestamp clock self x w) as [[[self1 w1] calls1] r1]
      eqn:Hstep.
    apply process_message_effect in Hstep.
    destruct r1 as [u|e].
    + destruct (process_items fromtimestamp clock self1 rest w1)
        as [[[self2 w2] calls2] r2] eqn:Hrest.
      intros [= <- <- <- <-].
      destruct (IH _ _ _ _ _ _ Hrest) as (processed & Hbuf & Hh & Hlen & Hle & Heq & Hconn).
      destruct Hstep as [(-> & -> & Hcore & Hdata & Hc)
                        |(Hdata & _ & [pd Hpd] & Hh1 & Hlen1 & Hc)].
      * assert (is_data x = false) as Hx.
        { destruct (is_data x); [|done]. by destruct (Hdata eq_refl). }
        exists processed. cbn [List.filter]. rewrite Hx, <- Hcore.
        repeat split; try done.
        intros Hall. inversion Hall as [|? ? Hs Hrest']; subst.
        by rewrite (Hconn Hrest'), (Hc Hs).
      * exists (pd :: processed). cbn [List.filter]. rewrite Hdata.
        rewrite Hbuf, Hpd, <- app_assoc, Hh, Hh1, length_app, Hlen, Hlen1, Hh1.
        cbn [length app]. repeat split; try lia.
        -- intros Hr. by rewrite (Heq Hr).
        -- intros Hall. inversion Hall as [|? ? Hs Hrest']; subst.
           by rewrite (Hconn Hrest').
    + intros [= <- <- <- <-].
      destruct Hstep as [(-> & -> & Hcore & Hdata & Hc)|(_ & [=] & _)].
      exists []. rewrite app_nil_r, Hcore. cbn [length]. repeat split; try done; try lia.
      intros Hall. inversion Hall as [|? ? Hs Hrest']; subst. by apply Hc.
Qed.

Lemma on_message_items (self self' : client World) (frame : payload) (w w' : World)
    calls errs :
  on_message fromtimestamp clock self frame w = (self', w', calls, errs) →
  frame = Undecodable ∧ self' = self ∧ w' = w ∧ calls = [] ∧ (∃ e, errs = [e])
  ∨ ∃ r, process_items fromtimestamp clock self (elements frame) w = (self', w', calls, r)
         ∧ errs = match r with Ok _ => [] | Raise e => [e] end.
Proof.
  destruct frame as [|items|x]; cbn [on_message elements].
  - intros [= <- <- <- <-]. left. repeat split. eauto.
  - destruct (process_items fromtimestamp clock self items w) as [[[s1 w1] c1] [u|e]];
      intros [= <- <- <- <-]; right; eauto.
  - cbn [process_items].
    destruct (_process_message fromtimestamp clock self x w) as [[[s1 w1] c1] [[]|e]];
      intros [= <- <- <- <-]; right.
    + exists (Ok tt). by rewrite app_nil_r.
    + by exists (Raise e).
Qed.


(** X18.  Only status elements touch the connection: a frame without
    them leaves what was sent over the socket, the connection flags and
    the subscribed symbols as they were. *)
Theorem data_frames_keep_connection (self self' : client World) (frame : payload)
    (w w' : World) calls errs :
  on_message fromtimestamp clock self frame w = (self', w', calls, errs) →
  Forall (λ x, is_status x = false) (elements frame) →
  connection self' = connection self.
Proof.
  intros [(-> & -> & -> & -> & e & ->)|(r & Hitems & ->)]%on_message_items Hall; [done|].
  destruct (process_items_effect _ _ _ _ _ _ _ Hitems) as (_ & _ & _ & _ & _ & _ & Hconn).
  by apply Hconn.
Qed.

Lemma process_items_app (l1 l2 : list element) :
  ∀ (self self1 : client World) (w w1 : World) calls1 u,
    process_items fromtimestamp clock self l1 w = (self1, w1, calls1, Ok u) →
    process_items fromtimestamp clock self (l1 ++ l2) w
      = let '(self2, w2, calls2, r) := process_items fromtimestamp clock self1 l2 w1 in
        (self2, w2, calls1 ++ calls2, r).
Proof.
  induction l1 as [|x l1 IH]; intros self self1 w w1 calls1 u.
  - cbn [process_items app]. intros [= <- <- <-].
    by destruct (process_items fromtimestamp clock self l2 w) as [[[? ?] ?] ?].
  - cbn [process_items app].
    destruct (_process_message fromtimestamp clock self x w) as [[[s0 w0] c0] [u0|e0]];
      [|done].
    destruct (process_items fromtimestamp clock s0 l1 w0) as [[[s2 w2] c2] r2] eqn:Hrest.
    intros [= -> -> <- ->].
    rewrite (IH _ _ _ _ _ _ Hrest).
    destruct (process_items fromtimestamp clock self1 l2 w1) as [[[s3 w3] c3] r3].
    by rewrite app_assoc.
Qed.

(** X19.  The elements of a frame are handled inside one [try]: when an
    element raises, the elements after it in the same frame are dropped
    without any effect, whatever they are. *)
Theorem failing_element_ends_frame (self self1 self2 : client World)
    (l1 l2 : list element) (x : element) (w w1 w2 : World) calls1 calls2 (e : exn) :
  on_message fromtimestamp clock self (JArray l1) w = (self1, w1, calls1, []) →
  _process_message fromtimestamp clock self1 x w1 = (self2, w2, calls2, Raise e) →
  on_message fromtimestamp clock self (JArray (l1 ++ x :: l2)) w
    = (self2, w2, calls1 ++ calls2, [e]).
Proof.
  cbn [on_message]. intros H1 Hx.
  destruct (process_items fromtimestamp clock self l1 w) as [[[s1 w1'] c1] [u|e1]] eqn:Hl1;
    [|done].
  injection H1 as -> -> ->.
  rewrite (process_items_app _ _ _ _ _ _ _ _ Hl1). cbn [process_items]. by rewrite Hx.
Qed.

Lemma concat_head (c : ascii) (code sym : string) (rest : list string) :
  ∃ tail,
    String.concat "," (map (λ sym, String c code +:+ "." +:+ sym) (sym :: rest))
      = String c tail.
Proof.
  cbn [map String.concat].
  destruct (map (λ sym, String c code +:+ "." +:+ sym) rest); cbn; eauto.
Qed.

Lemma build_channels_single (code : string) (symbols : list string) :
  build_channels [code] symbols = map (λ sym, code +:+ "." +:+ sym) symbols.
Proof.
  rewrite build_channels_cons. unfold build_channels. cbn [mbind list_bind].
  by rewrite app_nil_r.
Qed.

(** X20.  [unsubscribe] without data types always names the 'A'
    channels, while [subscribe] without data types names the default
    channels of the client's asset class.  After a default subscribe and
    a default unsubscribe of the same symbols the symbols are forgotten,
    but the two requests name the same channels only for stocks, options
    and futures; for crypto, forex and indices the unsubscribe names
    channels that were never subscribed. *)
Theorem unsubscribe_default_channels (self : client World) (symbols : list string) :
  has_websocket_access (config self) (asset_type self) = true →
  ws self = true →
  ∃ sub unsub self1 self2,
    subscribe self symbols None = (self1, Ok tt)
    ∧ unsubscribe self1 symbols None = (self2, Ok tt)
    ∧ sent self2 = sent self ++ [Subscribe sub; Unsubscribe unsub]
    ∧ subscribed_symbols self2 = subscribed_symbols self ∖ list_to_set symbols
    ∧ (asset_type self ∈ [STOCKS; OPTIONS; FUTURES] → unsub = sub)
    ∧ (asset_type self ∉ [STOCKS; OPTIONS; FUTURES] → symbols ≠ [] → unsub ≠ sub).
Proof.
  intros Hacc Hws.
  destruct (default_channels (config self) (asset_type self) symbols Hacc)
    as (code & Hdef & Hch).
  exists (String.concat "," (map (λ sym, code +:+ "." +:+ sym) symbols)),
         (String.concat "," (build_channels ["A"] symbols)).
  do 2 eexists.
  split; [unfold subscribe; rewrite Hch; unfold ws_send; rewrite Hws; reflexivity|].
  split; [unfold unsubscribe, ws_send; cbn [ws set_subscribed]; reflexivity|].
  cbn [sent subscribed_symbols set_subscribed].
  split; [by rewrite <- app_assoc|].
  split; [apply set_eq; intros x; rewrite !elem_of_difference, elem_of_union; tauto|].
  rewrite build_channels_single. split.
  - intros Ha. destruct (asset_type self); injection Hdef as <-; try done;
      exfalso; repeat (apply elem_of_cons in Ha as [Ha|Ha]; [discriminate Ha|]);
      by apply elem_of_nil in Ha.
  - intros Ha Hsym. destruct symbols as [|sym rest]; [done|].
    destruct (asset_type self); injection Hdef as <-;
      try (exfalso; apply Ha; repeat constructor; fail);
      destruct (concat_head "A" "" sym rest) as [t1 ->].
    + destruct (concat_head "X" "A" sym rest) as [t2 ->]. done.
    + destruct (concat_head "C" "" sym rest) as [t2 ->]. done.
    + destruct (concat_head "V" "" sym rest) as [t2 ->]. done.
Qed.

End StockClientExtras.

Section StockClientSamples.
Import Config Dispatch StockClient Notions Examples.



Lemma data_frames_keep_connection_witness :
  let r := on_message sample_fromtimestamp sample_clock (stock_client STOCKS)
             (JArray [aggregate_element (PyNum 1000); aggregate_element PyNone]) 0%nat in
  connection r.1.1.1 = connection (stock_client STOCKS).
Proof.
  intros r.
  apply (data_frames_keep_connection sample_fromtimestamp sample_clock
           (stock_client STOCKS) r.1.1.1
           (JArray [aggregate_element (PyNum 1000); aggregate_element PyNone])
           0%nat r.1.1.2 r.1.2 r.2).
  - subst r. by destruct (on_message _ _ _ _ _) as [[[? ?] ?] ?].
  - by repeat constructor.
Defined.

Lemma failing_element_ends_frame_witness :
  ∃ self2 calls msg,
    on_message sample_fromtimestamp sample_clock (stock_client STOCKS)
      (JArray ([aggregate_element (PyNum 1000)]
               ++ aggregate_element (PyStr "soon") :: [aggregate_element (PyNum 2000)]))
      0%nat
    = (self2, 1%nat, calls, [TypeError msg]).
Proof.
  set (r1 := on_message sample_fromtimestamp sample_clock (stock_client STOCKS)
               (JArray [aggregate_element (PyNum 1000)]) 0%nat).
  set (r2 := _process_message sample_fromtimestamp sample_clock r1.1.1.1
               (aggregate_element (PyStr "soon")) r1.1.1.2).
  exists r2.1.1.1, (r1.1.2 ++ r2.1.2), "'>' not supported between these instances".
  rewrite (failing_element_ends_frame sample_fromtimestamp sample_clock
             (stock_client STOCKS) r1.1.1.1 r2.1.1.1
             [aggregate_element (PyNum 1000)] [aggregate_element (PyNum 2000)]
             (aggregate_element (PyStr "soon")) 0%nat r1.1.1.2 r2.1.1.2 r1.1.2 r2.1.2
             (TypeError "'>' not supported between these instances"));
    vm_compute; reflexivity.
Defined.

Lemma unsubscribe_default_channels_witness :
  has_websocket_access (config (stock_client CRYPTO)) CRYPTO = true
  ∧ ∃ sub unsub self1 self2,
      subscribe (stock_client CRYPTO) ["X:BTCUSD"] None = (self1, Ok tt)
      ∧ unsubscribe self1 ["X:BTCUSD"] None = (self2, Ok tt)
      ∧ sent self2 = [Subscribe sub; Unsubscribe unsub]
      ∧ unsub ≠ sub.
Proof.
  split; [reflexivity|].
  destruct (unsubscribe_default_channels (stock_client CRYPTO) ["X:BTCUSD"]
              eq_refl eq_refl)
    as (sub & unsub & self1 & self2 & Hsub & Hunsub & Hsent & _ & _ & Hne).
  exists sub, unsub, self1, self2. repeat split; try done.
  apply Hne; [|done].
  intros Ha. repeat (apply elem_of_cons in Ha as [Ha|Ha]; [discriminate Ha|]).
  by apply elem_of_nil in Ha.
Defined.

End StockClientSamples.

(** ** The crypto client *)

Section CryptoClientExtras.
Import Config Dispatch Persistence CryptoClient Notions.
Context {U : Type}.
Variable isoformat : string → datetime → string.
Variable fromisoformat : string → option datetime.
Variable fromtimestamp : Q → result datetime.
Variable clock : nat → datetime.

(** X21.  The crypto client subscribes when, and only by the fact that,
    the server reports [auth_success]: it marks itself authenticated and,
    if the crypto tier has streaming access and the socket exists, sends
    one subscribe request naming the 'XA' channel of each of its
    symbols; otherwise it sends nothing and logs the failure.  The
    handlers and the database are not involved. *)
Theorem auth_success_subscribes (self self' : client U) (message : pyval)
    (w w' : world U) calls errs :
  on_message isoformat fromisoformat fromtimestamp clock self
    (JArray [Status (PyStr "auth_success") message]) w = (self', w', calls, errs) →
  is_authenticated self' = true ∧ w' = w ∧ calls = []
  ∧ if has_websocket_access (config self) CRYPTO && ws self
    then errs = []
         ∧ sent self'
           = sent self
             ++ [Subscribe (String.concat "," (map (λ sym, "XA." +:+ sym) (symbols self)))]
    else sent self' = sent self ∧ ∃ e, errs = [e].
Proof.
  cbn [on_message process_items]. unfold handle_status_message.
  change (py_eq_str (PyStr "auth_success") "auth_success") with true. lazy iota.
  unfold subscribe_to_data, set_flags. cbn [is_authenticated negb config symbols ws].
  destruct (has_websocket_access (config self) CRYPTO) eqn:Hacc.
  - destruct (default_channels (config self) CRYPTO (symbols self) Hacc)
      as (code & [= <-] & ->).
    destruct (ws self); intros [= <- <- <- <-]; cbn [andb]; repeat split; eauto.
  - unfold get_subscription_channels. rewrite Hacc. cbn [negb andb].
    intros [= <- <- <- <-]. repeat split; eauto.
Qed.




(** X23.  The crypto client can be constructed exactly when the API key
    is set and crypto streaming is reachable, by tier or by URL
    override; it then starts unconnected, with nothing sent and no
    handlers, on the six default pairs unless symbols were given. *)
Theorem crypto_client_constructed (env : environ) (symbols : option (list string)) :
  match CryptoClient.init (U := U) env symbols with
  | Ok c =>
      (∃ k, env "POLYGON_API_KEY" = Some k ∧ truthy k = true ∧ api_key c = k)
      ∧ (load_tier env CRYPTO ≠ BASIC ∨ ∃ u, url_override env CRYPTO = Some u)
      ∧ Ok (ws_url c) = get_websocket_url env (config c) CRYPTO
      ∧ CryptoClient.symbols c
        = default ["BTC-USD"; "ETH-USD"; "ADA-USD"; "SOL-USD"; "DOT-USD"; "DOGE-USD"] symbols
      ∧ (is_connected c, is_authenticated c, sent c, crypto_data_handlers (handlers c))
        = (false, false, [], [])
  | Raise _ =>
      env "POLYGON_API_KEY" = None ∨ env "POLYGON_API_KEY" = Some ""
      ∨ (load_tier env CRYPTO = BASIC ∧ url_override env CRYPTO = None)
  end.
Proof.
  unfold CryptoClient.init.
  destruct (Config.init env) as [cfg|e] eqn:Hinit; cbn [mbind result_bind].
  - pose proof (init_get_subscription_tier env cfg CRYPTO Hinit) as Htier.
    destruct (get_websocket_url env cfg CRYPTO) as [url|e] eqn:Hurl;
      cbn [mbind result_bind].
    + cbn [api_key config ws_url CryptoClient.symbols is_connected is_authenticated sent
           handlers crypto_data_handlers].
      split.
      { revert Hinit. unfold Config.init.
        destruct (env "POLYGON_API_KEY") as [k|]; [|done].
        destruct (truthy k) eqn:Hk; [|done]. intros [= <-]. eauto. }
      split.
      { assert (∃ url, get_websocket_url env cfg CRYPTO = Ok url) as Hex by eauto.
        apply get_websocket_url_returns in Hex as [Hacc|Hov]; [left|by right].
        rewrite access_of_tier, Htier in Hacc.
        intros Hb. rewrite Hb in Hacc. discriminate Hacc. }
      split; [by rewrite Hurl|]. split; [by destruct symbols|done].
    + right. right. rewrite <- Htier.
      destruct (get_subscription_tier cfg CRYPTO) eqn:Ht;
        destruct (url_override env CRYPTO) eqn:Hov; try done;
        unfold get_websocket_url in Hurl; rewrite Hov, ?Ht in Hurl; discriminate Hurl.
  - revert Hinit. unfold Config.init.
    destruct (env "POLYGON_API_KEY") as [k|]; [|by left].
    destruct k; [by right; left|done].
Qed.

End CryptoClientExtras.

Section CryptoClientSamples.
Import Config Dispatch Persistence CryptoClient Notions Examples.

Lemma auth_success_subscribes_witness :
  let r := on_message Samples.sample_isoformat Samples.sample_fromisoformat
             sample_fromtimestamp sample_clock crypto_client
             (JArray [Status (PyStr "auth_success") (PyStr "authenticated")]) crypto_world in
  sent r.1.1.1 = [Auth "key"; Subscribe "XA.BTC-USD,XA.ETH-USD"].
Proof.
  intros r.
  assert (on_message Samples.sample_isoformat Samples.sample_fromisoformat
            sample_fromtimestamp sample_clock crypto_client
            (JArray [Status (PyStr "auth_success") (PyStr "authenticated")]) crypto_world
          = (r.1.1.1, r.1.1.2, r.1.2, r.2)) as Hr.
  { subst r. by destruct (on_message _ _ _ _ _ _ _) as [[[? ?] ?] ?]. }
  destruct (auth_success_subscribes _ _ _ _ _ _ _ _ _ _ _ Hr) as (_ & _ & _ & Hsent).
  exact (proj2 Hsent).
Defined.


End CryptoClientSamples.

(** ** The historical backfill *)

Section BackfillExtras.
Import Config Persistence Backfill Spec.

Lemma chunks_spec (chunk end_date : Z) (fuel : nat) :
  (0 ≤ chunk)%Z →
  ∀ current_start,
    (end_date - current_start ≤ Z.of_nat fuel)%Z →
    let cs := chunks fuel chunk current_start end_date in
    Forall (λ ab, (current_start ≤ ab.1 ∧ ab.1 ≤ ab.2 ∧ ab.2 ≤ end_date
                   ∧ ab.2 - ab.1 ≤ chunk)%Z) cs
    ∧ (∀ d, (current_start ≤ d < end_date)%Z → ∃ ab, ab ∈ cs ∧ (ab.1 ≤ d ≤ ab.2)%Z)
    ∧ (∀ i j ab ab', cs !! i = Some ab → cs !! j = Some ab' → (i < j)%nat →
                     (ab.2 < ab'.1)%Z).
Proof.
  intros Hchunk. induction fuel as [|fuel IH]; intros cur Hfuel; cbn [chunks].
  - split; [constructor|]. split; [intros d Hd; lia|]. intros i j ab ab' Hi. done.
  - destruct (Z.ltb_spec cur end_date) as [Hlt|Hge].
    2: { split; [constructor|]. split; [intros d Hd; lia|]. intros i j ab ab' Hi. done. }
    set (current_end := Z.min (cur + chunk) end_date).
    assert (cur ≤ current_end ∧ current_end ≤ end_date ∧ current_end - cur ≤ chunk)%Z
      as (Hlo & Hhi & Hw) by (unfold current_end; lia).
    destruct (IH (current_end + 1)%Z ltac:(lia)) as (Hall & Hcover & Hsorted).
    split; [|split].
    + constructor; [cbn [fst snd]; lia|].
      eapply Forall_impl; [exact Hall|]. intros ab. cbn beta. lia.
    + intros d Hd. destruct (Z.le_gt_cases d current_end) as [Hin|Hout].
      * exists (cur, current_end). split; [apply list_elem_of_here|]. cbn [fst snd]. lia.
      * destruct (Hcover d ltac:(lia)) as (ab & Hab & Hd').
        exists ab. split; [by apply list_elem_of_further|done].
    + intros i j ab ab' Hi Hj Hij. destruct j as [|j]; [lia|]. cbn in Hj.
      destruct i as [|i]; cbn in Hi.
      * injection Hi as <-. cbn [snd].
        apply list_elem_of_lookup_2 in Hj.
        rewrite Forall_forall in Hall. specialize (Hall ab' Hj). lia.
      * apply (Hsorted i j); [done|done|lia].
Qed.

Lemma chunks_fuel (chunk end_date : Z) (fuel : nat) :
  (0 ≤ chunk)%Z →
  ∀ fuel' current_start,
    (end_date - current_start ≤ Z.of_nat fuel)%Z → (fuel ≤ fuel')%nat →
    chunks fuel' chunk current_start end_date = chunks fuel chunk current_start end_date.
Proof.
  intros Hchunk. induction fuel as [|fuel IH]; intros fuel' cur Hfuel Hle.
  - destruct fuel' as [|fuel']; [done|]. cbn [chunks].
    by destruct (Z.ltb_spec cur end_date) as [Hlt|Hge]; [lia|].
  - destruct fuel' as [|fuel']; [lia|]. cbn [chunks].
    destruct (Z.ltb_spec cur end_date) as [Hlt|Hge]; [|done].
    f_equal. apply IH; lia.
Qed.

Lemma chunk_days_nonneg (timespan : string) : (0 ≤ chunk_days timespan)%Z.
Proof.
  unfold chunk_days. destruct (String.eqb timespan "minute"); [lia|].
  destruct (String.eqb timespan "hour"); lia.
Qed.

(** X24.  The loop of [backfill_symbol] ends within [days] iterations.
    The date ranges it requests lie between the start date and today,
    are at most the chunk length wide, follow one another without
    overlap, and together contain every day from the start date up to
    yesterday. *)
Theorem backfill_requests_partition (timespan : string) (days today : Z) :
  let cs := chunks (Z.to_nat days) (chunk_days timespan) (today - days) today in
  (∀ fuel, (Z.to_nat days ≤ fuel)%nat →
           chunks fuel (chunk_days timespan) (today - days) today = cs)
  ∧ (∀ ab, ab ∈ cs →
           (today - days ≤ ab.1 ∧ ab.1 ≤ ab.2 ∧ ab.2 ≤ today
            ∧ ab.2 - ab.1 ≤ chunk_days timespan)%Z)
  ∧ (∀ d, (today - days ≤ d < today)%Z → ∃ ab, ab ∈ cs ∧ (ab.1 ≤ d ≤ ab.2)%Z)
  ∧ (∀ i j ab ab', cs !! i = Some ab → cs !! j = Some ab' → (i < j)%nat →
                   (ab.2 < ab'.1)%Z).
Proof.
  destruct (chunks_spec (chunk_days timespan) today (Z.to_nat days)
              (chunk_days_nonneg timespan) (today - days)%Z ltac:(lia))
    as (Hall & Hcover & Hsorted).
  split.
  { intros fuel Hfuel. apply chunks_fuel; [apply chunk_days_nonneg|lia|done]. }
  split; [|by split]. intros ab Hab. rewrite Forall_forall in Hall. by apply Hall.
Qed.

Lemma backfill_requests_partition_witness :
  ∃ ab, ab ∈ chunks (Z.to_nat 65) (chunk_days "minute") (100 - 65) 100
        ∧ (ab.1 ≤ 70 ≤ ab.2)%Z.
Proof.
  apply (proj1 (proj2 (proj2 (backfill_requests_partition "minute" 65 100))) 70%Z). lia.
Defined.

Context (isoformat strftime : string → datetime → string).
Context (get_aggs : string → string → Z → Z → list bar).










End BackfillExtras.

Section BackfillTiers.
Import Config Backfill.

(** X27.  The backfiller and the streaming configuration read the crypto
    tier from the same variable and agree on it: both need the API key,
    and the backfiller assumes real-time access and unlimited calls
    exactly when the configuration grants crypto streaming access. *)
Theorem backfill_tier_agrees (env : environ) :
  match Config.init env, Backfill.init env with
  | Ok cfg, Ok limits =>
      has_realtime limits = has_websocket_access cfg CRYPTO
      ∧ (rate_limit_calls limits = None ↔ has_websocket_access cfg CRYPTO = true)
  | Raise _, Raise _ => True
  | _, _ => False
  end.
Proof.
  pose proof (init_get_subscription_tier env) as Htier.
  unfold Config.init, Backfill.init in *.
  destruct (env "POLYGON_API_KEY") as [k|]; [|done].
  destruct (truthy k); [|done].
  specialize (Htier _ CRYPTO eq_refl). rewrite access_of_tier, Htier.
  unfold load_tier, configure_rate_limits.
  change ("POLYGON_TIER_" +:+ upper (asset_value CRYPTO)) with "POLYGON_TIER_CRYPTO".
  generalize (lower (default "basic" (env "POLYGON_TIER_CRYPTO"))). intros v.
  unfold tier_of_value, all_tiers. cbn [find].
  destruct (String.eqb_spec (tier_value BASIC) v) as [<-|Hb]; [by vm_compute|].
  destruct (String.eqb_spec (tier_value STARTER) v) as [<-|Hs]; [by vm_compute|].
  destruct (String.eqb_spec (tier_value DEVELOPER) v) as [<-|Hd]; [by vm_compute|].
  destruct (String.eqb_spec (tier_value ADVANCED) v) as [<-|Ha]; [by vm_compute|].
  rewrite bool_decide_eq_false_2.
  - by vm_compute.
  - intros [->|[->|[->|H]%elem_of_cons]%elem_of_cons]%elem_of_cons; try done.
    by apply elem_of_nil in H.
Qed.

Lemma backfill_tier_agrees_witness :
  match Config.init Examples.env_mixed, Backfill.init Examples.env_mixed with
  | Ok cfg, Ok limits =>
      has_realtime limits = true ∧ has_websocket_access cfg CRYPTO = true
  | _, _ => False
  end.
Proof.
  generalize (backfill_tier_agrees Examples.env_mixed). vm_compute.
  intros [_ Hiff]. split; [reflexivity|]. by apply Hiff.
Defined.

End BackfillTiers.

(** ** The storing of crypto anomalies *)

Section AnomalyStoreExtras.
Import Persistence.
Context (isoformat : string → datetime → string).


End AnomalyStoreExtras.

Section AnomalyStoreSamples.
Import Persistence Samples.


End AnomalyStoreSamples.

(** ** The detectors' windows *)

Section WindowExtras.
Import Notions Persistence.

Lemma last_n_short {A} (n : nat) (l : list A) : (length l ≤ n)%nat → last_n n l = l.
Proof. intros Hle. unfold last_n. by replace (length l - n)%nat with 0%nat by lia. Qed.

Lemma last_n_app_last_n {A} (n : nat) (l r : list A) :
  last_n n (last_n n l ++ r) = last_n n (l ++ r).
Proof.
  destruct (Nat.le_gt_cases (length l) n) as [Hle|Hgt].
  - by rewrite (last_n_short n l).
  - unfold last_n. rewrite !length_app, length_drop.
    replace (length l - (length l - n) + length r - n)%nat with (length r) by lia.
    replace (length l + length r - n)%nat with ((length l - n) + length r)%nat by lia.
    rewrite <- (drop_drop (l ++ r)). by rewrite (drop_app_le l r (length l - n)) by lia.
Qed.


Lemma stocks_window_after_run (ticks : list Stocks.data) (sym : string) :
  ∀ self,
    (length (Stocks.window self sym) ≤ 20)%nat →
    Stocks.window (Stocks.run self ticks).1 sym
      = last_n 20 (Stocks.window self sym ++ stocks_volumes sym ticks).
Proof.
  unfold stocks_volumes.
  induction ticks as [|d rest IH]; intros self Hlen.
  - cbn. rewrite app_nil_r. by rewrite last_n_short.
  - rewrite stocks_run_cons. cbn [List.filter].
    destruct (String.eqb_spec (Stocks.message_type d) "aggregate") as [Hagg|Hother].
    + destruct (stocks_aggregate_step self d Hagg)
        as (self1 & store1 & _ & Hvols & _ & Hwin & Hrest).
      destruct (String.eqb_spec (Stocks.symbol d) sym) as [<-|Hne]; cbn [andb map].
      * rewrite IH by (rewrite Hwin, Hvols, last_n_length; lia).
        rewrite Hwin, Hvols, last_n_app_last_n. by rewrite <- app_assoc.
      * rewrite IH by (rewrite Hrest by done; exact Hlen).
        by rewrite Hrest.
    + destruct (stocks_other_step self d Hother) as [-> _]. cbn [andb]. by apply IH.
Qed.

(** X29.  Whatever happened to the calls, the stock detector's window of
    a symbol holds the volumes of the last 20 aggregates received for
    that symbol, in arrival order: trades, other message types and the
    aggregates of other symbols leave it alone, and an aggregate whose
    check raised is in it all the same. *)
Theorem stocks_window_contents (ticks : list Stocks.data) (sym : string) :
  Stocks.window (Stocks.run Stocks.init ticks).1 sym
    = last_n 20 (stocks_volumes sym ticks).
Proof.
  rewrite stocks_window_after_run.
  - unfold Stocks.window, Stocks.init. cbn [Stocks.data_store]. by rewrite lookup_empty.
  - unfold Stocks.window, Stocks.init. cbn [Stocks.data_store]. rewrite lookup_empty.
    cbn [length]. lia.
Qed.

Context (isoformat : string → datetime → string).




End WindowExtras.
